(** * Multi-factor attendance verification: policy engine, anomaly detector
      and attendance ledger

    A shallow embedding of the collaborating services of the backend

      - [app/services/verification.py]  (module [Verification])
      - [app/ml/face_recognition.py]    (module [FaceRecognition])
      - [app/ml/fingerprint.py]         (module [FingerprintSvc])
      - [app/services/anomaly.py]       (module [Anomaly])
      - [app/services/attendance.py]    (module [AttendanceSvc])

    together with the tables they read and write ([app/models]).

    Modelling conventions.
      - Python [float] confidences are exact rationals ([Q]); the
        arithmetic of the source is carried out without rounding.
      - [Optional[str]] and [Optional[bytes]] are [option string]; Python
        truthiness ([if x:]) is [truthy]: neither [None] nor empty.
      - The database session is an explicit value [Db] threaded through
        every operation; [db.add] followed by [flush] appends a row and
        draws its primary key from the table's sequence.
      - [datetime.now] is an explicit clock reading passed by the caller.
      - The libraries behind the comparators (image decoding, the face
        encoder and its distance, OCR validation, bcrypt) are the fields of
        [Collaborators]; a library call that raises is [None], as every
        such call sits under a [try/except] in the source.  Whether the
        face library could be imported is the field
        [face_recognition_available]; without it the face service
        simulates its answers from random draws, which are fields too,
        one draw for each call and its arguments.
      - The rows of [attendances] and [anomaly_logs] carry the columns
        the services assign or read; the stamps [created_at] and
        [updated_at], filled by the database, are left out.
      - Each comparator invocation is recorded as an event, so that
        "the comparator was (not) invoked" is a statement about a trace. *)

From Stdlib Require Import QArith Qminmax Lqa Lia List String Ascii Bool ZArith.
From Stdlib Require Import DecimalString.
Import ListNotations.

Open Scope string_scope.
Open Scope list_scope.
Open Scope Q_scope.

(** String concatenation, kept apart from list append. *)
Infix "^^" := String.append (at level 60, right associativity).

(* ================================================================== *)
(** * Python values *)

Definition bytes := string.

Definition nonempty (s : string) : bool :=
  match s with
  | EmptyString => false
  | String _ _ => true
  end.

(** [if x:] on an [Optional[str]] *)
Definition truthy (o : option string) : bool :=
  match o with
  | Some s => nonempty s
  | None => false
  end.

Definition value (o : option string) : string :=
  match o with
  | Some s => s
  | None => EmptyString
  end.

(** [x in xs] on a list of strings *)
Definition str_in (x : string) (xs : list string) : bool :=
  existsb (String.eqb x) xs.

(** [str(n)] for a non-negative integer *)
Definition str_of_nat (n : nat) : string :=
  NilEmpty.string_of_uint (Nat.to_uint n).

(** [min(a, b)]: Python returns its first argument unless the second is
    strictly smaller. *)
Definition py_min (a b : Q) : Q :=
  if Qle_bool a b then a else b.

(** [a > b] on floats *)
Definition Qgt_bool (a b : Q) : bool := negb (Qle_bool a b).

(** [x or default] on an [Optional[str]] *)
Definition str_or (o : option string) (default : string) : string :=
  if truthy o then value o else default.

(* ================================================================== *)
(** * Configuration ([app/config.py]) *)

Module Config.

Record Settings := mkSettings {
  face_recognition_tolerance : Q;
  min_face_confidence : Q
}.

Definition defaults : Settings :=
  {| face_recognition_tolerance := 0.6;
     min_face_confidence := 0.8 |}.

End Config.

(* ================================================================== *)
(** * External libraries behind the comparators *)

Record Collaborators := mkCollaborators {
  Image : Type;
  Embedding : Type;
  (** [FACE_RECOGNITION_AVAILABLE]: whether [face_recognition] could be
      imported; without it the face service simulates its answers *)
  face_recognition_available : bool;
  (** [np.random.rand(128)]: the draw made by the call in which
      [generate_embedding] simulates the embedding of an image *)
  random_embedding : Image -> Embedding;
  (** [np.random.uniform(0.7, 0.99)]: the draw made by the call in
      which [compare_faces] simulates the comparison of a stored
      embedding with an image; nothing is assumed of its value *)
  random_uniform : Embedding -> Image -> Q;
  (** base64 decoding and [Image.open]; [None] when it raises *)
  b64_image : string -> option Image;
  (** [face_locations] then [face_encodings], first face; [None] when
      no face is found or the library raises *)
  face_encodings : Image -> option Embedding;
  (** [pickle.loads]; [None] when it raises *)
  pickle_loads : bytes -> option Embedding;
  (** [face_recognition.face_distance]; [None] when it raises *)
  face_distance : Embedding -> Embedding -> option Q;
  (** [IDCardValidationService.validate_id_card] image, expected roll
      number, expected name: validity and confidence *)
  validate_id_card : string -> string -> string -> bool * Q;
  (** [utils.hashing.verify_password] (bcrypt), [False] when it raises *)
  verify_password : string -> string -> bool
}.

Inductive Modality := Face | IdCard | Fingerprint.

(** The name a modality carries in [verification_methods]. *)
Definition method_name (m : Modality) : string :=
  match m with
  | Face => "face"
  | IdCard => "id_card"
  | Fingerprint => "fingerprint"
  end.

(* ================================================================== *)
(** * [app/ml/face_recognition.py] *)

Module FaceRecognition.
Section Service.
Context (env : Collaborators) (settings : Config.Settings).

Definition tolerance : Q := Config.face_recognition_tolerance settings.

Definition decode_base64_image (base64_string : string) : option (Image env) :=
  b64_image env base64_string.

Definition generate_embedding (image : Image env) : option (Embedding env) :=
  if negb (face_recognition_available env)
  then
    (* Simulate embedding generation *)
    Some (random_embedding env image)
  else face_encodings env image.

Definition deserialize_embedding (data : bytes) : option (Embedding env) :=
  pickle_loads env data.

Definition compare_faces (known_embedding : Embedding env)
    (face_image : Image env) : bool * Q :=
  if negb (face_recognition_available env)
  then
    (* Simulate comparison with random result *)
    let confidence := random_uniform env known_embedding face_image in
    (Qgt_bool confidence 0.8, confidence)
  else
    match generate_embedding face_image with
    | None => (false, 0)
    | Some new_embedding =>
        match face_distance env known_embedding new_embedding with
        | None => (false, 0)
        | Some distance =>
            let confidence := 1 - distance in
            let is_match := Qle_bool distance tolerance in
            (is_match, confidence)
        end
    end.

Definition compare_faces_from_base64 (known_embedding : bytes)
    (base64_image : string) : bool * Q :=
  match pickle_loads env known_embedding with
  | None => (false, 0)
  | Some stored_embedding =>
      match decode_base64_image base64_image with
      | None => (false, 0)
      | Some face_image => compare_faces stored_embedding face_image
      end
  end.

(** One iteration of the loop of [find_matching_face]; the state is
    [(best_match, best_confidence)]. *)
Definition scan_step (face_image : Image env)
    (best : option Z * Q) (entry : Z * bytes) : option Z * Q :=
  let '(best_match, best_confidence) := best in
  let '(student_id, embedding_bytes) := entry in
  match deserialize_embedding embedding_bytes with
  | None => best
  | Some stored_embedding =>
      let '(is_match, confidence) :=
        compare_faces stored_embedding face_image in
      if is_match && Qgt_bool confidence best_confidence
      then (Some student_id, confidence)
      else best
  end.

Definition find_matching_face (face_image : Image env)
    (embeddings : list (Z * bytes)) : option (Z * Q) :=
  match generate_embedding face_image with
  | None => None
  | Some _ =>
      let '(best_match, best_confidence) :=
        fold_left (scan_step face_image) embeddings (None, 0) in
      match best_match with
      | Some student_id => Some (student_id, best_confidence)
      | None => None
      end
  end.

End Service.
End FaceRecognition.

(* ================================================================== *)
(** * [app/ml/fingerprint.py] *)

Module FingerprintSvc.
Section Service.
Context (env : Collaborators).

Definition verify_token (token stored_hash : string) : bool :=
  verify_password env token stored_hash.

Definition verify_fingerprint (provided_token stored_hash : string) : bool * Q :=
  let is_match := verify_token provided_token stored_hash in
  let confidence := if is_match then 0.95 else 0 in
  (is_match, confidence).

End Service.
End FingerprintSvc.

(* ================================================================== *)
(** * Comparator invocations as events *)

(** A computation that returns a value and the comparators it invoked,
    in order. *)
Definition Traced (A : Type) : Type := (A * list Modality)%type.

Definition ret {A : Type} (a : A) : Traced A := (a, []).

Definition bind {A B : Type} (m : Traced A) (k : A -> Traced B) : Traced B :=
  let '(a, t1) := m in
  let '(b, t2) := k a in
  (b, t1 ++ t2).

(** The call of an external comparator of modality [m] that returned [a]. *)
Definition invoke {A : Type} (m : Modality) (a : A) : Traced A := (a, [m]).

Declare Scope traced_scope.
Delimit Scope traced_scope with traced.
Notation "x <- m ;; k" := (bind m (fun x => k))
  (at level 61, m at next level, right associativity) : traced_scope.
Notation "' p <- m ;; k" := (bind m (fun x => let 'p := x in k))
  (at level 61, p pattern, m at next level, right associativity) : traced_scope.

(* ================================================================== *)
(** * [app/services/verification.py] *)

Module Verification.

Record VerificationResult := mkResult {
  success : bool;
  face_verified : bool;
  face_confidence : Q;
  id_card_verified : bool;
  id_card_confidence : Q;
  fingerprint_verified : bool;
  overall_confidence : Q;
  verification_method : string;
  message : string;
  anomaly_detected : bool;
  anomaly_reason : option string
}.

(** [VerificationResult(success=ok)], the other fields at their
    dataclass defaults. *)
Definition new_result (ok : bool) : VerificationResult :=
  mkResult ok false 0 false 0 false 0 EmptyString EmptyString false None.

(** Attribute assignments on the result object. *)
Definition set_success (r : VerificationResult) (ok : bool) :=
  mkResult ok (face_verified r) (face_confidence r) (id_card_verified r)
    (id_card_confidence r) (fingerprint_verified r) (overall_confidence r)
    (verification_method r) (message r) (anomaly_detected r) (anomaly_reason r).

Definition set_face (r : VerificationResult) (v : bool) (c : Q) :=
  mkResult (success r) v c (id_card_verified r)
    (id_card_confidence r) (fingerprint_verified r) (overall_confidence r)
    (verification_method r) (message r) (anomaly_detected r) (anomaly_reason r).

Definition set_id_card (r : VerificationResult) (v : bool) (c : Q) :=
  mkResult (success r) (face_verified r) (face_confidence r) v c
    (fingerprint_verified r) (overall_confidence r)
    (verification_method r) (message r) (anomaly_detected r) (anomaly_reason r).

Definition set_fingerprint_verified (r : VerificationResult) (v : bool) :=
  mkResult (success r) (face_verified r) (face_confidence r)
    (id_card_verified r) (id_card_confidence r) v (overall_confidence r)
    (verification_method r) (message r) (anomaly_detected r) (anomaly_reason r).

Definition set_overall_confidence (r : VerificationResult) (c : Q) :=
  mkResult (success r) (face_verified r) (face_confidence r)
    (id_card_verified r) (id_card_confidence r) (fingerprint_verified r) c
    (verification_method r) (message r) (anomaly_detected r) (anomaly_reason r).

Definition set_verification_method (r : VerificationResult) (m : string) :=
  mkResult (success r) (face_verified r) (face_confidence r)
    (id_card_verified r) (id_card_confidence r) (fingerprint_verified r)
    (overall_confidence r) m (message r) (anomaly_detected r) (anomaly_reason r).

Definition set_message (r : VerificationResult) (m : string) :=
  mkResult (success r) (face_verified r) (face_confidence r)
    (id_card_verified r) (id_card_confidence r) (fingerprint_verified r)
    (overall_confidence r) (verification_method r) m
    (anomaly_detected r) (anomaly_reason r).

(** [anomaly_detected = True; anomaly_reason = reason] *)
Definition flag_anomaly (r : VerificationResult) (reason : string) :=
  mkResult (success r) (face_verified r) (face_confidence r)
    (id_card_verified r) (id_card_confidence r) (fingerprint_verified r)
    (overall_confidence r) (verification_method r) (message r)
    true (Some reason).

Section Service.
Context (env : Collaborators) (settings : Config.Settings).

Definition min_face_confidence : Q := Config.min_face_confidence settings.

Definition face_weight : Q := 0.5.
Definition id_weight : Q := 0.3.
Definition fingerprint_weight : Q := 0.2.

Definition verify_face (face_image_base64 : string)
    (stored_embedding : bytes) : Traced (bool * Q) :=
  if negb (nonempty stored_embedding) then ret (false, 0)
  else invoke Face
         (FaceRecognition.compare_faces_from_base64 env settings
            stored_embedding face_image_base64).

Definition verify_id_card (id_card_image_base64 expected_roll_no
    expected_name : string) : Traced (bool * Q) :=
  invoke IdCard
    (validate_id_card env id_card_image_base64 expected_roll_no expected_name).

Definition verify_fingerprint (fingerprint_token stored_hash : string)
    : Traced (bool * Q) :=
  if negb (nonempty stored_hash) then ret (false, 0)
  else invoke Fingerprint
         (FingerprintSvc.verify_fingerprint env fingerprint_token stored_hash).

Definition calculate_overall_confidence (face_confidence id_confidence : Q)
    (fingerprint_match : bool) : Q :=
  let fingerprint_confidence := if fingerprint_match then 0.95 else 0 in
  let overall :=
    face_confidence * face_weight
    + id_confidence * id_weight
    + fingerprint_confidence * fingerprint_weight in
  py_min overall 1.

(** The number of applicable methods for which the matching flag is set
    (the generator expression summed in the two-factor branch). *)
Definition count_passed (verification_methods : list string)
    (face_verified id_verified fingerprint_verified : bool) : nat :=
  List.length
    (filter (fun m =>
               (String.eqb m "face" && face_verified)
               || (String.eqb m "id_card" && id_verified)
               || (String.eqb m "fingerprint" && fingerprint_verified))
            verification_methods).

(** The last part of [verify_student], from "Determine success based
    on available verification methods" to the [return]: the tiered
    decision, a function of the methods gathered and the verdicts. *)
Definition determine_success (result : VerificationResult)
    (verification_methods : list string)
    (face_verified : bool) (face_confidence : Q)
    (id_verified fingerprint_verified : bool) : VerificationResult :=
  match List.length verification_methods with
  | O =>
      let result := set_success result false in
      let result := set_message result "No verification data provided" in
      flag_anomaly result "No biometric data provided for verification"
  | 1%nat =>
      (* Single factor verification *)
      let result :=
        if str_in "face" verification_methods
        then set_success result
               (face_verified
                && Qle_bool min_face_confidence face_confidence)
        else if str_in "id_card" verification_methods
        then set_success result id_verified
        else if str_in "fingerprint" verification_methods
        then set_success result fingerprint_verified
        else result in
      let first := hd EmptyString verification_methods in
      let result :=
        if negb (success result)
        then flag_anomaly result
               ("Single factor verification failed: " ^^ first)
        else result in
      set_message result ("Single factor (" ^^ first ^^ ") verification")
  | 2%nat =>
      (* Two-factor verification - both must pass *)
      let passed :=
        count_passed verification_methods
          face_verified id_verified fingerprint_verified in
      let result := set_success result (Nat.eqb passed 2) in
      let result :=
        if negb (success result)
        then flag_anomaly result
               ("Two-factor verification failed: only "
                  ^^ str_of_nat passed ^^ "/2 passed")
        else result in
      set_message result
        ("Two-factor verification: " ^^ str_of_nat passed ^^ "/2 passed")
  | _ =>
      (* Full three-factor verification *)
      let all_passed :=
        face_verified && id_verified && fingerprint_verified in
      let result := set_success result all_passed in
      let result :=
        if negb all_passed
        then
          let failed := if negb face_verified then ["face"] else [] in
          let failed :=
            if negb id_verified then failed ++ ["id_card"] else failed in
          let failed :=
            if negb fingerprint_verified then failed ++ ["fingerprint"]
            else failed in
          flag_anomaly result
            ("Multi-factor verification failed: "
               ^^ String.concat ", " failed)
        else result in
      set_message result
        ("Three-factor verification"
           ^^ (if all_passed then " passed" else " failed"))
  end.

Definition verify_student (student_roll_no student_name : string)
    (stored_face_embedding : option bytes)
    (stored_fingerprint_hash : option string)
    (face_image_base64 id_card_image_base64 fingerprint_token : option string)
    : Traced VerificationResult :=
  let result := new_result false in
  (* Verify face if provided *)
  let face_on := truthy face_image_base64 && truthy stored_face_embedding in
  ('(face_verified, face_confidence) <-
     (if face_on
      then verify_face (value face_image_base64) (value stored_face_embedding)
      else ret (false, 0)) ;;
   let result :=
     if face_on then set_face result face_verified face_confidence
     else result in
   let verification_methods := if face_on then ["face"] else [] in
   (* Verify ID card if provided *)
   let id_on := truthy id_card_image_base64 in
   '(id_verified, id_confidence) <-
     (if id_on
      then verify_id_card (value id_card_image_base64)
             student_roll_no student_name
      else ret (false, 0)) ;;
   let result :=
     if id_on then set_id_card result id_verified id_confidence
     else result in
   let verification_methods :=
     if id_on then verification_methods ++ ["id_card"]
     else verification_methods in
   (* Verify fingerprint if provided *)
   let fp_on := truthy fingerprint_token && truthy stored_fingerprint_hash in
   '(fingerprint_verified, _) <-
     (if fp_on
      then verify_fingerprint (value fingerprint_token)
             (value stored_fingerprint_hash)
      else ret (false, 0)) ;;
   let result :=
     if fp_on then set_fingerprint_verified result fingerprint_verified
     else result in
   let verification_methods :=
     if fp_on then verification_methods ++ ["fingerprint"]
     else verification_methods in
   (* Calculate overall confidence *)
   let result :=
     set_overall_confidence result
       (calculate_overall_confidence face_confidence id_confidence
          fingerprint_verified) in
   (* Set verification method string *)
   let result :=
     set_verification_method result
       match verification_methods with
       | [] => "none"
       | _ => String.concat "+" verification_methods
       end in
   (* Determine success based on available verification methods *)
   ret (determine_success result verification_methods
          face_verified face_confidence id_verified fingerprint_verified)
  )%traced.

End Service.
End Verification.

(* ================================================================== *)
(** * Tables ([app/models]) and request schema ([app/schemas]) *)

Module Student.
Record t := mk {
  id : Z;
  roll_no : string;
  name : string;
  college_id : string;
  face_embedding : option bytes;
  fingerprint_hash : option string;
  id_card_data : option string;
  is_enrolled : bool
}.
End Student.

Module Session.
Record t := mk {
  id : Z;
  is_active : bool
}.
End Session.

Inductive AttendanceStatus := PRESENT | ABSENT | LATE | EXCUSED.

Module Attendance.
(** The columns of [attendances] the services assign or read.  The
    stamps [created_at] and [updated_at], which the database fills by
    [server_default=func.now()] and [onupdate=func.now()], are left
    out. *)
Record t := mk {
  id : Z;
  student_id : Z;
  session_id : Z;
  status : AttendanceStatus;
  face_confidence : option Q;
  id_card_confidence : option Q;
  fingerprint_match : option bool;
  overall_confidence : Q;
  verification_method : string;
  marked_at : Z;
  device_info : option string;
  ip_address : option string
}.

Definition with_status (a : t) (s : AttendanceStatus) : t :=
  mk (id a) (student_id a) (session_id a) s (face_confidence a)
     (id_card_confidence a) (fingerprint_match a) (overall_confidence a)
     (verification_method a) (marked_at a) (device_info a) (ip_address a).
End Attendance.

Module AnomalyLog.
(** The columns of [anomaly_logs] the services assign or read.  The
    stamps [created_at] and [updated_at], which the database fills by
    [server_default=func.now()] and [onupdate=func.now()], are left
    out. *)
Record t := mk {
  id : Z;
  student_id : option Z;
  session_id : option Z;
  anomaly_type : string;
  severity : string;
  reason : string;
  details : option string;
  is_resolved : bool;
  resolved_by : option Z;
  resolution_notes : option string;
  resolved_at : option Z;
  attempt_time : Z;
  ip_address : option string;
  device_info : option string
}.

(** The four assignments of [resolve_anomaly]. *)
Definition resolved (a : t) (by_user : Z) (notes : string) (now : Z) : t :=
  mk (id a) (student_id a) (session_id a) (anomaly_type a) (severity a)
     (reason a) (details a) true (Some by_user) (Some notes) (Some now)
     (attempt_time a) (ip_address a) (device_info a).

(** Everything but the resolution fields. *)
Definition same_incident (a b : t) : Prop :=
  id a = id b /\ student_id a = student_id b /\ session_id a = session_id b
  /\ anomaly_type a = anomaly_type b /\ severity a = severity b
  /\ reason a = reason b /\ details a = details b
  /\ attempt_time a = attempt_time b /\ ip_address a = ip_address b
  /\ device_info a = device_info b.
End AnomalyLog.

Module AttendanceMarkRequest.
Record t := mk {
  session_id : Z;
  student_id : Z;
  face_image : option string;
  id_card_image : option string;
  fingerprint_token : option string;
  device_info : option string
}.
End AttendanceMarkRequest.

(** The database session: the four tables and the two sequences that
    issue primary keys. *)
Record Db := mkDb {
  students : list Student.t;
  sessions : list Session.t;
  attendances : list Attendance.t;
  anomaly_logs : list AnomalyLog.t;
  attendance_seq : Z;
  anomaly_seq : Z
}.

(** [db.add(attendance); flush]: the row receives the next key. *)
Definition add_attendance (db : Db) (mk_row : Z -> Attendance.t) : Db * Attendance.t :=
  let row := mk_row (attendance_seq db + 1)%Z in
  (mkDb (students db) (sessions db) (attendances db ++ [row])
        (anomaly_logs db) (attendance_seq db + 1)%Z (anomaly_seq db),
   row).

(** [db.add(anomaly); flush] *)
Definition add_anomaly (db : Db) (mk_row : Z -> AnomalyLog.t) : Db * AnomalyLog.t :=
  let row := mk_row (anomaly_seq db + 1)%Z in
  (mkDb (students db) (sessions db) (attendances db)
        (anomaly_logs db ++ [row]) (attendance_seq db) (anomaly_seq db + 1)%Z,
   row).

Definition set_attendances (db : Db) (rows : list Attendance.t) : Db :=
  mkDb (students db) (sessions db) rows (anomaly_logs db)
       (attendance_seq db) (anomaly_seq db).

Definition set_anomaly_logs (db : Db) (rows : list AnomalyLog.t) : Db :=
  mkDb (students db) (sessions db) (attendances db) rows
       (attendance_seq db) (anomaly_seq db).

(** Writing back the first row selected by [p] (the loaded ORM object). *)
Fixpoint update_first {A : Type} (p : A -> bool) (f : A -> A) (rows : list A) : list A :=
  match rows with
  | [] => []
  | r :: rest => if p r then f r :: rest else r :: update_first p f rest
  end.

(* ================================================================== *)
(** * [app/services/attendance.py] *)

Module AttendanceSvc.
Import Verification.

(** [AttendanceVerificationResult(success=False, message=msg)] *)
Definition rejection (msg : string) : VerificationResult :=
  set_message (new_result false) msg.

Definition msg_student_not_found := "Student not found".
Definition msg_session_not_found := "Session not found".
Definition msg_session_inactive := "Session is not active for attendance marking".
Definition msg_already_marked := "Attendance already marked for this session".
Definition msg_not_enrolled :=
  "Student biometrics not enrolled. Please complete enrollment first.".

Definition get_student (db : Db) (student_id : Z) : option Student.t :=
  find (fun s => Z.eqb (Student.id s) student_id) (students db).

Definition get_session (db : Db) (session_id : Z) : option Session.t :=
  find (fun s => Z.eqb (Session.id s) session_id) (sessions db).

Definition same_pair (student_id session_id : Z) (a : Attendance.t) : bool :=
  Z.eqb (Attendance.student_id a) student_id
  && Z.eqb (Attendance.session_id a) session_id.

Definition check_existing_attendance (db : Db) (student_id session_id : Z)
    : option Attendance.t :=
  find (same_pair student_id session_id) (attendances db).

Definition _log_anomaly (db : Db) (student_id session_id : Z)
    (anomaly_type reason : string) (ip_address device_info : option string)
    (now : Z) : Db * AnomalyLog.t :=
  add_anomaly db (fun pk =>
    {| AnomalyLog.id := pk;
       AnomalyLog.student_id := Some student_id;
       AnomalyLog.session_id := Some session_id;
       AnomalyLog.anomaly_type := anomaly_type;
       AnomalyLog.severity := "medium";
       AnomalyLog.reason := reason;
       AnomalyLog.details := None;
       AnomalyLog.is_resolved := false;
       AnomalyLog.resolved_by := None;
       AnomalyLog.resolution_notes := None;
       AnomalyLog.resolved_at := None;
       AnomalyLog.attempt_time := now;
       AnomalyLog.ip_address := ip_address;
       AnomalyLog.device_info := device_info |}).

Section Service.
Context (env : Collaborators) (settings : Config.Settings).

(** The call of [verify_student] made for a student row and a request. *)
Definition verify_request (student : Student.t)
    (request : AttendanceMarkRequest.t) : Traced VerificationResult :=
  verify_student env settings
    (Student.roll_no student) (Student.name student)
    (Student.face_embedding student) (Student.fingerprint_hash student)
    (AttendanceMarkRequest.face_image request)
    (AttendanceMarkRequest.id_card_image request)
    (AttendanceMarkRequest.fingerprint_token request).

Definition mark_attendance (db : Db) (request : AttendanceMarkRequest.t)
    (ip_address : option string) (now : Z)
    : Traced (Db * option Attendance.t * VerificationResult) :=
  let student_id := AttendanceMarkRequest.student_id request in
  let session_id := AttendanceMarkRequest.session_id request in
  match get_student db student_id with
  | None => ret (db, None, rejection msg_student_not_found)
  | Some student =>
  match get_session db session_id with
  | None => ret (db, None, rejection msg_session_not_found)
  | Some session =>
  if negb (Session.is_active session)
  then ret (db, None, rejection msg_session_inactive)
  else
  match check_existing_attendance db student_id session_id with
  | Some _ => ret (db, None, rejection msg_already_marked)
  | None =>
  if negb (Student.is_enrolled student)
  then ret (db, None, rejection msg_not_enrolled)
  else
    (verification_result <- verify_request student request ;;
     (* Log anomaly if detected *)
     let db1 :=
       if anomaly_detected verification_result
       then fst (_log_anomaly db (Student.id student) (Session.id session)
                   "verification_failed"
                   (str_or (anomaly_reason verification_result)
                      "Verification failed")
                   ip_address (AttendanceMarkRequest.device_info request) now)
       else db in
     (* Create attendance record if verification passed *)
     if success verification_result
     then
       let '(db2, attendance) :=
         add_attendance db1 (fun pk =>
           {| Attendance.id := pk;
              Attendance.student_id := Student.id student;
              Attendance.session_id := Session.id session;
              Attendance.status := PRESENT;
              Attendance.face_confidence :=
                if face_verified verification_result
                then Some (face_confidence verification_result) else None;
              Attendance.id_card_confidence :=
                if id_card_verified verification_result
                then Some (id_card_confidence verification_result) else None;
              Attendance.fingerprint_match :=
                Some (fingerprint_verified verification_result);
              Attendance.overall_confidence :=
                overall_confidence verification_result;
              Attendance.verification_method :=
                verification_method verification_result;
              Attendance.marked_at := now;
              Attendance.device_info :=
                AttendanceMarkRequest.device_info request;
              Attendance.ip_address := ip_address |}) in
       ret (db2, Some attendance, verification_result)
     else ret (db1, None, verification_result))%traced
  end end end.

Definition update_attendance_status (db : Db) (attendance_id : Z)
    (status : AttendanceStatus) (updated_by : Z) : Db * option Attendance.t :=
  let is_row := fun a => Z.eqb (Attendance.id a) attendance_id in
  match find is_row (attendances db) with
  | Some attendance =>
      (set_attendances db
         (update_first is_row (fun a => Attendance.with_status a status)
            (attendances db)),
       Some (Attendance.with_status attendance status))
  | None => (db, None)
  end.

End Service.
End AttendanceSvc.

(* ================================================================== *)
(** * [app/services/anomaly.py] *)

Module Anomaly.
Section Service.
Context (env : Collaborators) (settings : Config.Settings).

(** [details] is the JSON text of a non-empty dictionary, or [None]. *)
Definition log_anomaly (db : Db) (anomaly_type reason : string)
    (student_id session_id : option Z) (severity : string)
    (details ip_address device_info : option string) (now : Z)
    : Db * AnomalyLog.t :=
  add_anomaly db (fun pk =>
    {| AnomalyLog.id := pk;
       AnomalyLog.student_id := student_id;
       AnomalyLog.session_id := session_id;
       AnomalyLog.anomaly_type := anomaly_type;
       AnomalyLog.severity := severity;
       AnomalyLog.reason := reason;
       AnomalyLog.details := details;
       AnomalyLog.is_resolved := false;
       AnomalyLog.resolved_by := None;
       AnomalyLog.resolution_notes := None;
       AnomalyLog.resolved_at := None;
       AnomalyLog.attempt_time := now;
       AnomalyLog.ip_address := ip_address;
       AnomalyLog.device_info := device_info |}).

(** The rows selected by the query of [check_duplicate_face]: same
    college, a stored face embedding, not the claiming student. *)
Definition other_faces (db : Db) (claiming_student_id : Z)
    (college_id : string) : list (Z * bytes) :=
  flat_map (fun s =>
              match Student.face_embedding s with
              | Some e =>
                  if String.eqb (Student.college_id s) college_id
                     && negb (Z.eqb (Student.id s) claiming_student_id)
                  then [(Student.id s, e)] else []
              | None => []
              end)
           (students db).

Definition check_duplicate_face (db : Db) (face_image_base64 : string)
    (claiming_student_id : Z) (college_id : string) : option Z :=
  match other_faces db claiming_student_id college_id with
  | [] => None
  | embeddings =>
      match FaceRecognition.decode_base64_image env face_image_base64 with
      | None => None
      | Some face_image =>
          match FaceRecognition.find_matching_face env settings
                  face_image embeddings with
          | Some (matched_student_id, confidence) => Some matched_student_id
          | None => None
          end
      end
  end.

Definition resolve_anomaly (db : Db) (anomaly_id resolved_by : Z)
    (resolution_notes : string) (now : Z) : Db * option AnomalyLog.t :=
  let is_row := fun a => Z.eqb (AnomalyLog.id a) anomaly_id in
  match find is_row (anomaly_logs db) with
  | Some anomaly =>
      let resolve := fun a =>
        AnomalyLog.resolved a resolved_by resolution_notes now in
      (set_anomaly_logs db (update_first is_row resolve (anomaly_logs db)),
       Some (resolve anomaly))
  | None => (db, None)
  end.

End Service.
End Anomaly.

(* ================================================================== *)
(** * [app/routers/sessions.py] *)

Module SessionsRouter.

(** [activate_session]: opens or closes a session for marking; [None]
    is the 404 answer. *)
Definition activate_session (db : Db) (session_id : Z) (is_active : bool)
    : Db * option Session.t :=
  let is_row := fun s => Z.eqb (Session.id s) session_id in
  match find is_row (sessions db) with
  | Some session =>
      let set := fun s => Session.mk (Session.id s) is_active in
      (mkDb (students db) (update_first is_row set (sessions db))
            (attendances db) (anomaly_logs db)
            (attendance_seq db) (anomaly_seq db),
       Some (set session))
  | None => (db, None)
  end.

End SessionsRouter.

(* ================================================================== *)
(** * The write operations of the services, as a transition system *)

Inductive Op :=
| MarkAttendance (request : AttendanceMarkRequest.t)
    (ip_address : option string) (now : Z)
| UpdateAttendanceStatus (attendance_id : Z) (status : AttendanceStatus)
    (updated_by : Z)
| LogAnomaly (anomaly_type reason : string) (student_id session_id : option Z)
    (severity : string) (details ip_address device_info : option string)
    (now : Z)
| ResolveAnomaly (anomaly_id resolved_by : Z) (resolution_notes : string)
    (now : Z).

Definition step (env : Collaborators) (settings : Config.Settings)
    (db : Db) (op : Op) : Db :=
  match op with
  | MarkAttendance request ip now =>
      fst (fst (fst (AttendanceSvc.mark_attendance env settings db request ip now)))
  | UpdateAttendanceStatus attendance_id status updated_by =>
      fst (AttendanceSvc.update_attendance_status db attendance_id status updated_by)
  | LogAnomaly anomaly_type reason student_id session_id severity details ip dev now =>
      fst (Anomaly.log_anomaly db anomaly_type reason student_id session_id
             severity details ip dev now)
  | ResolveAnomaly anomaly_id resolved_by notes now =>
      fst (Anomaly.resolve_anomaly db anomaly_id resolved_by notes now)
  end.

Definition run (env : Collaborators) (settings : Config.Settings)
    (db : Db) (ops : list Op) : Db :=
  fold_left (step env settings) ops db.

(* ================================================================== *)
(** * Reference definitions

    The policies as the specification words them ([tiered_policy],
    [weighted_sum], [clamped_weighted_sum], [applicable_spec],
    [first_best]) and the vocabulary in which the properties of the
    services are stated. *)

Module Reference.
Import Verification.

(** [FactorOutcome] of the data model, for an applicable factor. *)
Record FactorOutcome := mkOutcome {
  modality : Modality;
  verified : bool;
  confidence : Q
}.

Definition outcome (m : Modality) (r : bool * Q) : FactorOutcome :=
  mkOutcome m (fst r) (snd r).

(** The tiered success policy of the specification, by the number of
    applicable factors. *)
Definition tiered_policy (min_face : Q) (applicable : list FactorOutcome) : bool :=
  match applicable with
  | [] => false
  | [f] =>
      verified f
      && match modality f with
         | Face => Qle_bool min_face (confidence f)
         | _ => true
         end
  | [f; g] => verified f && verified g
  | [f; g; h] => verified f && verified g && verified h
  | _ => false
  end.

(** Policy weight of a modality. *)
Definition weight (m : Modality) : Q :=
  match m with
  | Face => 0.50
  | IdCard => 0.30
  | Fingerprint => 0.20
  end.

(** What a factor contributes to the aggregate: its confidence, the
    fingerprint's being 0.95 when matched and 0 otherwise. *)
Definition contribution (o : FactorOutcome) : Q :=
  match modality o with
  | Fingerprint => if verified o then 0.95 else 0
  | _ => confidence o
  end.

(** Sum of weight times confidence over the applicable factors only. *)
Definition weighted_sum (applicable : list FactorOutcome) : Q :=
  fold_right (fun o acc => weight (modality o) * contribution o + acc) 0
    applicable.

(** The fixed weighted sum over three confidences, clamped at one. *)
Definition clamped_weighted_sum (face_confidence id_confidence : Q)
    (fingerprint_match : bool) : Q :=
  Qmin (0.50 * face_confidence + 0.30 * id_confidence
        + 0.20 * (if fingerprint_match then 0.95 else 0)) 1.

Definition in_unit (q : Q) : Prop := 0 <= q /\ q <= 1.

(** The caller supplied raw input for the modality. *)
Definition supplied (m : Modality) (request : AttendanceMarkRequest.t) : bool :=
  match m with
  | Face => truthy (AttendanceMarkRequest.face_image request)
  | IdCard => truthy (AttendanceMarkRequest.id_card_image request)
  | Fingerprint => truthy (AttendanceMarkRequest.fingerprint_token request)
  end.

(** The identity's enrolled template for the modality exists. *)
Definition template_exists (m : Modality) (student : Student.t) : bool :=
  match m with
  | Face => truthy (Student.face_embedding student)
  | IdCard => truthy (Student.id_card_data student)
  | Fingerprint => truthy (Student.fingerprint_hash student)
  end.

(** Applicability as the specification words it: input supplied and
    template enrolled, for every modality alike. *)
Definition applicable_spec (m : Modality) (student : Student.t)
    (request : AttendanceMarkRequest.t) : bool :=
  supplied m request && template_exists m student.

(** Applicability as [verify_student] decides it: the id-card factor
    is compared against the roll number and name of the student row
    and asks for no enrolled id-card data. *)
Definition applicable (m : Modality) (student : Student.t)
    (request : AttendanceMarkRequest.t) : bool :=
  match m with
  | IdCard => supplied IdCard request
  | _ => supplied m request && template_exists m student
  end.

(** The method descriptor of a list of evaluated modalities. *)
Definition descriptor (evaluated : list Modality) : string :=
  match evaluated with
  | [] => "none"
  | _ => String.concat "+" (map method_name evaluated)
  end.

Section Outcomes.
Context (env : Collaborators) (settings : Config.Settings).

(** What the comparator of a modality reports for a student row and a
    request. *)
Definition comparator_report (m : Modality) (student : Student.t)
    (request : AttendanceMarkRequest.t) : bool * Q :=
  match m with
  | Face =>
      FaceRecognition.compare_faces_from_base64 env settings
        (value (Student.face_embedding student))
        (value (AttendanceMarkRequest.face_image request))
  | IdCard =>
      validate_id_card env
        (value (AttendanceMarkRequest.id_card_image request))
        (Student.roll_no student) (Student.name student)
  | Fingerprint =>
      FingerprintSvc.verify_fingerprint env
        (value (AttendanceMarkRequest.fingerprint_token request))
        (value (Student.fingerprint_hash student))
  end.

(** The outcomes of the applicable factors, in the order face,
    id card, fingerprint. *)
Definition applicable_outcomes (student : Student.t)
    (request : AttendanceMarkRequest.t) : list FactorOutcome :=
  map (fun m => outcome m (comparator_report m student request))
      (filter (fun m => applicable m student request)
              [Face; IdCard; Fingerprint]).

(** The outcomes of the factors applicable in the words of the
    specification, in the same order. *)
Definition applicable_outcomes_spec (student : Student.t)
    (request : AttendanceMarkRequest.t) : list FactorOutcome :=
  map (fun m => outcome m (comparator_report m student request))
      (filter (fun m => applicable_spec m student request)
              [Face; IdCard; Fingerprint]).

Definition applicable_modalities (student : Student.t)
    (request : AttendanceMarkRequest.t) : list Modality :=
  filter (fun m => applicable m student request) [Face; IdCard; Fingerprint].

(** The verdict and confidence recorded for a modality: the
    comparator's report when the factor is applicable, the defaults
    otherwise. *)
Definition recorded (m : Modality) (student : Student.t)
    (request : AttendanceMarkRequest.t) : bool * Q :=
  if applicable m student request
  then comparator_report m student request
  else (false, 0).

(** The result object as it stands when [verify_student] reaches its
    tiered decision. *)
Definition gathered (student : Student.t)
    (request : AttendanceMarkRequest.t) : VerificationResult :=
  let fr := recorded Face student request in
  let ir := recorded IdCard student request in
  let pr := recorded Fingerprint student request in
  mkResult false (fst fr) (snd fr) (fst ir) (snd ir) (fst pr)
    (calculate_overall_confidence (snd fr) (snd ir) (fst pr))
    (descriptor (applicable_modalities student request))
    EmptyString false None.

(** The result of the verification made for a student row and a
    request, and the comparators it invoked. *)
Definition verdict (student : Student.t)
    (request : AttendanceMarkRequest.t) : VerificationResult :=
  fst (AttendanceSvc.verify_request env settings student request).

Definition evaluated (student : Student.t)
    (request : AttendanceMarkRequest.t) : list Modality :=
  snd (AttendanceSvc.verify_request env settings student request).

(** What the face comparator reports for each scanned identity; an
    embedding that cannot be deserialized is no match. *)
Definition scan_reports (face_image : Image env)
    (embeddings : list (Z * bytes)) : list (Z * (bool * Q)) :=
  map (fun entry : Z * bytes =>
         (fst entry,
          match FaceRecognition.deserialize_embedding env (snd entry) with
          | Some stored => FaceRecognition.compare_faces env settings stored face_image
          | None => (false, 0)
          end))
      embeddings.

End Outcomes.

(** The body of the scanning loop, on a comparator report. *)
Definition pick (best : option Z * Q) (report : Z * (bool * Q)) : option Z * Q :=
  if fst (snd report) && Qgt_bool (snd (snd report)) (snd best)
  then (Some (fst report), snd (snd report))
  else best.

(** [reports] contains a comparator-classified match. *)
Definition has_match (reports : list (Z * (bool * Q))) : Prop :=
  exists sid c, In (sid, (true, c)) reports.

(** [(sid, c)] is the highest-confidence match of [reports], the first
    one encountered among equals. *)
Definition first_best (reports : list (Z * (bool * Q))) (sid : Z) (c : Q) : Prop :=
  exists i,
    nth_error reports i = Some (sid, (true, c))
    /\ forall j sid' c',
         nth_error reports j = Some (sid', (true, c')) ->
         c' <= c /\ ((j < i)%nat -> c' < c).

(** What the scanning loop maintains after the reports [seen]: no
    best yet and no match of positive confidence so far, or the first
    best among the matches so far, of positive confidence. *)
Definition scan_invariant (seen : list (Z * (bool * Q)))
    (best : option Z * Q) : Prop :=
  match fst best with
  | None =>
      snd best = 0
      /\ forall sid c, In (sid, (true, c)) seen -> c <= 0
  | Some sid => 0 < snd best /\ first_best seen sid (snd best)
  end.

(** The (student, session) pairs of the attendance rows, in order. *)
Definition pairs (db : Db) : list (Z * Z) :=
  map (fun a => (Attendance.student_id a, Attendance.session_id a))
      (attendances db).

(** At most one attendance row per (student, session). *)
Definition unique_student_session (db : Db) : Prop := NoDup (pairs db).

Definition count_pair (db : Db) (student_id session_id : Z) : nat :=
  List.length (filter (AttendanceSvc.same_pair student_id session_id)
                 (attendances db)).

End Reference.

(* ================================================================== *)
(** * A concrete deployment, for running the services on examples *)

Module Demo.

(** Images and embeddings are strings; the distance between two
    embeddings is a tenth of the difference of their lengths; an id
    card is valid when its text is the roll number; a fingerprint
    token matches the hash it is equal to. *)
Definition env : Collaborators :=
  {| Image := string;
     Embedding := string;
     face_recognition_available := true;
     random_embedding := fun img => img;
     random_uniform := fun _ _ => 0.9;
     b64_image := fun s => if nonempty s then Some s else None;
     face_encodings := fun img => Some img;
     pickle_loads := fun b => Some b;
     face_distance := fun known new =>
       Some (Z.abs (Z.of_nat (String.length known)
                    - Z.of_nat (String.length new)) # 10);
     validate_id_card := fun img roll _ =>
       if String.eqb img roll then (true, 1) else (false, 0.1);
     verify_password := String.eqb |}.

Definition settings : Config.Settings := Config.defaults.

(** The same deployment with the face tolerance raised to one. *)
Definition lax_settings : Config.Settings :=
  {| Config.face_recognition_tolerance := 1;
     Config.min_face_confidence := 0.8 |}.

Definition alice : Student.t :=
  {| Student.id := 1; Student.roll_no := "CS2024001"; Student.name := "Alice Roy";
     Student.college_id := "C1"; Student.face_embedding := Some "aaaa";
     Student.fingerprint_hash := Some "tok-alice"; Student.id_card_data := None;
     Student.is_enrolled := true |}.

Definition bob : Student.t :=
  {| Student.id := 2; Student.roll_no := "CS2024002"; Student.name := "Bob Sen";
     Student.college_id := "C1"; Student.face_embedding := Some "bbbbb";
     Student.fingerprint_hash := None; Student.id_card_data := None;
     Student.is_enrolled := true |}.

Definition carol : Student.t :=
  {| Student.id := 3; Student.roll_no := "CS2024003"; Student.name := "Carol Das";
     Student.college_id := "C1"; Student.face_embedding := Some "cccc";
     Student.fingerprint_hash := None; Student.id_card_data := None;
     Student.is_enrolled := true |}.

Definition dave : Student.t :=
  {| Student.id := 4; Student.roll_no := "CS2024004"; Student.name := "Dave Pal";
     Student.college_id := "C1"; Student.face_embedding := None;
     Student.fingerprint_hash := None; Student.id_card_data := None;
     Student.is_enrolled := false |}.

Definition open_session : Session.t := {| Session.id := 10; Session.is_active := true |}.
Definition closed_session : Session.t := {| Session.id := 11; Session.is_active := false |}.

Definition db0 : Db :=
  {| students := [alice; bob; carol; dave];
     sessions := [open_session; closed_session];
     attendances := [];
     anomaly_logs := [];
     attendance_seq := 0;
     anomaly_seq := 0 |}.

Definition request (student_id session_id : Z)
    (face id_card fingerprint : option string) : AttendanceMarkRequest.t :=
  {| AttendanceMarkRequest.session_id := session_id;
     AttendanceMarkRequest.student_id := student_id;
     AttendanceMarkRequest.face_image := face;
     AttendanceMarkRequest.id_card_image := id_card;
     AttendanceMarkRequest.fingerprint_token := fingerprint;
     AttendanceMarkRequest.device_info := None |}.

(** Alice, session 10, her fingerprint token only. *)
Definition alice_fp : AttendanceMarkRequest.t :=
  request 1 10 None None (Some "tok-alice").

(** Alice, session 10, a wrong fingerprint token. *)
Definition alice_bad_fp : AttendanceMarkRequest.t :=
  request 1 10 None None (Some "tok-wrong").

(** Alice, session 10, an id card image only. *)
Definition alice_id_only : AttendanceMarkRequest.t :=
  request 1 10 None (Some "scan") None.

(** The database after Alice's successful mark at time 100. *)
Definition db1 : Db :=
  fst (fst (fst (AttendanceSvc.mark_attendance env settings db0 alice_fp None 100))).

(** ... and after session 10 has been closed by its owner. *)
Definition db1_closed : Db :=
  fst (SessionsRouter.activate_session db1 10 false).

(** The outcome of Alice's mark and the row it inserts. *)
Definition alice_out : Traced (Db * option Attendance.t * Verification.VerificationResult) :=
  AttendanceSvc.mark_attendance env settings db0 alice_fp None 100.

Definition alice_row : Attendance.t :=
  {| Attendance.id := 1;
     Attendance.student_id := 1;
     Attendance.session_id := 10;
     Attendance.status := PRESENT;
     Attendance.face_confidence := None;
     Attendance.id_card_confidence := None;
     Attendance.fingerprint_match := Some true;
     Attendance.overall_confidence :=
       Verification.calculate_overall_confidence 0 0 true;
     Attendance.verification_method := "fingerprint";
     Attendance.marked_at := 100;
     Attendance.device_info := None;
     Attendance.ip_address := None |}.

(** The outcome of Alice's attempt with a wrong fingerprint token. *)
Definition bad_out : Traced (Db * option Attendance.t * Verification.VerificationResult) :=
  AttendanceSvc.mark_attendance env settings db0 alice_bad_fp None 100.

(** The anomaly row logged against Carol, as inserted and as resolved. *)
Definition logged_row : AnomalyLog.t :=
  {| AnomalyLog.id := 1;
     AnomalyLog.student_id := Some 3%Z;
     AnomalyLog.session_id := Some 10%Z;
     AnomalyLog.anomaly_type := "duplicate_face";
     AnomalyLog.severity := "high";
     AnomalyLog.reason := "Face matches student 1";
     AnomalyLog.details := None;
     AnomalyLog.is_resolved := false;
     AnomalyLog.resolved_by := None;
     AnomalyLog.resolution_notes := None;
     AnomalyLog.resolved_at := None;
     AnomalyLog.attempt_time := 40;
     AnomalyLog.ip_address := None;
     AnomalyLog.device_info := None |}.

Definition resolved_row : AnomalyLog.t :=
  AnomalyLog.resolved logged_row 7 "false alarm" 50.

(** One anomaly logged against Carol, then resolved by user 7. *)
Definition db_logged : Db :=
  fst (Anomaly.log_anomaly db0 "duplicate_face" "Face matches student 1"
         (Some 3%Z) (Some 10%Z) "high" None None None 40).

Definition db_resolved : Db :=
  fst (Anomaly.resolve_anomaly db_logged 1 7 "false alarm" 50).

(** A database in which Carol was marked present in session 11 while
    it was open; the session has since been closed. *)
Definition carol_row : Attendance.t :=
  {| Attendance.id := 1;
     Attendance.student_id := 3;
     Attendance.session_id := 11;
     Attendance.status := PRESENT;
     Attendance.face_confidence := Some 0.9;
     Attendance.id_card_confidence := None;
     Attendance.fingerprint_match := Some false;
     Attendance.overall_confidence := 0.45;
     Attendance.verification_method := "face";
     Attendance.marked_at := 90;
     Attendance.device_info := None;
     Attendance.ip_address := None |}.

Definition db_carol : Db :=
  mkDb (students db0) (sessions db0) [carol_row] [] 1 0.

(** Carol, session 11, her face. *)
Definition carol_face : AttendanceMarkRequest.t :=
  request 3 11 (Some "cccc") None None.

(** Dave (not enrolled), session 10. *)
Definition dave_face : AttendanceMarkRequest.t :=
  request 4 10 (Some "dddd") None None.

End Demo.

(* ================================================================== *)
(** * [app/services/anomaly.py], the read operations *)

Module AnomalyQueries.

Definition max_failed_attempts : Z := 3.
Definition attempt_window_minutes : Z := 30.

(** Clock readings are in seconds: [timedelta(minutes=m)] and
    [timedelta(hours=h)]. *)
Definition minutes (m : Z) : Z := (60 * m)%Z.
Definition hours (h : Z) : Z := (3600 * h)%Z.

(** [column == x] on a nullable integer column: a NULL is never equal. *)
Definition is_id (column : option Z) (x : Z) : bool :=
  match column with
  | Some y => Z.eqb y x
  | None => false
  end.

(** [column != x] on a nullable integer column: a NULL is never different. *)
Definition is_other_id (column : option Z) (x : Z) : bool :=
  match column with
  | Some y => negb (Z.eqb y x)
  | None => false
  end.

(** [column == x] on a nullable text column. *)
Definition is_text (column : option string) (x : string) : bool :=
  match column with
  | Some y => String.eqb y x
  | None => false
  end.

(** [select(func.count(...)).where(p)] *)
Definition count_where {A : Type} (p : A -> bool) (rows : list A) : Z :=
  Z.of_nat (List.length (filter p rows)).

(** The rows counted by [check_repeated_failures]. *)
Definition recent_failure (student_id session_id window_start : Z)
    (a : AnomalyLog.t) : bool :=
  is_id (AnomalyLog.student_id a) student_id
  && is_id (AnomalyLog.session_id a) session_id
  && String.eqb (AnomalyLog.anomaly_type a) "verification_failed"
  && Z.leb window_start (AnomalyLog.attempt_time a).

Definition check_repeated_failures (db : Db) (student_id session_id now : Z)
    : bool :=
  let window_start := (now - minutes attempt_window_minutes)%Z in
  let count :=
    count_where (recent_failure student_id session_id window_start)
      (anomaly_logs db) in
  Z.leb max_failed_attempts count.

(** The rows selected by [check_ip_anomaly]. *)
Definition same_address_other_student (ip_address : string)
    (session_id student_id : Z) (a : AnomalyLog.t) : bool :=
  is_text (AnomalyLog.ip_address a) ip_address
  && is_id (AnomalyLog.session_id a) session_id
  && is_other_id (AnomalyLog.student_id a) student_id.

(** [func.count(func.distinct(AnomalyLog.student_id))] over [rows]:
    NULLs are not counted. *)
Definition count_distinct_students (rows : list AnomalyLog.t) : Z :=
  Z.of_nat
    (List.length
       (nodup Z.eq_dec
          (flat_map (fun a => match AnomalyLog.student_id a with
                              | Some s => [s]
                              | None => []
                              end) rows))).

Definition check_ip_anomaly (db : Db) (ip_address : string)
    (session_id student_id : Z) : bool :=
  let other_students :=
    count_distinct_students
      (filter (same_address_other_student ip_address session_id student_id)
         (anomaly_logs db)) in
  Z.ltb 0 other_students.

Record AnomalyStats := mkStats {
  total_anomalies : Z;
  unresolved : Z;
  resolved : Z;
  by_type : list (string * Z);
  by_severity : list (string * Z);
  recent_24h : Z
}.

(** [select(key, func.count(id)).group_by(key)] read into a dictionary:
    one entry per key that occurs, here in order of first occurrence. *)
Definition group_count (key : AnomalyLog.t -> string)
    (rows : list AnomalyLog.t) : list (string * Z) :=
  map (fun k => (k, count_where (fun a => String.eqb (key a) k) rows))
      (nodup string_dec (map key rows)).

Definition get_stats (db : Db) (now : Z) : AnomalyStats :=
  let total := count_where (fun _ => true) (anomaly_logs db) in
  let unresolved :=
    count_where (fun a => negb (AnomalyLog.is_resolved a)) (anomaly_logs db) in
  let by_type := group_count AnomalyLog.anomaly_type (anomaly_logs db) in
  let by_severity := group_count AnomalyLog.severity (anomaly_logs db) in
  let yesterday := (now - hours 24)%Z in
  let recent :=
    count_where (fun a => Z.leb yesterday (AnomalyLog.attempt_time a))
      (anomaly_logs db) in
  {| total_anomalies := total;
     unresolved := unresolved;
     resolved := (total - unresolved)%Z;
     by_type := by_type;
     by_severity := by_severity;
     recent_24h := recent |}.

(** The sum of the counts of a dictionary of counts. *)
Definition sum_counts (d : list (string * Z)) : Z :=
  fold_right (fun kc acc => (snd kc + acc)%Z) 0%Z d.

End AnomalyQueries.

(* ================================================================== *)
(** * [app/ml/id_validation.py] *)

Module IdValidation.

(** The fields [extract_id_data] reads out of the OCR text. *)
Record IdFields := mkFields {
  roll_no : option string;
  name : option string;
  department : option string
}.

(** What lies behind the validation: image decoding, OCR, the regular
    expressions of [extract_id_data], and the string methods [upper]
    and [split] of Python. *)
Record Ocr := mkOcr {
  Picture : Type;
  (** base64 decoding and [Image.open]; [None] when it raises *)
  open_image : string -> option Picture;
  (** [extract_text]: the OCR text, empty when OCR raises *)
  extract_text : Picture -> string;
  extract_id_data : string -> IdFields;
  upper : string -> string;
  split : string -> list string
}.

Definition min_confidence : Q := 0.7.

(** [s.replace(" ", "")] *)
Fixpoint remove_spaces (s : string) : string :=
  match s with
  | EmptyString => EmptyString
  | String c rest =>
      if Ascii.eqb c " "%char then remove_spaces rest
      else String c (remove_spaces rest)
  end.

(** [needle in haystack] *)
Definition contains (needle haystack : string) : bool :=
  match String.index 0 needle haystack with
  | Some _ => true
  | None => false
  end.

(** [n / d] on integers, a float in Python. *)
Definition ratio (n d : nat) : Q :=
  inject_Z (Z.of_nat n) / inject_Z (Z.of_nat d).

(** The confidence earned by the roll number check. *)
Definition roll_score (ocr : Ocr) (extracted : IdFields)
    (expected_roll_no : string) : Q :=
  if truthy (roll_no extracted)
  then
    let extracted_roll := remove_spaces (upper ocr (value (roll_no extracted))) in
    let expected_roll := remove_spaces (upper ocr expected_roll_no) in
    if String.eqb extracted_roll expected_roll then 0.5
    else if contains expected_roll extracted_roll
            || contains extracted_roll expected_roll
         then 0.25
         else 0
  else 0.

(** The number of parts of the expected name found in the extracted one. *)
Definition matched_parts (ocr : Ocr) (extracted : IdFields)
    (expected_name : string) : nat :=
  let extracted_name := upper ocr (value (name extracted)) in
  let expected_parts := split ocr (upper ocr expected_name) in
  List.length (filter (fun part => contains part extracted_name) expected_parts).

(** The confidence earned by the name check. *)
Definition name_score (ocr : Ocr) (extracted : IdFields)
    (expected_name : string) : Q :=
  if truthy (name extracted)
  then
    let expected_parts := split ocr (upper ocr expected_name) in
    let matched := matched_parts ocr extracted expected_name in
    if Nat.eqb matched (List.length expected_parts) then 0.5
    else if Nat.ltb 0 matched
         then 0.25 * ratio matched (List.length expected_parts)
         else 0
  else 0.

(** The dictionary returned as third component. *)
Definition extracted_data (extracted : IdFields) (text : string)
    : list (string * option string) :=
  [("roll_no", roll_no extracted); ("name", name extracted);
   ("department", department extracted); ("college", None);
   ("raw_text", Some text)].

Definition validate_id_card (ocr : Ocr)
    (base64_image expected_roll_no expected_name : string)
    : bool * Q * list (string * option string) :=
  match open_image ocr base64_image with
  | None => (false, 0, [])
  | Some image =>
      let text := extract_text ocr image in
      if negb (nonempty text) then (false, 0, [])
      else
        let extracted := extract_id_data ocr text in
        let confidence := 0 in
        (* Check roll number *)
        let confidence := confidence + roll_score ocr extracted expected_roll_no in
        (* Check name (fuzzy match) *)
        let confidence := confidence + name_score ocr extracted expected_name in
        (* Determine if valid *)
        let is_valid := Qle_bool min_confidence confidence in
        (is_valid, confidence, extracted_data extracted text)
  end.

(** The external libraries with the id-card comparator given by
    [validate_id_card], its third component dropped as in
    [verify_id_card]. *)
Definition with_ocr (env : Collaborators) (ocr : Ocr) : Collaborators :=
  mkCollaborators (Image env) (Embedding env)
    (face_recognition_available env) (random_embedding env)
    (random_uniform env)
    (b64_image env) (face_encodings env) (pickle_loads env)
    (face_distance env)
    (fun image roll name => fst (validate_id_card ocr image roll name))
    (verify_password env).

End IdValidation.

(* ================================================================== *)
(** * Measures read by the properties of the verification engine *)

Module Measures.

(** [self.min_overall_confidence] of [VerificationService.__init__]:
    assigned there and read by no method. *)
Definition min_overall_confidence : Q := 0.7.

(** The most a factor can add to the overall confidence when its
    comparator reports at most one: its weight, the fingerprint's weight
    times the fixed 0.95. *)
Definition cap (m : Modality) : Q :=
  match m with
  | Face => Verification.face_weight
  | IdCard => Verification.id_weight
  | Fingerprint => 0.95 * Verification.fingerprint_weight
  end.

Definition cap_sum (evaluated : list Modality) : Q :=
  fold_right (fun m acc => cap m + acc) 0 evaluated.

Section Env.
Context (env : Collaborators).

(** The distance [compare_faces_from_base64] measures for a student row
    and a request: the stored embedding deserialized, the sample
    decoded, a face encoded in it, the distance taken; [None] when one
    of the four fails. *)
Definition sample_distance (student : Student.t)
    (request : AttendanceMarkRequest.t) : option Q :=
  match pickle_loads env (value (Student.face_embedding student)) with
  | None => None
  | Some stored =>
      match FaceRecognition.decode_base64_image env
              (value (AttendanceMarkRequest.face_image request)) with
      | None => None
      | Some face_image =>
          match FaceRecognition.generate_embedding env face_image with
          | None => None
          | Some probe => face_distance env stored probe
          end
      end
  end.

End Env.
End Measures.

(* ================================================================== *)
(** * [app/models/user.py], [app/auth/dependencies.py] *)

Module Auth.

Inductive UserRole := STUDENT | FACULTY | ADMIN.

(** [UserRole.value] *)
Definition role_value (r : UserRole) : string :=
  match r with
  | STUDENT => "student"
  | FACULTY => "faculty"
  | ADMIN => "admin"
  end.

Definition role_eqb (a b : UserRole) : bool :=
  match a, b with
  | STUDENT, STUDENT | FACULTY, FACULTY | ADMIN, ADMIN => true
  | _, _ => false
  end.

(** The columns of [User] read by the routes. *)
Record User := mkUser {
  id : Z;
  role : UserRole;
  is_active : bool;
  student_id : option Z
}.

Record HTTPException := mkHTTPException {
  status_code : Z;
  detail : string
}.

Definition HTTP_403_FORBIDDEN : Z := 403.
Definition HTTP_404_NOT_FOUND : Z := 404.

(** A handler raises an [HTTPException] or returns. *)
Definition Response (A : Type) : Type := (HTTPException + A)%type.

Definition get_current_active_user (current_user : User) : Response User :=
  if negb (is_active current_user)
  then inl (mkHTTPException HTTP_403_FORBIDDEN "Inactive user")
  else inr current_user.

(** [repr] of a list of strings without quotes or backslashes. *)
Definition list_repr (xs : list string) : string :=
  "[" ^^ String.concat ", " (map (fun x => "'" ^^ x ^^ "'") xs) ^^ "]".

Definition require_role (allowed_roles : list UserRole) (current_user : User)
    : Response User :=
  match get_current_active_user current_user with
  | inl e => inl e
  | inr current_user =>
      if negb (existsb (role_eqb (role current_user)) allowed_roles)
      then inl (mkHTTPException HTTP_403_FORBIDDEN
                  ("Access denied. Required roles: "
                     ^^ list_repr (map role_value allowed_roles)))
      else inr current_user
  end.

End Auth.

(* ================================================================== *)
(** * [app/routers/attendance.py]

    The handlers on the database state of the request's session: what
    they return, and the state in which they leave the session. *)

Module AttendanceRouter.
Import Auth Verification.
Section Routes.
Context (env : Collaborators) (settings : Config.Settings).

(** [current_user.student_id != attendance_data.student_id] *)
Definition other_student (linked : option Z) (student_id : Z) : bool :=
  match linked with
  | Some s => negb (Z.eqb s student_id)
  | None => true
  end.

(** [POST /attendance/mark]; [client] is [request.client.host], or
    [None] without [request.client]. *)
Definition mark_attendance (db : Db) (client : option string)
    (attendance_data : AttendanceMarkRequest.t) (user : User) (now : Z)
    : Traced (Db * Response VerificationResult) :=
  match get_current_active_user user with
  | inl e => ret (db, inl e)
  | inr current_user =>
      (* Get client IP *)
      let client_ip := client in
      (* Students can only mark their own attendance *)
      if role_eqb (role current_user) STUDENT
         && other_student (student_id current_user)
              (AttendanceMarkRequest.student_id attendance_data)
      then ret (db, inl (mkHTTPException HTTP_403_FORBIDDEN
                           "You can only mark your own attendance"))
      else
        (* Mark attendance with verification *)
        ('(db', attendance, result) <-
           AttendanceSvc.mark_attendance env settings db attendance_data
             client_ip now ;;
         ret (db', inr result))%traced
  end.

(** [PATCH /attendance/{attendance_id}/status]; the response carries the
    row. *)
Definition update_attendance_status (db : Db) (attendance_id : Z)
    (status : AttendanceStatus) (user : User)
    : Db * Response Attendance.t :=
  match require_role [ADMIN; FACULTY] user with
  | inl e => (db, inl e)
  | inr current_user =>
      let '(db', attendance) :=
        AttendanceSvc.update_attendance_status db attendance_id status
          (id current_user) in
      match attendance with
      | None => (db', inl (mkHTTPException HTTP_404_NOT_FOUND
                             "Attendance record not found"))
      | Some attendance => (db', inr attendance)
      end
  end.

End Routes.
End AttendanceRouter.

(* ================================================================== *)
(** * The checks of [validate_id_card], by name *)

Module CardChecks.
Import IdValidation.
Section Checks.
Context (ocr : Ocr).

(** What is read from a card image: the fields extracted from its text;
    [None] when the image does not open or yields no text. *)
Definition reading (base64_image : string) : option IdFields :=
  match open_image ocr base64_image with
  | None => None
  | Some image =>
      let text := extract_text ocr image in
      if nonempty text then Some (extract_id_data ocr text) else None
  end.

(** A roll number was extracted and, in upper case and without spaces,
    it equals the expected one, contains it or is contained in it. *)
Definition roll_matches (expected_roll_no : string) (extracted : IdFields)
    : bool :=
  let extracted_roll :=
    remove_spaces (upper ocr (value (roll_no extracted))) in
  let expected_roll := remove_spaces (upper ocr expected_roll_no) in
  truthy (roll_no extracted)
  && (String.eqb extracted_roll expected_roll
      || contains expected_roll extracted_roll
      || contains extracted_roll expected_roll).

(** A name was extracted and every part of the expected name occurs in
    it. *)
Definition name_matches_fully (expected_name : string) (extracted : IdFields)
    : bool :=
  truthy (name extracted)
  && Nat.eqb (matched_parts ocr extracted expected_name)
       (List.length (split ocr (upper ocr expected_name))).

(** A name was extracted and some part of the expected name occurs in
    it, or the expected name has no parts. *)
Definition name_matches (expected_name : string) (extracted : IdFields)
    : bool :=
  truthy (name extracted)
  && (Nat.ltb 0 (matched_parts ocr extracted expected_name)
      || Nat.eqb (List.length (split ocr (upper ocr expected_name))) 0).

End Checks.
End CardChecks.

(* ================================================================== *)
(** * [app/services/anomaly.py], the listing *)

Module AnomalyListing.
Import AnomalyQueries.





Section Engine.
(** [order_by(AnomalyLog.attempt_time.desc())] as the database engine
    answers it; the order among rows of equal time is the engine's. *)
Context (order_by_attempt_time_desc : list AnomalyLog.t -> list AnomalyLog.t).


End Engine.
End AnomalyListing.

(* ================================================================== *)
(** * Further scenarios on the demonstration deployment *)

Module Scenario.
Import Auth.

(** The demonstration libraries with a face encoder that finds no face
    in the image ["blank"]. *)
Definition blind_env : Collaborators :=
  mkCollaborators string string
    true (fun img => img) (fun _ _ => 0.9)
    (fun s => if nonempty s then Some s else None)
    (fun img => if String.eqb img "blank" then None else Some img)
    (fun b => Some b)
    (fun known new =>
       Some (Z.abs (Z.of_nat (String.length known)
                    - Z.of_nat (String.length new)) # 10))
    (fun img roll _ => if String.eqb img roll then (true, 1) else (false, 0.1))
    String.eqb.

(** The demonstration deployment without the face library; every draw
    of the simulated comparison is 0.9. *)
Definition simulated_env : Collaborators :=
  mkCollaborators string string
    false (fun img => img) (fun _ _ => 0.9)
    (fun s => if nonempty s then Some s else None)
    (fun img => if String.eqb img "blank" then None else Some img)
    (fun b => Some b)
    (fun known new =>
       Some (Z.abs (Z.of_nat (String.length known)
                    - Z.of_nat (String.length new)) # 10))
    (fun img roll _ => if String.eqb img roll then (true, 1) else (false, 0.1))
    String.eqb.

(** An OCR stage that reads the image as the roll number and always
    finds the name Alice Roy; names are one part. *)
Definition ocr : IdValidation.Ocr :=
  IdValidation.mkOcr string
    (fun s => if nonempty s then Some s else None)
    (fun image => image)
    (fun text =>
       IdValidation.mkFields (Some text) (Some "Alice Roy") None)
    (fun s => s)
    (fun s => [s]).

(** The same deployment with a stricter minimum face confidence. *)
Definition strict_settings : Config.Settings :=
  {| Config.face_recognition_tolerance := 0.6;
     Config.min_face_confidence := 0.99 |}.

(** Bob, session 10, his face. *)
Definition bob_face : AttendanceMarkRequest.t :=
  Demo.request 2 10 (Some "bbbbb") None None.

(** Bob, session 10, a face at distance 0.3 from his template: within
    the tolerance, confidence 0.7. *)
Definition bob_far : AttendanceMarkRequest.t :=
  Demo.request 2 10 (Some "bbbbbbbb") None None.

(** Bob, session 10, a face at distance 0.1 from his template. *)
Definition bob_near : AttendanceMarkRequest.t :=
  Demo.request 2 10 (Some "bbbbbb") None None.

(** The demonstration database without its student rows. *)
Definition db1_no_students : Db :=
  mkDb [] (sessions Demo.db1) (attendances Demo.db1)
       (anomaly_logs Demo.db1) (attendance_seq Demo.db1)
       (anomaly_seq Demo.db1).

(** Bob, session 10, an image in which no face is found. *)
Definition bob_blank : AttendanceMarkRequest.t :=
  Demo.request 2 10 (Some "blank") None None.

(** Alice, session 10, her face and her fingerprint token. *)
Definition alice_face_fp : AttendanceMarkRequest.t :=
  Demo.request 1 10 (Some "aaaa") None (Some "tok-alice").

(** Alice, session 10, a card that reads as her roll number. *)
Definition alice_card : AttendanceMarkRequest.t :=
  Demo.request 1 10 None (Some "CS2024001") None.

(** The user account linked to Alice, and a request it makes for Bob. *)
Definition alice_user : User :=
  {| id := 100; role := STUDENT; is_active := true; student_id := Some 1%Z |}.

End Scenario.

(* ================================================================== *)
(** * Properties of the verification engine *)

Lemma nonempty_value (o : option string) :
  truthy o = true -> nonempty (value o) = true.
Proof. destruct o; simpl; auto; discriminate. Qed.

Lemma Qgt_bool_true (a b : Q) : Qgt_bool a b = true -> b < a.
Proof.
  unfold Qgt_bool. intro H. apply negb_true_iff in H.
  apply Qnot_le_lt. intro Hle. apply Qle_bool_iff in Hle. congruence.
Qed.

Lemma py_min_is_Qmin (a b : Q) : py_min a b == Qmin a b.
Proof.
  unfold py_min. destruct (Qle_bool a b) eqn:E.
  - apply Qle_bool_iff in E. symmetry. apply Q.min_l. exact E.
  - assert (H : ~ a <= b) by (intro H; apply Qle_bool_iff in H; congruence).
    symmetry. apply Q.min_r. apply Qnot_le_lt in H. apply Qlt_le_weak. exact H.
Qed.

Lemma calculate_overall_confidence_eq (f i : Q) (fp : bool) :
  Verification.calculate_overall_confidence f i fp
  == Qmin (f * 0.5 + i * 0.3 + (if fp then 0.95 else 0) * 0.2) 1.
Proof.
  unfold Verification.calculate_overall_confidence,
    Verification.face_weight, Verification.id_weight,
    Verification.fingerprint_weight.
  apply py_min_is_Qmin.
Qed.

Lemma weighted_sum_in_range (f i : Q) (fp : bool) :
  Reference.in_unit f -> Reference.in_unit i ->
  0 <= f * 0.5 + i * 0.3 + (if fp then 0.95 else 0) * 0.2 <= 0.99.
Proof.
  intros [Hf0 Hf1] [Hi0 Hi1]. destruct fp; split; lra.
Qed.

(** [verify_student], unfolded up to its tiered decision. *)
Lemma verify_request_unfold (env : Collaborators) (settings : Config.Settings)
    (student : Student.t) (request : AttendanceMarkRequest.t) :
  AttendanceSvc.verify_request env settings student request
  = (Verification.determine_success settings
       (Reference.gathered env settings student request)
       (map method_name (Reference.applicable_modalities student request))
       (fst (Reference.recorded env settings Face student request))
       (snd (Reference.recorded env settings Face student request))
       (fst (Reference.recorded env settings IdCard student request))
       (fst (Reference.recorded env settings Fingerprint student request)),
     Reference.applicable_modalities student request).
Proof.
  unfold AttendanceSvc.verify_request, Verification.verify_student,
    Reference.gathered, Reference.recorded, Reference.applicable_modalities,
    Reference.applicable, Reference.supplied, Reference.template_exists,
    Reference.comparator_report, Verification.verify_face,
    Verification.verify_id_card, Verification.verify_fingerprint.
  destruct student as [sid roll nm col femb fph idd enr].
  destruct request as [ses st fimg iimg ftok dev].
  cbn [Student.roll_no Student.name Student.face_embedding
       Student.fingerprint_hash Student.id_card_data
       AttendanceMarkRequest.face_image AttendanceMarkRequest.id_card_image
       AttendanceMarkRequest.fingerprint_token filter].
  generalize (FaceRecognition.compare_faces_from_base64 env settings
                (value femb) (value fimg)).
  generalize (validate_id_card env (value iimg) roll nm).
  generalize (FingerprintSvc.verify_fingerprint env (value ftok) (value fph)).
  intros [pv pc] [iv ic] [fv fc].
  destruct (truthy fimg && truthy femb) eqn:Ef;
    [apply andb_prop in Ef; destruct Ef as [_ Ef];
     rewrite (nonempty_value _ Ef) |];
  (destruct (truthy ftok && truthy fph) eqn:Ep;
    [apply andb_prop in Ep; destruct Ep as [_ Ep];
     rewrite (nonempty_value _ Ep) |]);
  destruct (truthy iimg); reflexivity.
Qed.

(** Case analysis over one call of [verify_student]: which factors are
    applicable and what each invoked comparator reports. *)
Ltac verify_cases student request :=
  unfold Reference.verdict, Reference.evaluated, Reference.applicable_outcomes;
  rewrite ?verify_request_unfold;
  unfold Reference.gathered, Reference.recorded,
    Reference.applicable_modalities;
  cbn [fst snd filter];
  destruct (Reference.applicable Face student request);
  destruct (Reference.applicable IdCard student request);
  destruct (Reference.applicable Fingerprint student request);
  cbn [fst snd map Reference.outcome];
  repeat match goal with
    | |- context [Reference.comparator_report ?e ?s ?m student request] =>
        destruct (Reference.comparator_report e s m student request)
          as [[] ?]
    end;
  cbn [fst snd map Reference.outcome].

(** Case analysis on the conditions still guarding the goal. *)
Ltac split_ifs :=
  repeat match goal with
    | |- context [if negb ?b then _ else _] => destruct b; cbn
    | |- context [if ?b then _ else _] => destruct b; cbn
    end.

Section VerificationProperties.
Context (env : Collaborators) (settings : Config.Settings).
Import Verification Reference.

(** Every call of [verify_student] is the call made for some student
    row and request. *)
Remark verify_student_as_request
    (roll nm : string) (femb fph fimg iimg ftok : option string) :
  verify_student env settings roll nm femb fph fimg iimg ftok
  = AttendanceSvc.verify_request env settings
      (Student.mk 0 roll nm EmptyString femb fph None true)
      (AttendanceMarkRequest.mk 0 0 fimg iimg ftok None).
Proof. reflexivity. Qed.

(** The comparators invoked are those of the applicable factors, in
    the order face, id card, fingerprint. *)
Lemma evaluated_is_applicable
    (student : Student.t) (request : AttendanceMarkRequest.t) :
  evaluated env settings student request
  = filter (fun m => applicable m student request)
      [Face; IdCard; Fingerprint].
Proof.
  unfold evaluated. rewrite verify_request_unfold. reflexivity.
Qed.

Lemma success_over_applicable
    (student : Student.t) (request : AttendanceMarkRequest.t) :
  success (verdict env settings student request)
  = tiered_policy (Verification.min_face_confidence settings)
      (map (fun m => outcome m (comparator_report env settings m student request))
           (filter (fun m => applicable m student request)
              [Face; IdCard; Fingerprint])).
Proof.
  verify_cases student request; cbn; split_ifs; reflexivity.
Qed.

Lemma In_filter_modalities (p : Modality -> bool) (m : Modality) :
  In m (filter p [Face; IdCard; Fingerprint]) <-> p m = true.
Proof.
  rewrite filter_In. split; [tauto |].
  intro H. split; [| exact H].
  destruct m; simpl; auto.
Qed.

(** C1, as amended.  The success flag returned by [verify_student] is
    the tiered policy over the factors it evaluates, those whose
    comparator it invokes: false with none; with one, that factor's
    comparator verdict, a face needing in addition a confidence of at
    least the configured minimum [min_face_confidence]; with two or
    three, every evaluated factor verified.  The factors evaluated are
    the face and the fingerprint when the request carries input and the
    student row holds the template, and the id card whenever the request
    carries an image, enrolled id-card data or not. *)
Theorem verify_student_success_tiered
    (student : Student.t) (request : AttendanceMarkRequest.t) :
  success (verdict env settings student request)
  = tiered_policy (Config.min_face_confidence settings)
      (map (fun m => outcome m (comparator_report env settings m student request))
           (evaluated env settings student request))
  /\ evaluated env settings student request
     = filter (fun m => applicable m student request)
         [Face; IdCard; Fingerprint]
  /\ (forall m,
        In m (evaluated env settings student request)
        <-> match m with
            | IdCard => supplied IdCard request = true
            | _ => supplied m request = true
                   /\ template_exists m student = true
            end)
  /\ (evaluated env settings student request = [] ->
      success (verdict env settings student request) = false)
  /\ (evaluated env settings student request = [Face] ->
      success (verdict env settings student request)
      = fst (comparator_report env settings Face student request)
        && Qle_bool (Config.min_face_confidence settings)
             (snd (comparator_report env settings Face student request))).
Proof.
  assert (Hs : success (verdict env settings student request)
               = tiered_policy (Config.min_face_confidence settings)
                   (map (fun m => outcome m
                           (comparator_report env settings m student request))
                        (evaluated env settings student request))).
  { rewrite evaluated_is_applicable. apply success_over_applicable. }
  split; [exact Hs |].
  split; [apply evaluated_is_applicable |].
  split; [| split].
  - intro m. rewrite evaluated_is_applicable, In_filter_modalities.
    destruct m; cbn [applicable]; rewrite ?andb_true_iff; reflexivity.
  - intro He. rewrite Hs, He. reflexivity.
  - intro He. rewrite Hs, He. reflexivity.
Qed.

(** C2.  For confidences in [0,1] the overall confidence is the fixed
    weighted sum 0.50 face + 0.30 id + 0.20 (0.95 if the fingerprint
    matched, else 0) clamped at one, and lies in [0,1]; a factor that
    was skipped contributes zero and the weights are not renormalized:
    the value stored by [verify_student] is the clamped sum of weight
    times confidence over the applicable factors only. *)
Theorem overall_confidence_weighted_sum
    (f i : Q) (fp : bool)
    (student : Student.t) (request : AttendanceMarkRequest.t) :
  in_unit f -> in_unit i ->
  calculate_overall_confidence f i fp == clamped_weighted_sum f i fp
  /\ in_unit (calculate_overall_confidence f i fp)
  /\ overall_confidence (verdict env settings student request)
     == Qmin (weighted_sum (applicable_outcomes env settings student request)) 1.
Proof.
  intros Hf Hi.
  pose proof (weighted_sum_in_range f i fp Hf Hi) as [Hlo Hhi].
  split; [| split].
  - rewrite calculate_overall_confidence_eq. unfold clamped_weighted_sum.
    apply Q.min_compat; [| reflexivity].
    destruct fp; ring.
  - unfold in_unit. rewrite calculate_overall_confidence_eq. split.
    + apply Q.min_glb; [exact Hlo | lra].
    + apply Q.le_min_r.
  - clear.
    pose proof calculate_overall_confidence_eq as Hc.
    verify_cases student request;
      set (coc := calculate_overall_confidence) in *; clearbody coc;
      cbn; split_ifs;
      rewrite Hc;
      first [ apply Q.min_compat; [| reflexivity];
              unfold weighted_sum, contribution, weight;
              cbn [fold_right modality verified confidence fst snd]; ring
            | vm_compute; reflexivity ].
Qed.

(** C10.  For confidences in [0,1] the overall confidence is at most
    0.99, hence below one; the clamp is never the smaller argument, and
    0.99 is what three perfect factors score. *)
Theorem overall_confidence_at_most_099 (f i : Q) (fp : bool) :
  in_unit f -> in_unit i ->
  calculate_overall_confidence f i fp <= 0.99
  /\ calculate_overall_confidence f i fp < 1
  /\ calculate_overall_confidence f i fp
     == f * 0.5 + i * 0.3 + (if fp then 0.95 else 0) * 0.2
  /\ calculate_overall_confidence 1 1 true == 0.50 + 0.30 + 0.19.
Proof.
  intros Hf Hi.
  pose proof (weighted_sum_in_range f i fp Hf Hi) as [Hlo Hhi].
  assert (E : calculate_overall_confidence f i fp
              == f * 0.5 + i * 0.3 + (if fp then 0.95 else 0) * 0.2).
  { rewrite calculate_overall_confidence_eq. apply Q.min_l. lra. }
  split; [| split; [| split]].
  - rewrite E. exact Hhi.
  - rewrite E. lra.
  - exact E.
  - reflexivity.
Qed.

Lemma method_is_descriptor
    (student : Student.t) (request : AttendanceMarkRequest.t) :
  verification_method (verdict env settings student request)
  = descriptor (evaluated env settings student request).
Proof.
  verify_cases student request; cbn; split_ifs; reflexivity.
Qed.

Lemma skipped_fields_default
    (student : Student.t) (request : AttendanceMarkRequest.t) :
  (applicable Face student request = false ->
   face_verified (verdict env settings student request) = false
   /\ face_confidence (verdict env settings student request) = 0)
  /\ (applicable IdCard student request = false ->
      id_card_verified (verdict env settings student request) = false
      /\ id_card_confidence (verdict env settings student request) = 0)
  /\ (applicable Fingerprint student request = false ->
      fingerprint_verified (verdict env settings student request) = false).
Proof.
  unfold verdict. rewrite verify_request_unfold.
  unfold gathered, recorded, applicable_modalities. cbn [fst snd filter].
  destruct (applicable Face student request);
  destruct (applicable IdCard student request);
  destruct (applicable Fingerprint student request);
  cbn -[comparator_report Qle_bool calculate_overall_confidence];
  split_ifs;
  (split; [| split]); intro; try discriminate;
  try split; reflexivity.
Qed.

(** C3, as amended.  A face or fingerprint factor is evaluated - its
    comparator invoked, its name in the method descriptor, its outcome
    among those the success policy ranges over - exactly when the
    request carries input for it and the student row holds its template;
    the id-card factor is evaluated exactly when the request carries an
    id-card image.  A factor that is not evaluated leaves its result
    fields at their defaults and takes no part in the success policy. *)
Theorem factor_evaluated_iff_applicable
    (student : Student.t) (request : AttendanceMarkRequest.t) :
  (In Face (evaluated env settings student request)
   <-> truthy (AttendanceMarkRequest.face_image request) = true
       /\ truthy (Student.face_embedding student) = true)
  /\ (In IdCard (evaluated env settings student request)
      <-> truthy (AttendanceMarkRequest.id_card_image request) = true)
  /\ (In Fingerprint (evaluated env settings student request)
      <-> truthy (AttendanceMarkRequest.fingerprint_token request) = true
          /\ truthy (Student.fingerprint_hash student) = true)
  /\ verification_method (verdict env settings student request)
     = descriptor (evaluated env settings student request)
  /\ success (verdict env settings student request)
     = tiered_policy (Verification.min_face_confidence settings)
         (map (fun m => outcome m (comparator_report env settings m student request))
              (evaluated env settings student request))
  /\ (~ In Face (evaluated env settings student request) ->
      face_verified (verdict env settings student request) = false
      /\ face_confidence (verdict env settings student request) = 0)
  /\ (~ In IdCard (evaluated env settings student request) ->
      id_card_verified (verdict env settings student request) = false
      /\ id_card_confidence (verdict env settings student request) = 0)
  /\ (~ In Fingerprint (evaluated env settings student request) ->
      fingerprint_verified (verdict env settings student request) = false).
Proof.
  pose proof (skipped_fields_default student request) as (Hf & Hi & Hp).
  rewrite method_is_descriptor, success_over_applicable.
  rewrite evaluated_is_applicable.
  rewrite !In_filter_modalities.
  unfold applicable, supplied, template_exists in *.
  rewrite !andb_true_iff.
  split; [tauto |]. split; [tauto |]. split; [tauto |].
  split; [reflexivity |]. split; [reflexivity |].
  split; [| split].
  - intro H. apply Hf. apply not_true_is_false.
    rewrite andb_true_iff. exact H.
  - intro H. apply Hi. apply not_true_is_false. exact H.
  - intro H. apply Hp. apply not_true_is_false.
    rewrite andb_true_iff. exact H.
Qed.

(** [verify_student] reports failure exactly when it raises the anomaly
    flag; a raised flag comes with a reason that is not empty, and a
    success carries neither flag nor reason. *)
Lemma verify_student_failure_iff_anomaly
    (student : Student.t) (request : AttendanceMarkRequest.t) :
  (success (verdict env settings student request) = false
   <-> anomaly_detected (verdict env settings student request) = true)
  /\ (anomaly_detected (verdict env settings student request) = true ->
      exists why,
        anomaly_reason (verdict env settings student request) = Some why
        /\ nonempty why = true)
  /\ (success (verdict env settings student request) = true ->
      anomaly_detected (verdict env settings student request) = false
      /\ anomaly_reason (verdict env settings student request) = None).
Proof.
  verify_cases student request; cbn; split_ifs;
    (split; [split; intro; first [reflexivity | discriminate] |]);
    (split; intro; [first [discriminate | eexists; split; reflexivity]
                   | first [discriminate | split; reflexivity]]).
Qed.

End VerificationProperties.

(* ================================================================== *)
(** * Properties of the attendance ledger *)

Section LedgerProperties.
Context (env : Collaborators) (settings : Config.Settings).
Import Verification Reference AttendanceSvc.

Lemma get_student_id (db : Db) (sid : Z) (student : Student.t) :
  get_student db sid = Some student -> Student.id student = sid.
Proof.
  unfold get_student. intro H. apply find_some in H.
  destruct H as [_ H]. apply Z.eqb_eq. exact H.
Qed.

Lemma get_session_id (db : Db) (sid : Z) (session : Session.t) :
  get_session db sid = Some session -> Session.id session = sid.
Proof.
  unfold get_session. intro H. apply find_some in H.
  destruct H as [_ H]. apply Z.eqb_eq. exact H.
Qed.

(** What one call of [mark_attendance] does to the tables. *)
Lemma mark_attendance_effect (db : Db) (request : AttendanceMarkRequest.t)
    (ip : option string) (now : Z)
    (db' : Db) (att : option Attendance.t) (r : VerificationResult)
    (calls : list Modality) :
  mark_attendance env settings db request ip now = (db', att, r, calls) ->
  students db' = students db
  /\ sessions db' = sessions db
  /\ ((anomaly_detected r = false /\ anomaly_logs db' = anomaly_logs db)
      \/ (anomaly_detected r = true
          /\ exists row,
               anomaly_logs db' = anomaly_logs db ++ [row]
               /\ AnomalyLog.anomaly_type row = "verification_failed"
               /\ AnomalyLog.student_id row
                  = Some (AttendanceMarkRequest.student_id request)
               /\ AnomalyLog.session_id row
                  = Some (AttendanceMarkRequest.session_id request)
               /\ AnomalyLog.reason row
                  = str_or (anomaly_reason r) "Verification failed"
               /\ AnomalyLog.is_resolved row = false))
  /\ ((att = None /\ success r = false
       /\ attendances db' = attendances db)
      \/ (exists a,
            att = Some a /\ success r = true
            /\ attendances db' = attendances db ++ [a]
            /\ Attendance.student_id a = AttendanceMarkRequest.student_id request
            /\ Attendance.session_id a = AttendanceMarkRequest.session_id request
            /\ Attendance.status a = PRESENT
            /\ check_existing_attendance db
                 (AttendanceMarkRequest.student_id request)
                 (AttendanceMarkRequest.session_id request) = None)).
Proof.
  unfold mark_attendance.
  destruct (get_student db _) as [student |] eqn:Est;
    [| intro H; inversion H; subst; cbn; auto 10].
  destruct (get_session db _) as [session |] eqn:Ese;
    [| intro H; inversion H; subst; cbn; auto 10].
  destruct (negb (Session.is_active session));
    [intro H; inversion H; subst; cbn; auto 10 |].
  destruct (check_existing_attendance db _ _) eqn:Eex;
    [intro H; inversion H; subst; cbn; auto 10 |].
  destruct (negb (Student.is_enrolled student));
    [intro H; inversion H; subst; cbn; auto 10 |].
  apply get_student_id in Est. apply get_session_id in Ese.
  destruct (verify_request env settings student request) as [vr tr].
  unfold bind, ret, _log_anomaly, add_anomaly, add_attendance.
  destruct (anomaly_detected vr) eqn:Ean, (success vr) eqn:Esu;
    cbn; intro H; inversion H; subst; clear H; cbn; rewrite ?Est, ?Ese;
    (split; [reflexivity |]); (split; [reflexivity |]); split.
  all: try (left; repeat split; solve [assumption | reflexivity]).
  all: try (right; split; [assumption |]; eexists;
            repeat split; reflexivity).
  all: try (right; eexists; repeat split; solve [assumption | reflexivity]).
Qed.

(** The guards of [mark_attendance], in the order in which they are
    applied once student and session are found: session activity, then
    the existing record, then enrollment. *)
Lemma guards_in_order (db : Db) (request : AttendanceMarkRequest.t)
    (ip : option string) (now : Z)
    (student : Student.t) (session : Session.t) :
  get_student db (AttendanceMarkRequest.student_id request) = Some student ->
  get_session db (AttendanceMarkRequest.session_id request) = Some session ->
  (Session.is_active session = false ->
   mark_attendance env settings db request ip now
   = (db, None, rejection msg_session_inactive, []))
  /\ (Session.is_active session = true ->
      check_existing_attendance db
        (AttendanceMarkRequest.student_id request)
        (AttendanceMarkRequest.session_id request) <> None ->
      mark_attendance env settings db request ip now
      = (db, None, rejection msg_already_marked, []))
  /\ (Session.is_active session = true ->
      check_existing_attendance db
        (AttendanceMarkRequest.student_id request)
        (AttendanceMarkRequest.session_id request) = None ->
      Student.is_enrolled student = false ->
      mark_attendance env settings db request ip now
      = (db, None, rejection msg_not_enrolled, [])).
Proof.
  intros Est Ese. unfold mark_attendance. rewrite Est, Ese.
  split; [| split].
  - intros ->. reflexivity.
  - intros -> Hex. cbn [negb].
    destruct (check_existing_attendance db _ _); [reflexivity | congruence].
  - intros -> -> ->. reflexivity.
Qed.

(** A successful mark found the student and an active session. *)
Lemma mark_attendance_success_inv (db : Db)
    (request : AttendanceMarkRequest.t) (ip : option string) (now : Z)
    (db' : Db) (a : Attendance.t) (r : VerificationResult)
    (calls : list Modality) :
  mark_attendance env settings db request ip now = (db', Some a, r, calls) ->
  exists student session,
    get_student db (AttendanceMarkRequest.student_id request) = Some student
    /\ get_session db (AttendanceMarkRequest.session_id request) = Some session
    /\ Session.is_active session = true.
Proof.
  unfold mark_attendance, ret.
  destruct (get_student db _) as [student |] eqn:Est;
    [| intro H; inversion H].
  destruct (get_session db _) as [session |] eqn:Ese;
    [| intro H; inversion H].
  destruct (Session.is_active session) eqn:Eact;
    [| intro H; inversion H].
  intros _. exists student, session. repeat split; assumption.
Qed.

(** [mark_attendance] past its guards: what it returns is what
    [verify_student] answers for the student row and the request, its
    comparators are those of that call, and the verdict decides which
    of the two tables receives a row. *)
Lemma mark_attendance_past_guards (db : Db)
    (request : AttendanceMarkRequest.t) (ip : option string) (now : Z)
    (student : Student.t) (session : Session.t) :
  get_student db (AttendanceMarkRequest.student_id request) = Some student ->
  get_session db (AttendanceMarkRequest.session_id request) = Some session ->
  Session.is_active session = true ->
  check_existing_attendance db
    (AttendanceMarkRequest.student_id request)
    (AttendanceMarkRequest.session_id request) = None ->
  Student.is_enrolled student = true ->
  let v := verdict env settings student request in
  let out := mark_attendance env settings db request ip now in
  snd (fst out) = v
  /\ snd out = evaluated env settings student request
  /\ students (fst (fst (fst out))) = students db
  /\ sessions (fst (fst (fst out))) = sessions db
  /\ (success v = false ->
      snd (fst (fst out)) = None
      /\ attendances (fst (fst (fst out))) = attendances db
      /\ anomaly_logs (fst (fst (fst out)))
         = anomaly_logs db
           ++ [{| AnomalyLog.id := (anomaly_seq db + 1)%Z;
                  AnomalyLog.student_id :=
                    Some (AttendanceMarkRequest.student_id request);
                  AnomalyLog.session_id :=
                    Some (AttendanceMarkRequest.session_id request);
                  AnomalyLog.anomaly_type := "verification_failed";
                  AnomalyLog.severity := "medium";
                  AnomalyLog.reason :=
                    str_or (anomaly_reason v) "Verification failed";
                  AnomalyLog.details := None;
                  AnomalyLog.is_resolved := false;
                  AnomalyLog.resolved_by := None;
                  AnomalyLog.resolution_notes := None;
                  AnomalyLog.resolved_at := None;
                  AnomalyLog.attempt_time := now;
                  AnomalyLog.ip_address := ip;
                  AnomalyLog.device_info :=
                    AttendanceMarkRequest.device_info request |}])
  /\ (success v = true ->
      anomaly_logs (fst (fst (fst out))) = anomaly_logs db
      /\ exists a,
           snd (fst (fst out)) = Some a
           /\ attendances (fst (fst (fst out))) = attendances db ++ [a]).
Proof.
  intros Est Ese Eact Eex Eenr v out. subst v out.
  pose proof (verify_student_failure_iff_anomaly env settings student request)
    as (Hiff & _ & Hok).
  unfold mark_attendance. rewrite Est, Ese, Eact, Eex, Eenr. cbn [negb].
  apply get_student_id in Est. apply get_session_id in Ese.
  unfold verdict, evaluated in *.
  destruct (verify_request env settings student request) as [vr tr].
  cbn [fst snd] in *.
  unfold bind, ret, _log_anomaly, add_anomaly, add_attendance.
  destruct (success vr) eqn:Esu.
  - destruct (Hok eq_refl) as [Han _]. rewrite Han. cbn.
    rewrite app_nil_r.
    repeat split; try reflexivity; try discriminate.
    eexists. split; reflexivity.
  - rewrite (proj1 Hiff eq_refl). cbn. rewrite app_nil_r, Est, Ese.
    repeat split; try reflexivity; discriminate.
Qed.

(** C7.  A mark attempt that meets a hard error - session not open,
    record already present, student not enrolled - is rejected with the
    database unchanged (no attendance row, no anomaly row) and with no
    comparator invoked. *)
Theorem hard_errors_reject_before_verification
    (db : Db) (request : AttendanceMarkRequest.t)
    (ip : option string) (now : Z)
    (student : Student.t) (session : Session.t) :
  get_student db (AttendanceMarkRequest.student_id request) = Some student ->
  get_session db (AttendanceMarkRequest.session_id request) = Some session ->
  Student.is_enrolled student = false
  \/ check_existing_attendance db
       (AttendanceMarkRequest.student_id request)
       (AttendanceMarkRequest.session_id request) <> None
  \/ Session.is_active session = false ->
  exists msg,
    In msg [msg_session_inactive; msg_already_marked; msg_not_enrolled]
    /\ mark_attendance env settings db request ip now
       = (db, None, rejection msg, [])
    /\ success (rejection msg) = false
    /\ anomaly_detected (rejection msg) = false.
Proof.
  intros Est Ese Hhard.
  destruct (guards_in_order db request ip now student session Est Ese)
    as (Hin & Hal & Hne).
  destruct (Session.is_active session) eqn:Eact.
  - destruct (check_existing_attendance db _ _) eqn:Eex.
    + exists msg_already_marked. repeat split; [simpl; auto | ].
      apply Hal; [reflexivity | discriminate].
    + destruct Hhard as [Hen | [Hex | Hact]];
        [| congruence | discriminate].
      exists msg_not_enrolled. repeat split; [simpl; auto | ].
      apply Hne; auto.
  - exists msg_session_inactive. repeat split; [simpl; auto | ].
    apply Hin. reflexivity.
Qed.

(** C8, as amended.  The session-activity check comes first: on a
    closed session the attempt is rejected as session-inactive whether
    or not a record exists; the already-marked rejection is returned
    when the session is open and a record exists, whether or not the
    student is enrolled. *)
Theorem session_check_precedes_existing_check
    (db : Db) (request : AttendanceMarkRequest.t)
    (ip : option string) (now : Z)
    (student : Student.t) (session : Session.t) :
  get_student db (AttendanceMarkRequest.student_id request) = Some student ->
  get_session db (AttendanceMarkRequest.session_id request) = Some session ->
  (Session.is_active session = false ->
   mark_attendance env settings db request ip now
   = (db, None, rejection msg_session_inactive, []))
  /\ (Session.is_active session = true ->
      check_existing_attendance db
        (AttendanceMarkRequest.student_id request)
        (AttendanceMarkRequest.session_id request) <> None ->
      mark_attendance env settings db request ip now
      = (db, None, rejection msg_already_marked, [])).
Proof.
  intros Est Ese.
  destruct (guards_in_order db request ip now student session Est Ese)
    as (Hin & Hal & _).
  split; assumption.
Qed.

(** C5.  A verification failure is data: [verify_student] reports
    failure exactly when it raises the anomaly flag, with a reason that
    is not empty, and a success raises no flag.  In [mark_attendance],
    once student and session are found, the session is open, no record
    exists and the student is enrolled, the result returned is the one
    [verify_student] answers for that student row and the request; when
    it carries the flag exactly one anomaly row is appended - of type
    verification_failed, for that student and session, with the reason
    of the result, the clock reading and the caller's address - and no
    attendance row; when it does not, no anomaly row is appended.
    Whatever [mark_attendance] returns, a flagged result comes with one
    appended anomaly row and an unflagged one with none. *)
Theorem verification_failure_is_data
    (student : Student.t) (request : AttendanceMarkRequest.t)
    (db : Db) (session : Session.t) (ip : option string) (now : Z) :
  ((success (verdict env settings student request) = false
    <-> anomaly_detected (verdict env settings student request) = true)
   /\ (anomaly_detected (verdict env settings student request) = true ->
       exists why,
         anomaly_reason (verdict env settings student request) = Some why
         /\ nonempty why = true)
   /\ (success (verdict env settings student request) = true ->
       anomaly_detected (verdict env settings student request) = false
       /\ anomaly_reason (verdict env settings student request) = None))
  /\ (get_student db (AttendanceMarkRequest.student_id request)
      = Some student ->
      get_session db (AttendanceMarkRequest.session_id request)
      = Some session ->
      Session.is_active session = true ->
      check_existing_attendance db
        (AttendanceMarkRequest.student_id request)
        (AttendanceMarkRequest.session_id request) = None ->
      Student.is_enrolled student = true ->
      let v := verdict env settings student request in
      let out := mark_attendance env settings db request ip now in
      snd (fst out) = v
      /\ snd out = evaluated env settings student request
      /\ (anomaly_detected v = true ->
          snd (fst (fst out)) = None
          /\ attendances (fst (fst (fst out))) = attendances db
          /\ anomaly_logs (fst (fst (fst out)))
             = anomaly_logs db
               ++ [{| AnomalyLog.id := (anomaly_seq db + 1)%Z;
                      AnomalyLog.student_id :=
                        Some (AttendanceMarkRequest.student_id request);
                      AnomalyLog.session_id :=
                        Some (AttendanceMarkRequest.session_id request);
                      AnomalyLog.anomaly_type := "verification_failed";
                      AnomalyLog.severity := "medium";
                      AnomalyLog.reason :=
                        str_or (anomaly_reason v) "Verification failed";
                      AnomalyLog.details := None;
                      AnomalyLog.is_resolved := false;
                      AnomalyLog.resolved_by := None;
                      AnomalyLog.resolution_notes := None;
                      AnomalyLog.resolved_at := None;
                      AnomalyLog.attempt_time := now;
                      AnomalyLog.ip_address := ip;
                      AnomalyLog.device_info :=
                        AttendanceMarkRequest.device_info request |}])
      /\ (anomaly_detected v = false ->
          anomaly_logs (fst (fst (fst out))) = anomaly_logs db))
  /\ (forall attempt db' att r calls,
        mark_attendance env settings db attempt ip now = (db', att, r, calls) ->
        (anomaly_detected r = true ->
         exists row,
           anomaly_logs db' = anomaly_logs db ++ [row]
           /\ AnomalyLog.anomaly_type row = "verification_failed"
           /\ AnomalyLog.reason row
              = str_or (anomaly_reason r) "Verification failed")
        /\ (anomaly_detected r = false ->
            anomaly_logs db' = anomaly_logs db)).
Proof.
  pose proof (verify_student_failure_iff_anomaly env settings student request)
    as Hv.
  split; [exact Hv |]. split.
  - intros Est Ese Eact Eex Eenr v out.
    destruct (mark_attendance_past_guards db request ip now student session
                Est Ese Eact Eex Eenr)
      as (Hr & Hc & _ & _ & Hfail & Hok).
    fold v out in Hr, Hc, Hfail, Hok.
    destruct Hv as (Hiff & _ & Hsucc). fold v in Hiff, Hsucc.
    split; [exact Hr |]. split; [exact Hc |]. split.
    + intro Han. apply Hfail. apply Hiff. exact Han.
    + intro Han. destruct (success v) eqn:Esu.
      * apply Hok. reflexivity.
      * pose proof (proj1 Hiff eq_refl) as Hflag. congruence.
  - intros attempt db' att r calls H.
    apply mark_attendance_effect in H.
    destruct H as (_ & _ & [[Hno Hsame] | [Hyes (row & Hrow & Hty & _ & _ & Hre & _)]] & _).
    + split; [congruence | auto].
    + split; [| congruence]. intros _. exists row. auto.
Qed.

Lemma update_first_map {A B : Type} (key : A -> B) (p : A -> bool)
    (f : A -> A) (rows : list A) :
  (forall x, key (f x) = key x) ->
  map key (update_first p f rows) = map key rows.
Proof.
  intro Hkey. induction rows as [| r rest IH]; [reflexivity |].
  simpl. destruct (p r); simpl; [rewrite Hkey | rewrite IH]; reflexivity.
Qed.

Lemma existing_iff_pair (db : Db) (student_id session_id : Z) :
  check_existing_attendance db student_id session_id <> None
  <-> In (student_id, session_id) (pairs db).
Proof.
  unfold check_existing_attendance, pairs, same_pair.
  induction (attendances db) as [| a rest IH]; simpl.
  - split; [congruence | tauto].
  - destruct (Z.eqb_spec (Attendance.student_id a) student_id) as [E1 | E1];
    destruct (Z.eqb_spec (Attendance.session_id a) session_id) as [E2 | E2];
    simpl.
    + subst. split; [auto | discriminate].
    + rewrite IH. split; [auto |]. intros [H | H]; [congruence | exact H].
    + rewrite IH. split; [auto |]. intros [H | H]; [congruence | exact H].
    + rewrite IH. split; [auto |]. intros [H | H]; [congruence | exact H].
Qed.

Lemma count_pair_zero (db : Db) (student_id session_id : Z) :
  check_existing_attendance db student_id session_id = None ->
  count_pair db student_id session_id = 0%nat.
Proof.
  unfold check_existing_attendance, count_pair. intro H.
  induction (attendances db) as [| a rest IH]; [reflexivity |].
  simpl in *. destruct (same_pair student_id session_id a);
    [discriminate | auto].
Qed.

(** One operation leaves the (student, session) pairs as they are, or
    appends one pair that was not present. *)
Lemma step_pairs (db : Db) (op : Op) :
  pairs (step env settings db op) = pairs db
  \/ exists k, pairs (step env settings db op) = pairs db ++ [k]
               /\ ~ In k (pairs db).
Proof.
  destruct op as [request ip now | aid status by_user
                 | ty reason sid ssid sev det ip dev now
                 | aid by_user notes now]; cbn [step].
  - destruct (mark_attendance env settings db request ip now)
      as [[[db' att] r] calls] eqn:E.
    apply mark_attendance_effect in E.
    destruct E as (_ & _ & _ & [(_ & _ & Hsame) | (a & _ & _ & Happ & Hs & Ht & _ & Hex)]);
      cbn [fst]; unfold pairs.
    + left. rewrite Hsame. reflexivity.
    + right. exists (Attendance.student_id a, Attendance.session_id a).
      rewrite Happ, map_app. split; [reflexivity |].
      rewrite Hs, Ht. intro Hin. apply existing_iff_pair in Hin.
      congruence.
  - left. unfold update_attendance_status, pairs.
    destruct (find _ (attendances db)); [| reflexivity].
    cbn [fst set_attendances attendances].
    apply update_first_map. reflexivity.
  - left. reflexivity.
  - left. unfold Anomaly.resolve_anomaly, pairs.
    destruct (find _ (anomaly_logs db)); reflexivity.
Qed.

Lemma step_tables (db : Db) (op : Op) :
  students (step env settings db op) = students db
  /\ sessions (step env settings db op) = sessions db.
Proof.
  destruct op as [request ip now | aid status by_user
                 | ty reason sid ssid sev det ip dev now
                 | aid by_user notes now]; cbn [step].
  - destruct (mark_attendance env settings db request ip now)
      as [[[db' att] r] calls] eqn:E.
    apply mark_attendance_effect in E. cbn [fst]. tauto.
  - unfold update_attendance_status.
    destruct (find _ (attendances db)); split; reflexivity.
  - split; reflexivity.
  - unfold Anomaly.resolve_anomaly.
    destruct (find _ (anomaly_logs db)); split; reflexivity.
Qed.

Lemma run_tables (ops : list Op) (db : Db) :
  students (run env settings db ops) = students db
  /\ sessions (run env settings db ops) = sessions db.
Proof.
  revert db. induction ops as [| op ops IH]; intro db; [split; reflexivity |].
  cbn [run fold_left]. fold (run env settings (step env settings db op) ops).
  destruct (IH (step env settings db op)) as [H1 H2].
  destruct (step_tables db op) as [H3 H4].
  split; congruence.
Qed.

Lemma run_keeps_pair (ops : list Op) (db : Db) (k : Z * Z) :
  In k (pairs db) -> In k (pairs (run env settings db ops)).
Proof.
  revert db. induction ops as [| op ops IH]; intros db Hin; [exact Hin |].
  cbn [run fold_left]. fold (run env settings (step env settings db op) ops).
  apply IH.
  destruct (step_pairs db op) as [E | (k' & E & _)]; rewrite E;
    [exact Hin | apply in_or_app; left; exact Hin].
Qed.

Lemma run_unique (ops : list Op) (db : Db) :
  unique_student_session db ->
  unique_student_session (run env settings db ops).
Proof.
  unfold unique_student_session.
  revert db. induction ops as [| op ops IH]; intros db Hnd; [exact Hnd |].
  cbn [run fold_left]. fold (run env settings (step env settings db op) ops).
  apply IH.
  destruct (step_pairs db op) as [E | (k & E & Hnew)]; rewrite E;
    [exact Hnd |].
  apply NoDup_app; [exact Hnd | repeat constructor; simpl; tauto |].
  intros a Ha [Hk | []]. subst. contradiction.
Qed.

(** C4, as amended.  A successful mark creates exactly one attendance
    row for its (student, session) pair, none having existed.  Every
    later attempt for the pair, whatever it submits, is rejected,
    invokes no comparator and leaves the database as it is: with the
    already-marked message whenever student and session are found and
    the session is open - in particular after any sequence of service
    operations, none of which closes a session; with the
    session-inactive message when the session is found closed; with the
    session-not-found message when the student is found and the session
    is not; and with the student-not-found message when the student is
    not found.  The service operations keep the pairs of the attendance
    table distinct. *)
Theorem one_record_per_student_session
    (db : Db) (request : AttendanceMarkRequest.t) (ip : option string)
    (now : Z) (db' : Db) (a : Attendance.t) (r : VerificationResult)
    (calls : list Modality) :
  mark_attendance env settings db request ip now = (db', Some a, r, calls) ->
  (attendances db' = attendances db ++ [a]
   /\ Attendance.student_id a = AttendanceMarkRequest.student_id request
   /\ Attendance.session_id a = AttendanceMarkRequest.session_id request
   /\ count_pair db (AttendanceMarkRequest.student_id request)
        (AttendanceMarkRequest.session_id request) = 0%nat
   /\ count_pair db' (AttendanceMarkRequest.student_id request)
        (AttendanceMarkRequest.session_id request) = 1%nat)
  /\ (forall ops later ip' now',
        AttendanceMarkRequest.student_id later
        = AttendanceMarkRequest.student_id request ->
        AttendanceMarkRequest.session_id later
        = AttendanceMarkRequest.session_id request ->
        mark_attendance env settings (run env settings db' ops) later ip' now'
        = (run env settings db' ops, None, rejection msg_already_marked, []))
  /\ (forall db2 later ip' now',
        AttendanceMarkRequest.student_id later
        = AttendanceMarkRequest.student_id request ->
        AttendanceMarkRequest.session_id later
        = AttendanceMarkRequest.session_id request ->
        check_existing_attendance db2
          (AttendanceMarkRequest.student_id request)
          (AttendanceMarkRequest.session_id request) <> None ->
        (get_student db2 (AttendanceMarkRequest.student_id request) = None ->
         mark_attendance env settings db2 later ip' now'
         = (db2, None, rejection msg_student_not_found, []))
        /\ (forall student,
              get_student db2 (AttendanceMarkRequest.student_id request)
              = Some student ->
              get_session db2 (AttendanceMarkRequest.session_id request)
              = None ->
              mark_attendance env settings db2 later ip' now'
              = (db2, None, rejection msg_session_not_found, []))
        /\ (forall student session,
              get_student db2 (AttendanceMarkRequest.student_id request)
              = Some student ->
              get_session db2 (AttendanceMarkRequest.session_id request)
              = Some session ->
              Session.is_active session = false ->
              mark_attendance env settings db2 later ip' now'
              = (db2, None, rejection msg_session_inactive, []))
        /\ (forall student session,
              get_student db2 (AttendanceMarkRequest.student_id request)
              = Some student ->
              get_session db2 (AttendanceMarkRequest.session_id request)
              = Some session ->
              Session.is_active session = true ->
              mark_attendance env settings db2 later ip' now'
              = (db2, None, rejection msg_already_marked, [])))
  /\ (unique_student_session db ->
      forall ops, unique_student_session (run env settings db' ops)).
Proof.
  intro Hmark.
  pose proof (mark_attendance_success_inv _ _ _ _ _ _ _ _ Hmark)
    as (student & session & Est & Ese & Eact).
  pose proof (mark_attendance_effect _ _ _ _ _ _ _ _ Hmark)
    as (Hst & Hse & _ & [(Hnone & _) | (a' & Ha & _ & Happ & Hs & Ht & _ & Hex)]);
    [discriminate |].
  injection Ha as <-.
  assert (Hin : In (AttendanceMarkRequest.student_id request,
                    AttendanceMarkRequest.session_id request) (pairs db')).
  { unfold pairs. rewrite Happ, map_app. cbn [map]. rewrite Hs, Ht.
    apply in_or_app. right. simpl. auto. }
  split; [| split; [| split]].
  - repeat split; try assumption.
    + apply count_pair_zero. exact Hex.
    + unfold count_pair. rewrite Happ, filter_app, length_app.
      fold (count_pair db (AttendanceMarkRequest.student_id request)
              (AttendanceMarkRequest.session_id request)).
      rewrite (count_pair_zero _ _ _ Hex). simpl.
      unfold same_pair. rewrite Hs, Ht, !Z.eqb_refl. reflexivity.
  - intros ops later ip' now' Es Et.
    destruct (run_tables ops db') as [Hst' Hse'].
    assert (Est' : get_student (run env settings db' ops)
                     (AttendanceMarkRequest.student_id later) = Some student).
    { unfold get_student in *. rewrite Hst', Hst, Es. exact Est. }
    assert (Ese' : get_session (run env settings db' ops)
                     (AttendanceMarkRequest.session_id later) = Some session).
    { unfold get_session in *. rewrite Hse', Hse, Et. exact Ese. }
    destruct (guards_in_order _ later ip' now' _ _ Est' Ese')
      as (_ & Hal & _).
    apply Hal; [exact Eact |].
    rewrite Es, Et. apply existing_iff_pair.
    apply run_keeps_pair. exact Hin.
  - intros db2 later ip' now' Es Et Hex2.
    rewrite <- Es, <- Et in *.
    split; [| split; [| split]].
    + intro Est2. unfold mark_attendance. rewrite Est2. reflexivity.
    + intros student2 Est2 Ese2. unfold mark_attendance.
      rewrite Est2, Ese2. reflexivity.
    + intros student2 session2 Est2 Ese2 Eact2.
      destruct (guards_in_order _ later ip' now' _ _ Est2 Ese2)
        as (Hin2 & _ & _).
      apply Hin2. exact Eact2.
    + intros student2 session2 Est2 Ese2 Eact2.
      destruct (guards_in_order _ later ip' now' _ _ Est2 Ese2)
        as (_ & Hal2 & _).
      apply Hal2; [exact Eact2 | exact Hex2].
  - intros Huniq ops. apply run_unique.
    unfold unique_student_session, pairs in *.
    rewrite Happ, map_app. cbn [map]. apply NoDup_app;
      [exact Huniq | repeat constructor; simpl; tauto |].
    intros k Hk [Hk' | []]. subst k. rewrite Hs, Ht in Hk.
    apply existing_iff_pair in Hk. congruence.
Qed.

End LedgerProperties.

(* ================================================================== *)
(** * Properties of the anomaly detector *)

Section AnomalyProperties.
Context (env : Collaborators) (settings : Config.Settings).
Import Reference.

Lemma update_first_nth {A : Type} (p : A -> bool) (f : A -> A)
    (rows : list A) (i : nat) (x : A) :
  nth_error rows i = Some x ->
  nth_error (update_first p f rows) i = Some x
  \/ (p x = true /\ nth_error (update_first p f rows) i = Some (f x)).
Proof.
  revert i. induction rows as [| r rest IH]; intros i H.
  - destruct i; discriminate.
  - simpl. destruct (p r) eqn:Ep.
    + destruct i; simpl in *; [| auto].
      injection H as <-. auto.
    + destruct i; simpl in *; auto.
Qed.

Lemma find_update_first {A : Type} (p : A -> bool) (f : A -> A)
    (rows : list A) (x : A) :
  (forall y, p (f y) = p y) ->
  find p rows = Some x ->
  find p (update_first p f rows) = Some (f x).
Proof.
  intros Hp. induction rows as [| r rest IH]; [discriminate |].
  simpl. destruct (p r) eqn:E.
  - intro H. injection H as <-. simpl. rewrite Hp, E. reflexivity.
  - intro H. simpl. rewrite E. auto.
Qed.

(** The first row selected is the one written back; the others stay. *)
Lemma update_first_found {A : Type} (p : A -> bool) (f : A -> A)
    (rows : list A) (x : A) :
  find p rows = Some x ->
  exists k,
    nth_error rows k = Some x
    /\ (forall j y, (j < k)%nat -> nth_error rows j = Some y -> p y = false)
    /\ nth_error (update_first p f rows) k = Some (f x)
    /\ (forall j, j <> k ->
          nth_error (update_first p f rows) j = nth_error rows j)
    /\ List.length (update_first p f rows) = List.length rows.
Proof.
  induction rows as [| r rest IH]; [discriminate |].
  cbn [find update_first]. destruct (p r) eqn:Ep.
  - intro H. injection H as <-. exists 0%nat.
    split; [reflexivity |]. split; [intros j y Hj; lia |].
    split; [reflexivity |]. split; [| reflexivity].
    intros [| j] Hj; [congruence | reflexivity].
  - intro H. destruct (IH H) as (k & Hk & Hbefore & Hnew & Hother & Hlen).
    exists (S k). split; [exact Hk |]. split.
    + intros [| j] y Hj Hy; cbn [nth_error] in Hy.
      * injection Hy as <-. exact Ep.
      * apply (Hbefore j y); [lia | exact Hy].
    + split; [exact Hnew |]. split.
      * intros [| j] Hj; [reflexivity |]. cbn [nth_error].
        apply Hother. congruence.
      * cbn [List.length]. rewrite Hlen. reflexivity.
Qed.

Lemma same_incident_refl (a : AnomalyLog.t) : AnomalyLog.same_incident a a.
Proof. unfold AnomalyLog.same_incident. repeat split. Qed.

Lemma same_incident_trans (a b c : AnomalyLog.t) :
  AnomalyLog.same_incident a b -> AnomalyLog.same_incident b c ->
  AnomalyLog.same_incident a c.
Proof.
  unfold AnomalyLog.same_incident. intros H1 H2.
  decompose [and] H1. decompose [and] H2. repeat split; congruence.
Qed.

(** One operation keeps every anomaly row in its place; it changes a
    row only by resolving it. *)
Lemma step_anomaly_row (db : Db) (op : Op) (i : nat) (row : AnomalyLog.t) :
  nth_error (anomaly_logs db) i = Some row ->
  nth_error (anomaly_logs (step env settings db op)) i = Some row
  \/ exists by_user notes now,
       op = ResolveAnomaly (AnomalyLog.id row) by_user notes now
       /\ nth_error (anomaly_logs (step env settings db op)) i
          = Some (AnomalyLog.resolved row by_user notes now).
Proof.
  intro Hrow.
  assert (Hlt : (i < List.length (anomaly_logs db))%nat)
    by (apply nth_error_Some; congruence).
  destruct op as [request ip now | aid status by_user
                 | ty reason sid ssid sev det ip dev now
                 | aid by_user notes now]; cbn [step].
  - left.
    destruct (AttendanceSvc.mark_attendance env settings db request ip now)
      as [[[db' att] r] calls] eqn:E.
    apply mark_attendance_effect in E. cbn [fst].
    destruct E as (_ & _ & [(_ & Hsame) | (_ & new & Happ & _)] & _).
    + rewrite Hsame. exact Hrow.
    + rewrite Happ, nth_error_app1; assumption.
  - left. unfold AttendanceSvc.update_attendance_status.
    destruct (find _ (attendances db)); exact Hrow.
  - left. cbn [Anomaly.log_anomaly add_anomaly fst anomaly_logs].
    rewrite nth_error_app1; assumption.
  - unfold Anomaly.resolve_anomaly.
    destruct (find _ (anomaly_logs db)); [| left; exact Hrow].
    cbn [fst set_anomaly_logs anomaly_logs].
    destruct (update_first_nth
                (fun a => Z.eqb (AnomalyLog.id a) aid)
                (fun a => AnomalyLog.resolved a by_user notes now)
                _ _ _ Hrow) as [H | [Hid H]]; [left; exact H |].
    right. exists by_user, notes, now.
    apply Z.eqb_eq in Hid. subst aid. auto.
Qed.

Lemma run_anomaly_row (ops : list Op) (db : Db) (i : nat)
    (row : AnomalyLog.t) :
  nth_error (anomaly_logs db) i = Some row ->
  exists row',
    nth_error (anomaly_logs (run env settings db ops)) i = Some row'
    /\ AnomalyLog.same_incident row row'
    /\ (AnomalyLog.is_resolved row = true ->
        AnomalyLog.is_resolved row' = true).
Proof.
  revert db row. induction ops as [| op ops IH]; intros db row Hrow.
  - exists row. split; [exact Hrow |]. split; [apply same_incident_refl | auto].
  - cbn [run fold_left]. fold (run env settings (step env settings db op) ops).
    destruct (step_anomaly_row db op i row Hrow)
      as [H | (by_user & notes & now & _ & H)].
    + apply IH. exact H.
    + destruct (IH _ _ H) as (row' & Hn & Hsame & Hres).
      exists row'. split; [exact Hn |]. split.
      * eapply same_incident_trans; [| exact Hsame].
        unfold AnomalyLog.same_incident. repeat split.
      * intros _. apply Hres. reflexivity.
Qed.

(** C9, as amended.  No service operation deletes an anomaly row or
    changes its incident fields, and a resolved row stays resolved; the
    one operation that changes a row is [resolve_anomaly], which is not
    terminal: on every call that finds a row - resolved already or not -
    the row stored in the table, the first with that key, becomes the
    row with resolved set and resolver, notes and resolution time
    replaced by those of the call, every other row and the length of the
    table staying as they were; of two successive resolutions the table
    keeps the resolver, notes and time of the second. *)
Theorem anomaly_rows_kept_resolution_overwrites
    (db : Db) (i : nat) (row : AnomalyLog.t) :
  nth_error (anomaly_logs db) i = Some row ->
  (forall ops,
     exists row',
       nth_error (anomaly_logs (run env settings db ops)) i = Some row'
       /\ AnomalyLog.same_incident row row'
       /\ (AnomalyLog.is_resolved row = true ->
           AnomalyLog.is_resolved row' = true))
  /\ (forall op,
        nth_error (anomaly_logs (step env settings db op)) i = Some row
        \/ exists by_user notes now,
             op = ResolveAnomaly (AnomalyLog.id row) by_user notes now
             /\ nth_error (anomaly_logs (step env settings db op)) i
                = Some (AnomalyLog.resolved row by_user notes now))
  /\ (forall by_user notes now,
        find (fun a => Z.eqb (AnomalyLog.id a) (AnomalyLog.id row))
             (anomaly_logs db) = Some row ->
        let db' :=
          fst (Anomaly.resolve_anomaly db (AnomalyLog.id row) by_user notes
                 now) in
        snd (Anomaly.resolve_anomaly db (AnomalyLog.id row) by_user notes now)
        = Some (AnomalyLog.resolved row by_user notes now)
        /\ find (fun a => Z.eqb (AnomalyLog.id a) (AnomalyLog.id row))
             (anomaly_logs db')
           = Some (AnomalyLog.resolved row by_user notes now)
        /\ (exists k,
              nth_error (anomaly_logs db) k = Some row
              /\ (forall j other,
                    (j < k)%nat ->
                    nth_error (anomaly_logs db) j = Some other ->
                    AnomalyLog.id other <> AnomalyLog.id row)
              /\ nth_error (anomaly_logs db') k
                 = Some (AnomalyLog.resolved row by_user notes now)
              /\ (forall j, j <> k ->
                    nth_error (anomaly_logs db') j
                    = nth_error (anomaly_logs db) j))
        /\ List.length (anomaly_logs db') = List.length (anomaly_logs db)
        /\ AnomalyLog.is_resolved (AnomalyLog.resolved row by_user notes now)
           = true
        /\ AnomalyLog.resolved_by (AnomalyLog.resolved row by_user notes now)
           = Some by_user
        /\ AnomalyLog.resolution_notes (AnomalyLog.resolved row by_user notes now)
           = Some notes
        /\ AnomalyLog.resolved_at (AnomalyLog.resolved row by_user notes now)
           = Some now
        /\ (forall by_user' notes' now',
              find (fun a => Z.eqb (AnomalyLog.id a) (AnomalyLog.id row))
                (anomaly_logs
                   (fst (Anomaly.resolve_anomaly db' (AnomalyLog.id row)
                           by_user' notes' now')))
              = Some (AnomalyLog.resolved row by_user' notes' now'))).
Proof.
  intro Hrow. split; [| split].
  - intro ops. apply run_anomaly_row. exact Hrow.
  - intro op. apply step_anomaly_row. exact Hrow.
  - intros by_user notes now Hfind db'.
    set (is_row := fun a => Z.eqb (AnomalyLog.id a) (AnomalyLog.id row)) in *.
    assert (Hkeep : forall y u n t,
              is_row (AnomalyLog.resolved y u n t) = is_row y)
      by reflexivity.
    assert (Hlogs : anomaly_logs db'
                    = update_first is_row
                        (fun a => AnomalyLog.resolved a by_user notes now)
                        (anomaly_logs db)).
    { subst db'. unfold Anomaly.resolve_anomaly. fold is_row.
      rewrite Hfind. reflexivity. }
    assert (Hfind' : find is_row (anomaly_logs db')
                     = Some (AnomalyLog.resolved row by_user notes now)).
    { rewrite Hlogs.
      apply (find_update_first is_row
               (fun a => AnomalyLog.resolved a by_user notes now));
        [intro y; apply Hkeep | exact Hfind]. }
    split; [| split; [| split; [| split]]].
    + unfold Anomaly.resolve_anomaly. fold is_row. rewrite Hfind. reflexivity.
    + exact Hfind'.
    + destruct (update_first_found is_row
                  (fun a => AnomalyLog.resolved a by_user notes now)
                  _ _ Hfind) as (k & Hk & Hbefore & Hnew & Hother & _).
      exists k. split; [exact Hk |]. split.
      * intros j other Hj Hn. apply Z.eqb_neq. apply (Hbefore j other Hj Hn).
      * rewrite Hlogs. split; [exact Hnew | exact Hother].
    + rewrite Hlogs.
      destruct (update_first_found is_row
                  (fun a => AnomalyLog.resolved a by_user notes now)
                  _ _ Hfind) as (_ & _ & _ & _ & _ & Hlen).
      exact Hlen.
    + split; [reflexivity |]. split; [reflexivity |].
      split; [reflexivity |]. split; [reflexivity |].
      intros by_user' notes' now'.
      unfold Anomaly.resolve_anomaly. fold is_row. rewrite Hfind'.
      cbn [fst set_anomaly_logs anomaly_logs].
      rewrite (find_update_first is_row
                 (fun a => AnomalyLog.resolved a by_user' notes' now')
                 _ _ (fun y => Hkeep y by_user' notes' now') Hfind').
      reflexivity.
Qed.

(** ** The duplicate-face scan *)

Lemma fold_scan_is_fold_pick (face_image : Image env)
    (embeddings : list (Z * bytes)) (best : option Z * Q) :
  fold_left (FaceRecognition.scan_step env settings face_image) embeddings best
  = fold_left pick (scan_reports env settings face_image embeddings) best.
Proof.
  revert best. induction embeddings as [| [sid e] rest IH]; intro best;
    [reflexivity |].
  cbn [fold_left scan_reports map]. fold (scan_reports env settings face_image rest).
  rewrite <- IH. f_equal.
  unfold FaceRecognition.scan_step, pick. destruct best as [bm bc].
  cbn [fst snd].
  destruct (FaceRecognition.deserialize_embedding env e) as [stored |];
    [| reflexivity].
  destruct (FaceRecognition.compare_faces env settings stored face_image)
    as [m c].
  reflexivity.
Qed.

Lemma pick_cases (best : option Z * Q) (report : Z * (bool * Q)) :
  (fst (snd report) = true
   /\ snd best < snd (snd report)
   /\ pick best report = (Some (fst report), snd (snd report)))
  \/ (pick best report = best
      /\ (fst (snd report) = true -> snd (snd report) <= snd best)).
Proof.
  unfold pick, Qgt_bool.
  destruct (fst (snd report)); cbn [andb].
  - destruct (Qle_bool (snd (snd report)) (snd best)) eqn:E; cbn [negb].
    + right. split; [reflexivity |]. intros _. apply Qle_bool_iff. exact E.
    + left. split; [reflexivity |]. split; [| reflexivity].
      apply Qnot_le_lt. intro H. apply Qle_bool_iff in H. congruence.
  - right. split; [reflexivity | discriminate].
Qed.

Lemma first_best_new (seen : list (Z * (bool * Q))) (sid : Z) (c : Q) :
  (forall sid' c', In (sid', (true, c')) seen -> c' < c) ->
  first_best (seen ++ [(sid, (true, c))]) sid c.
Proof.
  intro Hbelow. exists (List.length seen). split.
  - rewrite nth_error_app2, Nat.sub_diag; [reflexivity | lia].
  - intros j sid' c' Hj.
    destruct (Nat.lt_ge_cases j (List.length seen)) as [Hlt | Hge].
    + rewrite nth_error_app1 in Hj by exact Hlt.
      apply nth_error_In in Hj. apply Hbelow in Hj.
      split; [apply Qlt_le_weak; exact Hj | intros _; exact Hj].
    + rewrite nth_error_app2 in Hj by exact Hge.
      destruct (j - List.length seen)%nat as [| k] eqn:Ek.
      * simpl in Hj. injection Hj as _ <-.
        split; [apply Qle_refl | lia].
      * simpl in Hj. destruct k; discriminate.
Qed.

Lemma first_best_keep (seen : list (Z * (bool * Q)))
    (report : Z * (bool * Q)) (sid : Z) (c : Q) :
  first_best seen sid c ->
  (fst (snd report) = true -> snd (snd report) <= c) ->
  first_best (seen ++ [report]) sid c.
Proof.
  intros (i & Hi & Hall) Hrep.
  assert (Hlt : (i < List.length seen)%nat)
    by (apply nth_error_Some; congruence).
  exists i. split.
  - rewrite nth_error_app1; assumption.
  - intros j sid' c' Hj.
    destruct (Nat.lt_ge_cases j (List.length seen)) as [Hj' | Hj'].
    + rewrite nth_error_app1 in Hj by exact Hj'.
      apply (Hall j sid' c' Hj).
    + rewrite nth_error_app2 in Hj by exact Hj'.
      destruct (j - List.length seen)%nat as [| k] eqn:Ek.
      * simpl in Hj. injection Hj as ->.
        split; [apply Hrep; reflexivity | lia].
      * simpl in Hj. destruct k; discriminate.
Qed.

Lemma pick_invariant (seen : list (Z * (bool * Q)))
    (best : option Z * Q) (report : Z * (bool * Q)) :
  scan_invariant seen best ->
  scan_invariant (seen ++ [report]) (pick best report).
Proof.
  intro Hinv.
  destruct (pick_cases best report) as [(Hm & Hgt & ->) | (-> & Hle)].
  - unfold scan_invariant in *. cbn [fst snd].
    destruct report as [sid [m c]]. cbn [fst snd] in *. subst m.
    destruct (fst best) as [old |].
    + destruct Hinv as [Hpos (i & _ & Hall)].
      split; [lra |]. apply first_best_new.
      intros sid' c' Hin. apply In_nth_error in Hin.
      destruct Hin as [j Hj]. destruct (Hall j sid' c' Hj) as [H _]. lra.
    + destruct Hinv as [Hzero Hnone].
      split; [rewrite Hzero in Hgt; exact Hgt |]. apply first_best_new.
      intros sid' c' Hin. apply Hnone in Hin. rewrite Hzero in Hgt. lra.
  - unfold scan_invariant in *.
    destruct (fst best) as [old |].
    + destruct Hinv as [Hpos Hbest]. split; [exact Hpos |].
      apply first_best_keep; assumption.
    + destruct Hinv as [Hzero Hnone]. split; [exact Hzero |].
      intros sid c Hin. apply in_app_or in Hin.
      destruct Hin as [Hin | [Hin | []]]; [eapply Hnone; exact Hin |].
      subst report. cbn [fst snd] in Hle. rewrite Hzero in Hle.
      apply Hle. reflexivity.
Qed.

Lemma fold_pick_invariant (rest seen : list (Z * (bool * Q)))
    (best : option Z * Q) :
  scan_invariant seen best ->
  scan_invariant (seen ++ rest) (fold_left pick rest best).
Proof.
  revert seen best. induction rest as [| report rest IH]; intros seen best H.
  - rewrite app_nil_r. exact H.
  - cbn [fold_left].
    replace (seen ++ report :: rest) with ((seen ++ [report]) ++ rest)
      by (rewrite <- app_assoc; reflexivity).
    apply IH. apply pick_invariant. exact H.
Qed.

(** With a tolerance below one every match has positive confidence. *)
Lemma match_confidence_positive (face_image : Image env)
    (embeddings : list (Z * bytes)) (sid : Z) (c : Q) :
  FaceRecognition.tolerance settings < 1 ->
  In (sid, (true, c)) (scan_reports env settings face_image embeddings) ->
  0 < c.
Proof.
  intros Htol Hin. unfold scan_reports in Hin. apply in_map_iff in Hin.
  destruct Hin as ([sid' e] & Heq & _). cbn [fst snd] in Heq.
  destruct (FaceRecognition.deserialize_embedding env e) as [stored |];
    [| discriminate].
  unfold FaceRecognition.compare_faces in Heq.
  destruct (negb (face_recognition_available env)).
  - injection Heq as _ Hm Hc. subst c. apply Qgt_bool_true in Hm. lra.
  - destruct (FaceRecognition.generate_embedding env face_image);
      [| discriminate].
    destruct (face_distance env stored e0) as [d |]; [| discriminate].
    injection Heq as _ Hm Hc. apply Qle_bool_iff in Hm. subst c. lra.
Qed.

(** An image in which no face can be encoded matches nobody. *)
Lemma no_embedding_no_match (face_image : Image env)
    (embeddings : list (Z * bytes)) :
  FaceRecognition.generate_embedding env face_image = None ->
  ~ has_match (scan_reports env settings face_image embeddings).
Proof.
  intros Hnone (sid & c & Hin). unfold scan_reports in Hin.
  apply in_map_iff in Hin. destruct Hin as ([sid' e] & Heq & _).
  cbn [fst snd] in Heq.
  destruct (FaceRecognition.deserialize_embedding env e); [| discriminate].
  unfold FaceRecognition.compare_faces in Heq.
  destruct (negb (face_recognition_available env)) eqn:Esim.
  - unfold FaceRecognition.generate_embedding in Hnone.
    rewrite Esim in Hnone. discriminate Hnone.
  - rewrite Hnone in Heq. discriminate.
Qed.

Lemma find_matching_face_first_best (face_image : Image env)
    (embeddings : list (Z * bytes)) :
  FaceRecognition.tolerance settings < 1 ->
  (has_match (scan_reports env settings face_image embeddings) ->
   exists sid c,
     FaceRecognition.find_matching_face env settings face_image embeddings
     = Some (sid, c)
     /\ first_best (scan_reports env settings face_image embeddings) sid c)
  /\ (~ has_match (scan_reports env settings face_image embeddings) ->
      FaceRecognition.find_matching_face env settings face_image embeddings
      = None).
Proof.
  intro Htol. unfold FaceRecognition.find_matching_face.
  destruct (FaceRecognition.generate_embedding env face_image) eqn:Egen.
  - rewrite fold_scan_is_fold_pick.
    pose proof (fold_pick_invariant
                  (scan_reports env settings face_image embeddings)
                  [] (None, 0)) as Hinv.
    cbn [app] in Hinv.
    destruct (fold_left pick _ (None, 0)) as [bm bc].
    unfold scan_invariant in Hinv. cbn [fst snd] in Hinv.
    assert (H0 : (0 : Q) = 0 /\
                 (forall (sid : Z) (c : Q), In (sid, (true, c)) [] -> c <= 0))
      by (split; [reflexivity | intros ? ? []]).
    specialize (Hinv H0). clear H0.
    destruct bm as [sid |].
    + destruct Hinv as [_ Hbest]. split.
      * intros _. exists sid, bc. auto.
      * intro Hno. exfalso. apply Hno.
        destruct Hbest as (i & Hi & _). apply nth_error_In in Hi.
        exists sid, bc. exact Hi.
    + destruct Hinv as [_ Hnone]. split.
      * intros (sid & c & Hin). exfalso.
        pose proof (match_confidence_positive _ _ _ _ Htol Hin).
        apply Hnone in Hin. lra.
      * reflexivity.
  - split; [| reflexivity].
    intro H. exfalso. revert H. apply no_embedding_no_match. exact Egen.
Qed.

(** The rows scanned are those of the other students of the college
    that hold a face embedding. *)
Lemma other_faces_spec (db : Db) (claiming : Z) (college : string)
    (sid : Z) (e : bytes) :
  In (sid, e) (Anomaly.other_faces db claiming college)
  <-> exists s,
        In s (students db) /\ Student.id s = sid
        /\ Student.face_embedding s = Some e
        /\ Student.college_id s = college /\ sid <> claiming.
Proof.
  unfold Anomaly.other_faces. rewrite in_flat_map. split.
  - intros (s & Hs & Hin). exists s.
    destruct (Student.face_embedding s) as [e' |]; [| destruct Hin].
    destruct (String.eqb_spec (Student.college_id s) college) as [Ec | Ec];
      cbn [andb] in Hin; [| destruct Hin].
    destruct (Z.eqb_spec (Student.id s) claiming) as [Ei | Ei];
      cbn [negb] in Hin; [destruct Hin |].
    destruct Hin as [Hin | []]. injection Hin as <- <-. auto.
  - intros (s & Hs & Hid & Hemb & Hcol & Hne). exists s.
    split; [exact Hs |]. rewrite Hemb.
    rewrite (proj2 (String.eqb_eq _ _) Hcol).
    rewrite (proj2 (Z.eqb_neq _ _)) by congruence.
    cbn [andb negb]. left. congruence.
Qed.

(** C6, as amended.  The duplicate-face check scans the other students
    of the college that hold a face embedding.  With a face tolerance
    below one: if the comparator classifies at least one of them as a
    match, [find_matching_face] returns the identity and the
    comparator's confidence of the match of highest confidence, the
    first encountered among equals, and [check_duplicate_face] returns
    that identity alone; if none matches, or the sample cannot be
    decoded, both return nothing. *)
Theorem duplicate_face_first_best
    (db : Db) (face_image_base64 : string) (claiming : Z) (college : string) :
  FaceRecognition.tolerance settings < 1 ->
  (forall sid e,
     In (sid, e) (Anomaly.other_faces db claiming college)
     <-> exists s,
           In s (students db) /\ Student.id s = sid
           /\ Student.face_embedding s = Some e
           /\ Student.college_id s = college /\ sid <> claiming)
  /\ (FaceRecognition.decode_base64_image env face_image_base64 = None ->
      Anomaly.check_duplicate_face env settings db face_image_base64
        claiming college = None)
  /\ (forall face_image,
        FaceRecognition.decode_base64_image env face_image_base64
        = Some face_image ->
        (has_match (scan_reports env settings face_image
                      (Anomaly.other_faces db claiming college)) ->
         exists sid c,
           first_best (scan_reports env settings face_image
                         (Anomaly.other_faces db claiming college)) sid c
           /\ FaceRecognition.find_matching_face env settings face_image
                (Anomaly.other_faces db claiming college) = Some (sid, c)
           /\ Anomaly.check_duplicate_face env settings db
                face_image_base64 claiming college = Some sid)
        /\ (~ has_match (scan_reports env settings face_image
                           (Anomaly.other_faces db claiming college)) ->
            FaceRecognition.find_matching_face env settings face_image
              (Anomaly.other_faces db claiming college) = None
            /\ Anomaly.check_duplicate_face env settings db
                 face_image_base64 claiming college = None)).
Proof.
  intro Htol. split; [intros; apply other_faces_spec |]. split.
  - intro Hdec. unfold Anomaly.check_duplicate_face. rewrite Hdec.
    destruct (Anomaly.other_faces db claiming college); reflexivity.
  - intros face_image Hdec.
    destruct (find_matching_face_first_best face_image
                (Anomaly.other_faces db claiming college) Htol)
      as [Hyes Hno].
    unfold Anomaly.check_duplicate_face. rewrite Hdec. split.
    + intro Hm. destruct (Hyes Hm) as (sid & c & Hfind & Hbest).
      exists sid, c. split; [exact Hbest |]. split; [exact Hfind |].
      destruct (Anomaly.other_faces db claiming college) eqn:Eo.
      * destruct Hm as (? & ? & []).
      * rewrite Hfind. reflexivity.
    + intro Hm. specialize (Hno Hm). split; [exact Hno |].
      destruct (Anomaly.other_faces db claiming college) eqn:Eo;
        [reflexivity |].
      rewrite Hno. reflexivity.
Qed.

End AnomalyProperties.

(* ================================================================== *)
(** * The services run on the demonstration deployment *)

Section Examples.
Import Verification Reference AttendanceSvc.

(** C1, counterexample.  Alice has no enrolled id-card data and her
    request carries only an id-card image: in the words of the
    specification no factor is applicable and the tiered policy answers
    false, yet [verify_student] evaluates the id card against her roll
    number and name and succeeds. *)
Lemma success_without_spec_applicable_factor :
  (forall m, applicable_spec m Demo.alice Scenario.alice_card = false)
  /\ applicable_outcomes_spec Demo.env Demo.settings Demo.alice
       Scenario.alice_card = []
  /\ tiered_policy (Config.min_face_confidence Demo.settings)
       (applicable_outcomes_spec Demo.env Demo.settings Demo.alice
          Scenario.alice_card) = false
  /\ evaluated Demo.env Demo.settings Demo.alice Scenario.alice_card
     = [IdCard]
  /\ success (verdict Demo.env Demo.settings Demo.alice Scenario.alice_card)
     = true
  /\ success (verdict Demo.env Demo.settings Demo.alice Scenario.alice_card)
     <> tiered_policy (Config.min_face_confidence Demo.settings)
          (applicable_outcomes_spec Demo.env Demo.settings Demo.alice
             Scenario.alice_card).
Proof.
  split; [intros []; reflexivity |].
  repeat split; try reflexivity.
  intro H. vm_compute in H. discriminate H.
Qed.

(** Under the default configuration, minimum 0.8: Bob's face alone,
    verified by the comparator at confidence 0.7, does not succeed;
    verified at confidence 0.9 it does. *)
Lemma verify_student_success_tiered_witness :
  Config.min_face_confidence Demo.settings = 0.8
  /\ evaluated Demo.env Demo.settings Demo.bob Scenario.bob_far = [Face]
  /\ comparator_report Demo.env Demo.settings Face Demo.bob Scenario.bob_far
     = (true, 1 - (3 # 10))
  /\ success (verdict Demo.env Demo.settings Demo.bob Scenario.bob_far)
     = false
  /\ comparator_report Demo.env Demo.settings Face Demo.bob Scenario.bob_near
     = (true, 1 - (1 # 10))
  /\ success (verdict Demo.env Demo.settings Demo.bob Scenario.bob_near)
     = true.
Proof.
  destruct (verify_student_success_tiered Demo.env Demo.settings
              Demo.bob Scenario.bob_far) as (_ & _ & _ & _ & Hfar).
  destruct (verify_student_success_tiered Demo.env Demo.settings
              Demo.bob Scenario.bob_near) as (_ & _ & _ & _ & Hnear).
  split; [reflexivity |]. split; [reflexivity |]. split; [reflexivity |].
  split; [rewrite (Hfar eq_refl); reflexivity |].
  split; [reflexivity |].
  rewrite (Hnear eq_refl). reflexivity.
Defined.

(** C3, counterexample.  Alice has no enrolled id-card data; a request
    that carries only an id-card image still has the id-card factor
    evaluated: its comparator is invoked, its name is the method
    descriptor and its failure is the anomaly reason.  Evaluation is
    therefore not equivalent to "input supplied and template enrolled". *)
Lemma id_card_evaluated_without_template :
  Student.id_card_data Demo.alice = None
  /\ applicable_spec IdCard Demo.alice Demo.alice_id_only = false
  /\ evaluated Demo.env Demo.settings Demo.alice Demo.alice_id_only = [IdCard]
  /\ verification_method
       (verdict Demo.env Demo.settings Demo.alice Demo.alice_id_only)
     = "id_card"
  /\ anomaly_reason
       (verdict Demo.env Demo.settings Demo.alice Demo.alice_id_only)
     = Some "Single factor verification failed: id_card"
  /\ ~ (In IdCard
          (evaluated Demo.env Demo.settings Demo.alice Demo.alice_id_only)
        <-> applicable_spec IdCard Demo.alice Demo.alice_id_only = true).
Proof.
  repeat split; try reflexivity.
  intros [H _]. assert (Hin : In IdCard [IdCard]) by (left; reflexivity).
  apply H in Hin. discriminate Hin.
Qed.

(** Alice with her fingerprint token only: the fingerprint factor is
    evaluated, the face factor is skipped and leaves its fields unset. *)
Lemma factor_evaluated_iff_applicable_witness :
  In Fingerprint (evaluated Demo.env Demo.settings Demo.alice Demo.alice_fp)
  /\ ~ In Face (evaluated Demo.env Demo.settings Demo.alice Demo.alice_fp)
  /\ face_verified (verdict Demo.env Demo.settings Demo.alice Demo.alice_fp)
     = false.
Proof.
  destruct (factor_evaluated_iff_applicable Demo.env Demo.settings
              Demo.alice Demo.alice_fp)
    as (Hface & _ & Hfp & _ & _ & Hskip & _).
  assert (Hno : ~ In Face
                  (evaluated Demo.env Demo.settings Demo.alice Demo.alice_fp)).
  { intro Hin. apply Hface in Hin. destruct Hin as [Hin _]. discriminate Hin. }
  split; [apply Hfp; split; reflexivity |].
  split; [exact Hno | apply (Hskip Hno)].
Defined.

(** A face confidence of 0.92, no document, a matched fingerprint. *)
Lemma overall_confidence_weighted_sum_witness :
  in_unit 0.92 /\ in_unit 0
  /\ calculate_overall_confidence 0.92 0 true
     == clamped_weighted_sum 0.92 0 true
  /\ in_unit (calculate_overall_confidence 0.92 0 true).
Proof.
  assert (Hf : in_unit 0.92) by (unfold in_unit, Qle; simpl; lia).
  assert (Hi : in_unit 0) by (unfold in_unit, Qle; simpl; lia).
  destruct (overall_confidence_weighted_sum Demo.env Demo.settings
              0.92 0 true Demo.alice Demo.alice_fp Hf Hi)
    as (Hsum & Hunit & _).
  split; [exact Hf |]. split; [exact Hi |]. split; [exact Hsum | exact Hunit].
Defined.

(** Three perfect factors. *)
Lemma overall_confidence_at_most_099_witness :
  in_unit 1 /\ in_unit 1
  /\ calculate_overall_confidence 1 1 true <= 0.99
  /\ calculate_overall_confidence 1 1 true < 1.
Proof.
  assert (H1 : in_unit 1) by (unfold in_unit, Qle; simpl; lia).
  destruct (overall_confidence_at_most_099 1 1 true H1 H1)
    as (Hle & Hlt & _).
  split; [exact H1 |]. split; [exact H1 |]. split; [exact Hle | exact Hlt].
Defined.

(** The worked example of the specification: a face verified at 0.92
    and a matched fingerprint, no document, score 0.65. *)
Example face_and_fingerprint_score :
  calculate_overall_confidence 0.92 0 true == 0.65.
Proof. reflexivity. Qed.

(** Dave is not enrolled: his attempt is turned away untouched. *)
Lemma hard_errors_reject_before_verification_witness :
  get_student Demo.db0 4 = Some Demo.dave
  /\ get_session Demo.db0 10 = Some Demo.open_session
  /\ Student.is_enrolled Demo.dave = false
  /\ exists msg,
       In msg [msg_session_inactive; msg_already_marked; msg_not_enrolled]
       /\ mark_attendance Demo.env Demo.settings Demo.db0 Demo.dave_face
            None 200
          = (Demo.db0, None, rejection msg, [])
       /\ success (rejection msg) = false
       /\ anomaly_detected (rejection msg) = false.
Proof.
  split; [reflexivity |]. split; [reflexivity |]. split; [reflexivity |].
  apply (hard_errors_reject_before_verification Demo.env Demo.settings
           Demo.db0 Demo.dave_face None 200 Demo.dave Demo.open_session
           eq_refl eq_refl (or_introl eq_refl)).
Defined.

(** C8, counterexample.  Carol already has a record for session 11 and
    the session is closed; her attempt is answered with the
    session-inactive message, not with the already-marked one. *)
Lemma closed_session_hides_existing_record :
  check_existing_attendance Demo.db_carol 3 11 = Some Demo.carol_row
  /\ get_session Demo.db_carol 11 = Some Demo.closed_session
  /\ Session.is_active Demo.closed_session = false
  /\ mark_attendance Demo.env Demo.settings Demo.db_carol Demo.carol_face
       None 200
     = (Demo.db_carol, None, rejection msg_session_inactive, [])
  /\ mark_attendance Demo.env Demo.settings Demo.db_carol Demo.carol_face
       None 200
     <> (Demo.db_carol, None, rejection msg_already_marked, []).
Proof.
  repeat split; try reflexivity.
  intro H. vm_compute in H. discriminate H.
Qed.

(** Carol on the closed session 11. *)
Lemma session_check_precedes_existing_check_witness :
  get_student Demo.db_carol 3 = Some Demo.carol
  /\ get_session Demo.db_carol 11 = Some Demo.closed_session
  /\ mark_attendance Demo.env Demo.settings Demo.db_carol Demo.carol_face
       None 200
     = (Demo.db_carol, None, rejection msg_session_inactive, []).
Proof.
  split; [reflexivity |]. split; [reflexivity |].
  apply (proj1 (session_check_precedes_existing_check Demo.env Demo.settings
                  Demo.db_carol Demo.carol_face None 200
                  Demo.carol Demo.closed_session eq_refl eq_refl)).
  reflexivity.
Defined.

(** Alice with a wrong fingerprint token: a failure, flagged, and one
    anomaly row appended. *)
Lemma verification_failure_is_data_witness :
  success (verdict Demo.env Demo.settings Demo.alice Demo.alice_bad_fp) = false
  /\ anomaly_detected
       (verdict Demo.env Demo.settings Demo.alice Demo.alice_bad_fp) = true
  /\ snd (fst Demo.bad_out)
     = verdict Demo.env Demo.settings Demo.alice Demo.alice_bad_fp
  /\ snd (fst (fst Demo.bad_out)) = None
  /\ anomaly_logs (fst (fst (fst Demo.bad_out)))
     = anomaly_logs Demo.db0
       ++ [{| AnomalyLog.id := 1;
              AnomalyLog.student_id := Some 1%Z;
              AnomalyLog.session_id := Some 10%Z;
              AnomalyLog.anomaly_type := "verification_failed";
              AnomalyLog.severity := "medium";
              AnomalyLog.reason :=
                "Single factor verification failed: fingerprint";
              AnomalyLog.details := None;
              AnomalyLog.is_resolved := false;
              AnomalyLog.resolved_by := None;
              AnomalyLog.resolution_notes := None;
              AnomalyLog.resolved_at := None;
              AnomalyLog.attempt_time := 100;
              AnomalyLog.ip_address := None;
              AnomalyLog.device_info := None |}].
Proof.
  destruct (verification_failure_is_data Demo.env Demo.settings
              Demo.alice Demo.alice_bad_fp Demo.db0 Demo.open_session
              None 100)
    as [(Hiff & _ & _) [Hmark _]].
  assert (Hfail : success
                    (verdict Demo.env Demo.settings Demo.alice
                       Demo.alice_bad_fp) = false) by reflexivity.
  split; [exact Hfail |]. split; [apply Hiff; exact Hfail |].
  destruct (Hmark eq_refl eq_refl eq_refl eq_refl eq_refl)
    as (Hr & _ & Hflag & _).
  split; [exact Hr |].
  destruct (Hflag (proj1 Hiff Hfail)) as (Hnone & _ & Hlogs).
  split; [exact Hnone | exact Hlogs].
Defined.

(** C4, counterexample.  Alice is marked present in session 10; the
    session is then closed; her next attempt for the same session is
    rejected and adds no row, but the rejection is the session-inactive
    one, not the already-marked one. *)
Lemma later_attempt_on_closed_session :
  mark_attendance Demo.env Demo.settings Demo.db0 Demo.alice_fp None 100
  = (Demo.db1, Some Demo.alice_row, snd (fst Demo.alice_out),
     snd Demo.alice_out)
  /\ check_existing_attendance Demo.db1_closed 1 10 = Some Demo.alice_row
  /\ mark_attendance Demo.env Demo.settings Demo.db1_closed Demo.alice_fp
       None 200
     = (Demo.db1_closed, None, rejection msg_session_inactive, [])
  /\ mark_attendance Demo.env Demo.settings Demo.db1_closed Demo.alice_fp
       None 200
     <> (Demo.db1_closed, None, rejection msg_already_marked, []).
Proof.
  repeat split; try (vm_compute; reflexivity).
  intro H. vm_compute in H. discriminate H.
Qed.

(** Alice is marked once; her next attempt, with a wrong token, is
    answered with the already-marked message. *)
Lemma one_record_per_student_session_witness :
  mark_attendance Demo.env Demo.settings Demo.db0 Demo.alice_fp None 100
  = (Demo.db1, Some Demo.alice_row, snd (fst Demo.alice_out),
     snd Demo.alice_out)
  /\ count_pair Demo.db1 1 10 = 1%nat
  /\ mark_attendance Demo.env Demo.settings Demo.db1 Demo.alice_bad_fp
       None 200
     = (Demo.db1, None, rejection msg_already_marked, [])
  /\ mark_attendance Demo.env Demo.settings Scenario.db1_no_students
       Demo.alice_bad_fp None 200
     = (Scenario.db1_no_students, None, rejection msg_student_not_found, []).
Proof.
  assert (H : mark_attendance Demo.env Demo.settings Demo.db0 Demo.alice_fp
                None 100
              = (Demo.db1, Some Demo.alice_row, snd (fst Demo.alice_out),
                 snd Demo.alice_out))
    by (vm_compute; reflexivity).
  destruct (one_record_per_student_session Demo.env Demo.settings
              _ _ _ _ _ _ _ _ H)
    as ((_ & _ & _ & _ & Hone) & Hlater & Hany & _).
  split; [exact H |]. split; [exact Hone |].
  split; [exact (Hlater [] Demo.alice_bad_fp None 200%Z eq_refl eq_refl) |].
  apply (Hany Scenario.db1_no_students Demo.alice_bad_fp None 200%Z
           eq_refl eq_refl);
    [intro Hex; vm_compute in Hex; discriminate Hex | reflexivity].
Defined.

(** C9, counterexample.  The anomaly logged against Carol is resolved
    by user 7; a second resolution by user 8 rewrites resolver, notes
    and resolution time of the already resolved row. *)
Lemma second_resolution_overwrites :
  nth_error (anomaly_logs Demo.db_resolved) 0 = Some Demo.resolved_row
  /\ AnomalyLog.is_resolved Demo.resolved_row = true
  /\ AnomalyLog.resolved_by Demo.resolved_row = Some 7%Z
  /\ nth_error
       (anomaly_logs
          (step Demo.env Demo.settings Demo.db_resolved
             (ResolveAnomaly 1 8 "changed" 60))) 0
     = Some (AnomalyLog.resolved Demo.resolved_row 8 "changed" 60)
  /\ AnomalyLog.resolved_by
       (AnomalyLog.resolved Demo.resolved_row 8 "changed" 60) = Some 8%Z
  /\ AnomalyLog.resolved_at
       (AnomalyLog.resolved Demo.resolved_row 8 "changed" 60) = Some 60%Z
  /\ AnomalyLog.resolved Demo.resolved_row 8 "changed" 60
     <> Demo.resolved_row.
Proof.
  repeat split; try reflexivity.
  intro H. vm_compute in H. discriminate H.
Qed.

(** The resolved row survives a second resolution and a failed mark,
    with its incident fields intact and still resolved. *)
Lemma anomaly_rows_kept_resolution_overwrites_witness :
  nth_error (anomaly_logs Demo.db_resolved) 0 = Some Demo.resolved_row
  /\ AnomalyLog.is_resolved Demo.resolved_row = true
  /\ (exists row',
        nth_error
          (anomaly_logs
             (run Demo.env Demo.settings Demo.db_resolved
                [ResolveAnomaly 1 8 "changed" 60;
                 MarkAttendance Demo.alice_bad_fp None 70])) 0
        = Some row'
        /\ AnomalyLog.same_incident Demo.resolved_row row'
        /\ (AnomalyLog.is_resolved Demo.resolved_row = true ->
            AnomalyLog.is_resolved row' = true))
  /\ find (fun a => Z.eqb (AnomalyLog.id a) 1)
       (anomaly_logs
          (fst (Anomaly.resolve_anomaly Demo.db_resolved 1 8 "changed" 60)))
     = Some (AnomalyLog.resolved Demo.resolved_row 8 "changed" 60).
Proof.
  assert (H : nth_error (anomaly_logs Demo.db_resolved) 0
              = Some Demo.resolved_row) by reflexivity.
  destruct (anomaly_rows_kept_resolution_overwrites
              Demo.env Demo.settings Demo.db_resolved 0
              Demo.resolved_row H) as (Hkept & _ & Hover).
  split; [exact H |]. split; [reflexivity |].
  split; [apply Hkept |].
  destruct (Hover 8%Z "changed" 60%Z eq_refl) as (_ & Hfind & _).
  exact Hfind.
Defined.

(** C6, counterexample.  Bob submits two samples; the comparator
    reports Alice as the best match with confidence 1 for the first
    and 0.9 for the second, yet [check_duplicate_face] returns the same
    value, Alice's id, for both: the comparator's confidence is not
    part of what the check returns.  And with the face tolerance set to
    one, a sample at distance one from Alice's template is a match of
    confidence zero, which the scan does not return. *)
Lemma duplicate_check_drops_confidence :
  Anomaly.check_duplicate_face Demo.env Demo.settings Demo.db0 "bbbb" 2 "C1"
  = Some 1%Z
  /\ Anomaly.check_duplicate_face Demo.env Demo.settings Demo.db0 "bbbbb" 2 "C1"
     = Some 1%Z
  /\ (exists c1 c2,
        FaceRecognition.find_matching_face Demo.env Demo.settings "bbbb"
          (Anomaly.other_faces Demo.db0 2 "C1") = Some (1%Z, c1)
        /\ FaceRecognition.find_matching_face Demo.env Demo.settings "bbbbb"
             (Anomaly.other_faces Demo.db0 2 "C1") = Some (1%Z, c2)
        /\ ~ c1 == c2)
  /\ has_match
       (scan_reports Demo.env Demo.lax_settings "bbbbbbbbbbbbbb"
          (Anomaly.other_faces Demo.db0 2 "C1"))
  /\ Anomaly.check_duplicate_face Demo.env Demo.lax_settings Demo.db0
       "bbbbbbbbbbbbbb" 2 "C1" = None.
Proof.
  split; [vm_compute; reflexivity |].
  split; [vm_compute; reflexivity |].
  split.
  - eexists. eexists.
    split; [vm_compute; reflexivity |].
    split; [vm_compute; reflexivity |].
    intro H. vm_compute in H. discriminate H.
  - split; [| vm_compute; reflexivity].
    exists 1%Z. eexists. vm_compute. left. reflexivity.
Qed.

(** Bob's sample under the default tolerance: Alice and Carol both
    match at 0.9 and Alice, scanned first, is returned. *)
Lemma duplicate_face_first_best_witness :
  FaceRecognition.tolerance Demo.settings < 1
  /\ exists sid c,
       first_best
         (scan_reports Demo.env Demo.settings "bbbbb"
            (Anomaly.other_faces Demo.db0 2 "C1")) sid c
       /\ FaceRecognition.find_matching_face Demo.env Demo.settings "bbbbb"
            (Anomaly.other_faces Demo.db0 2 "C1") = Some (sid, c)
       /\ Anomaly.check_duplicate_face Demo.env Demo.settings Demo.db0
            "bbbbb" 2 "C1" = Some sid.
Proof.
  assert (Htol : FaceRecognition.tolerance Demo.settings < 1)
    by (vm_compute; reflexivity).
  split; [exact Htol |].
  destruct (duplicate_face_first_best Demo.env Demo.settings Demo.db0
              "bbbbb" 2 "C1" Htol)
    as (_ & _ & Hscan).
  apply (proj1 (Hscan "bbbbb" eq_refl)).
  exists 1%Z. eexists. vm_compute. left. reflexivity.
Defined.

End Examples.

(* ================================================================== *)
(** * Properties of the anomaly queries *)

Section QueryProperties.
Context (env : Collaborators) (settings : Config.Settings).
Import Verification Reference AttendanceSvc AnomalyQueries.

Lemma count_where_app {A : Type} (p : A -> bool) (l l' : list A) :
  count_where p (l ++ l') = (count_where p l + count_where p l')%Z.
Proof.
  unfold count_where. rewrite filter_app, length_app. lia.
Qed.

Lemma count_where_nonneg {A : Type} (p : A -> bool) (l : list A) :
  (0 <= count_where p l)%Z.
Proof. unfold count_where. lia. Qed.

Lemma count_where_nil {A : Type} (p : A -> bool) :
  count_where p [] = 0%Z.
Proof. reflexivity. Qed.

Lemma count_where_cons {A : Type} (p : A -> bool) (a : A) (l : list A) :
  count_where p (a :: l)
  = ((if p a then 1 else 0) + count_where p l)%Z.
Proof.
  unfold count_where. cbn [filter]. destruct (p a); cbn [List.length];
    rewrite ?Nat2Z.inj_succ; lia.
Qed.

Lemma count_where_le_all {A : Type} (p : A -> bool) (l : list A) :
  (count_where p l <= count_where (fun _ => true) l)%Z.
Proof.
  induction l as [| a l IH]; [reflexivity |].
  rewrite !count_where_cons. destruct (p a); lia.
Qed.

(** A count that reads only incident fields does not drop when every
    row is kept in its place with its incident fields. *)
Lemma count_where_rows_kept (p : AnomalyLog.t -> bool)
    (l l' : list AnomalyLog.t) :
  (forall a b, AnomalyLog.same_incident a b -> p a = p b) ->
  (forall i row,
     nth_error l i = Some row ->
     exists row', nth_error l' i = Some row'
                  /\ AnomalyLog.same_incident row row') ->
  (count_where p l <= count_where p l')%Z.
Proof.
  intro Hp. revert l'. induction l as [| r rest IH]; intros l' Hkept.
  - apply count_where_nonneg.
  - destruct (Hkept 0%nat r eq_refl) as (r' & Hr' & Hsame).
    destruct l' as [| x rest']; [discriminate |].
    simpl in Hr'. injection Hr' as ->.
    rewrite !count_where_cons, (Hp _ _ Hsame).
    assert (count_where p rest <= count_where p rest')%Z.
    { apply IH. intros i row Hi. apply (Hkept (S i) row Hi). }
    lia.
Qed.

Lemma recent_failure_incident (sid ssid ws : Z) (a b : AnomalyLog.t) :
  AnomalyLog.same_incident a b ->
  recent_failure sid ssid ws a = recent_failure sid ssid ws b.
Proof.
  unfold AnomalyLog.same_incident, recent_failure. intro H.
  decompose [and] H. congruence.
Qed.

Lemma same_address_incident (ip : string) (ssid sid : Z) (a b : AnomalyLog.t) :
  AnomalyLog.same_incident a b ->
  same_address_other_student ip ssid sid a
  = same_address_other_student ip ssid sid b.
Proof.
  unfold AnomalyLog.same_incident, same_address_other_student. intro H.
  decompose [and] H. congruence.
Qed.

(** The students and sessions found after any sequence of service
    operations are those found before. *)
Lemma run_lookups (ops : list Op) (db : Db) (sid ssid : Z) :
  get_student (run env settings db ops) sid = get_student db sid
  /\ get_session (run env settings db ops) ssid = get_session db ssid.
Proof.
  unfold get_student, get_session.
  destruct (run_tables env settings ops db) as [Hs Ht].
  rewrite Hs, Ht. split; reflexivity.
Qed.

(** A pair without a row after a sequence of service operations had
    none before it. *)
Lemma no_pair_before (ops : list Op) (db : Db) (sid ssid : Z) :
  check_existing_attendance (run env settings db ops) sid ssid = None ->
  check_existing_attendance db sid ssid = None.
Proof.
  intro Hnone.
  destruct (check_existing_attendance db sid ssid) as [a |] eqn:E;
    [| reflexivity].
  exfalso.
  assert (Hin : In (sid, ssid) (pairs db))
    by (apply existing_iff_pair; congruence).
  apply (run_keeps_pair env settings ops) in Hin.
  apply existing_iff_pair in Hin. contradiction.
Qed.

Lemma run_count_kept (p : AnomalyLog.t -> bool) (ops : list Op) (db : Db) :
  (forall a b, AnomalyLog.same_incident a b -> p a = p b) ->
  (count_where p (anomaly_logs db)
   <= count_where p (anomaly_logs (run env settings db ops)))%Z.
Proof.
  intro Hp. apply count_where_rows_kept; [exact Hp |].
  intros i row Hi.
  destruct (run_anomaly_row env settings ops db i row Hi)
    as (row' & Hn & Hsame & _).
  exists row'. auto.
Qed.

(** An attempt that passes the guards and fails verification inside the
    window adds one to the count of its (student, session) pair. *)
Lemma failed_attempt_counts (db : Db) (request : AttendanceMarkRequest.t)
    (ip : option string) (t ws : Z)
    (student : Student.t) (session : Session.t) :
  get_student db (AttendanceMarkRequest.student_id request) = Some student ->
  get_session db (AttendanceMarkRequest.session_id request) = Some session ->
  Session.is_active session = true ->
  check_existing_attendance db
    (AttendanceMarkRequest.student_id request)
    (AttendanceMarkRequest.session_id request) = None ->
  Student.is_enrolled student = true ->
  success (verdict env settings student request) = false ->
  (ws <= t)%Z ->
  (count_where
     (recent_failure (AttendanceMarkRequest.student_id request)
        (AttendanceMarkRequest.session_id request) ws)
     (anomaly_logs db) + 1
   <= count_where
        (recent_failure (AttendanceMarkRequest.student_id request)
           (AttendanceMarkRequest.session_id request) ws)
        (anomaly_logs
           (fst (fst (fst (mark_attendance env settings db request ip t))))))%Z.
Proof.
  intros Est Ese Eact Eex Eenr Hfail Hws.
  pose proof (mark_attendance_past_guards env settings db request ip t
                student session Est Ese Eact Eex Eenr) as H.
  cbv zeta in H. destruct H as (_ & _ & _ & _ & Hf & _).
  destruct (Hf Hfail) as (_ & _ & Hlogs).
  rewrite Hlogs, count_where_app, count_where_cons.
  unfold recent_failure at 3.
  cbn [AnomalyLog.student_id AnomalyLog.session_id AnomalyLog.anomaly_type
       AnomalyLog.attempt_time is_id].
  rewrite !Z.eqb_refl, String.eqb_refl.
  rewrite (proj2 (Z.leb_le _ _) Hws).
  cbn [andb]. rewrite count_where_nil. lia.
Qed.

(** X1.  Three failed attempts trip the throttle.  Three attempts of one
    student for one session that pass the guards of [mark_attendance] -
    student and session found, session active, no attendance row for
    the pair, student enrolled - and for which [verify_student] answers
    no success, each made no more than 1800 seconds (thirty minutes)
    before the clock reading, make [check_repeated_failures] answer
    true, whatever other service operations ran in between and since.
    In general the throttle answers true exactly when at least 3
    verification-failed rows of the pair carry an attempt time within
    the last 1800 seconds. *)
Theorem three_failures_trip_throttle
    (db : Db) (student : Student.t) (session : Session.t)
    (q1 q2 q3 : AttendanceMarkRequest.t)
    (ip1 ip2 ip3 : option string) (t1 t2 t3 now : Z)
    (ops1 ops2 ops3 : list Op) :
  let sid := Student.id student in
  let ssid := Session.id session in
  let db1 := fst (fst (fst (mark_attendance env settings db q1 ip1 t1))) in
  let db1' := run env settings db1 ops1 in
  let db2 := fst (fst (fst (mark_attendance env settings db1' q2 ip2 t2))) in
  let db2' := run env settings db2 ops2 in
  let db3 := fst (fst (fst (mark_attendance env settings db2' q3 ip3 t3))) in
  let db3' := run env settings db3 ops3 in
  get_student db sid = Some student ->
  get_session db ssid = Some session ->
  Session.is_active session = true ->
  Student.is_enrolled student = true ->
  AttendanceMarkRequest.student_id q1 = sid ->
  AttendanceMarkRequest.student_id q2 = sid ->
  AttendanceMarkRequest.student_id q3 = sid ->
  AttendanceMarkRequest.session_id q1 = ssid ->
  AttendanceMarkRequest.session_id q2 = ssid ->
  AttendanceMarkRequest.session_id q3 = ssid ->
  check_existing_attendance db2' sid ssid = None ->
  success (verdict env settings student q1) = false ->
  success (verdict env settings student q2) = false ->
  success (verdict env settings student q3) = false ->
  (now - 1800 <= t1)%Z ->
  (now - 1800 <= t2)%Z ->
  (now - 1800 <= t3)%Z ->
  check_repeated_failures db3' sid ssid now = true
  /\ (forall d s ss n,
        check_repeated_failures d s ss n = true
        <-> (3 <= count_where
                    (fun a =>
                       is_id (AnomalyLog.student_id a) s
                       && is_id (AnomalyLog.session_id a) ss
                       && String.eqb (AnomalyLog.anomaly_type a)
                            "verification_failed"
                       && Z.leb (n - 1800) (AnomalyLog.attempt_time a))
                    (anomaly_logs d))%Z).
Proof.
  intros sid ssid db1 db1' db2 db2' db3 db3'
    Est Ese Eact Eenr S1 S2 S3 T1 T2 T3 Eex F1 F2 F3 W1 W2 W3.
  split; [| intros d s ss n; unfold check_repeated_failures;
            apply Z.leb_le].
  (* the guards hold at each of the three attempts *)
  assert (Eex2 : check_existing_attendance db2 sid ssid = None)
    by (apply (no_pair_before ops2); exact Eex).
  assert (Eex1' : check_existing_attendance db1' sid ssid = None)
    by (apply (no_pair_before [MarkAttendance q2 ip2 t2]); exact Eex2).
  assert (Eex1 : check_existing_attendance db1 sid ssid = None)
    by (apply (no_pair_before ops1); exact Eex1').
  assert (Eex0 : check_existing_attendance db sid ssid = None)
    by (apply (no_pair_before [MarkAttendance q1 ip1 t1]); exact Eex1).
  destruct (run_lookups ([MarkAttendance q1 ip1 t1] ++ ops1) db sid ssid)
    as [Est1 Ese1].
  destruct (run_lookups
              (([MarkAttendance q1 ip1 t1] ++ ops1)
               ++ [MarkAttendance q2 ip2 t2] ++ ops2) db sid ssid)
    as [Est2 Ese2].
  unfold run in Est1, Ese1, Est2, Ese2.
  rewrite !fold_left_app in Est1, Ese1, Est2, Ese2.
  cbn [fold_left step] in Est1, Ese1, Est2, Ese2.
  fold (run env settings db1 ops1) in Est1, Ese1, Est2, Ese2.
  fold db1' in Est1, Ese1, Est2, Ese2.
  fold (run env settings db2 ops2) in Est2, Ese2.
  fold db2' in Est2, Ese2.
  rewrite Est in Est1, Est2. rewrite Ese in Ese1, Ese2.
  unfold check_repeated_failures.
  change (now - minutes attempt_window_minutes)%Z with (now - 1800)%Z.
  set (ws := (now - 1800)%Z) in *.
  set (p := recent_failure sid ssid ws).
  assert (Hp : forall a b, AnomalyLog.same_incident a b -> p a = p b)
    by (intros; apply recent_failure_incident; assumption).
  pose proof (failed_attempt_counts db q1 ip1 t1 ws student session) as C1.
  rewrite S1, T1 in C1. specialize (C1 Est Ese Eact Eex0 Eenr F1 W1).
  pose proof (failed_attempt_counts db1' q2 ip2 t2 ws student session) as C2.
  rewrite S2, T2 in C2. specialize (C2 Est1 Ese1 Eact Eex1' Eenr F2 W2).
  pose proof (failed_attempt_counts db2' q3 ip3 t3 ws student session) as C3.
  rewrite S3, T3 in C3. specialize (C3 Est2 Ese2 Eact Eex Eenr F3 W3).
  fold p db1 in C1. fold p db2 in C2. fold p db3 in C3.
  pose proof (run_count_kept p ops1 db1 Hp) as R1.
  pose proof (run_count_kept p ops2 db2 Hp) as R2.
  pose proof (run_count_kept p ops3 db3 Hp) as R3.
  fold db1' in R1. fold db2' in R2. fold db3' in R3.
  pose proof (count_where_nonneg p (anomaly_logs db)).
  apply Z.leb_le. unfold max_failed_attempts. lia.
Qed.

Lemma filter_update_first_length {A : Type} (p q : A -> bool) (f : A -> A)
    (rows : list A) :
  (forall x, p (f x) = p x) ->
  count_where p (update_first q f rows) = count_where p rows.
Proof.
  intro Hp. induction rows as [| r rest IH]; [reflexivity |].
  simpl. destruct (q r).
  - rewrite !count_where_cons, Hp. reflexivity.
  - rewrite !count_where_cons, IH. reflexivity.
Qed.

Lemma resolved_same_incident (a : AnomalyLog.t) (by_user : Z)
    (notes : string) (now : Z) :
  AnomalyLog.same_incident (AnomalyLog.resolved a by_user notes now) a.
Proof. unfold AnomalyLog.same_incident. repeat split. Qed.

Lemma resolve_anomaly_logs (db : Db) (aid by_user : Z) (notes : string)
    (t : Z) :
  anomaly_logs (fst (Anomaly.resolve_anomaly db aid by_user notes t))
  = update_first (fun a => Z.eqb (AnomalyLog.id a) aid)
      (fun a => AnomalyLog.resolved a by_user notes t) (anomaly_logs db)
  \/ anomaly_logs (fst (Anomaly.resolve_anomaly db aid by_user notes t))
     = anomaly_logs db.
Proof.
  unfold Anomaly.resolve_anomaly.
  destruct (find _ (anomaly_logs db)); [left | right]; reflexivity.
Qed.

(** The students selected by the address check after an update that
    keeps incident fields. *)
Lemma update_first_filter_students (p q : AnomalyLog.t -> bool)
    (f : AnomalyLog.t -> AnomalyLog.t) (rows : list AnomalyLog.t) :
  (forall x, p (f x) = p x) ->
  (forall x, AnomalyLog.student_id (f x) = AnomalyLog.student_id x) ->
  flat_map (fun a => match AnomalyLog.student_id a with
                     | Some s => [s]
                     | None => []
                     end) (filter p (update_first q f rows))
  = flat_map (fun a => match AnomalyLog.student_id a with
                       | Some s => [s]
                       | None => []
                       end) (filter p rows).
Proof.
  intros Hp Hs. induction rows as [| r rest IH]; [reflexivity |].
  simpl. destruct (q r); simpl.
  - rewrite Hp. destruct (p r); simpl; [rewrite Hs |]; reflexivity.
  - destruct (p r); simpl; rewrite IH; reflexivity.
Qed.

(** X2.  Resolving does not reset the detectors.  [resolve_anomaly]
    changes neither the answer of the repeated-failure throttle nor that
    of the shared-address check, at any clock reading: both read resolved
    rows like unresolved ones. *)
Theorem resolution_keeps_detectors
    (db : Db) (aid by_user : Z) (notes : string) (t : Z)
    (sid ssid now : Z) (ip : string) :
  check_repeated_failures
    (fst (Anomaly.resolve_anomaly db aid by_user notes t)) sid ssid now
  = check_repeated_failures db sid ssid now
  /\ check_ip_anomaly
       (fst (Anomaly.resolve_anomaly db aid by_user notes t)) ip ssid sid
     = check_ip_anomaly db ip ssid sid.
Proof.
  unfold check_repeated_failures, check_ip_anomaly, count_distinct_students.
  destruct (resolve_anomaly_logs db aid by_user notes t) as [E | E];
    rewrite E; [| split; reflexivity].
  split.
  - rewrite filter_update_first_length; [reflexivity |].
    intro x. apply recent_failure_incident. apply resolved_same_incident.
  - rewrite update_first_filter_students; [reflexivity | | reflexivity].
    intro x. apply same_address_incident. apply resolved_same_incident.
Qed.

(** X3.  The throttle is not applied by [mark_attendance].  The outcome
    of a mark attempt - the result returned, the attendance row created
    and the comparators invoked - does not depend on the anomaly table:
    replacing it by any other history, one that trips
    [check_repeated_failures] included, changes nothing but the anomaly
    table of the database returned. *)
Theorem mark_attendance_ignores_anomaly_history
    (db : Db) (history : list AnomalyLog.t) (seq : Z)
    (request : AttendanceMarkRequest.t) (ip : option string) (now : Z) :
  let db2 :=
    mkDb (students db) (sessions db) (attendances db) history
         (attendance_seq db) seq in
  snd (fst (mark_attendance env settings db2 request ip now))
  = snd (fst (mark_attendance env settings db request ip now))
  /\ snd (fst (fst (mark_attendance env settings db2 request ip now)))
     = snd (fst (fst (mark_attendance env settings db request ip now)))
  /\ snd (mark_attendance env settings db2 request ip now)
     = snd (mark_attendance env settings db request ip now)
  /\ attendances (fst (fst (fst (mark_attendance env settings db2 request ip now))))
     = attendances (fst (fst (fst (mark_attendance env settings db request ip now)))).
Proof.
  intro db2. unfold mark_attendance.
  change (get_student db2) with (get_student db).
  change (get_session db2) with (get_session db).
  change (check_existing_attendance db2) with (check_existing_attendance db).
  destruct (get_student db _) as [student |]; [| repeat split].
  destruct (get_session db _) as [session |]; [| repeat split].
  destruct (negb (Session.is_active session)); [repeat split |].
  destruct (check_existing_attendance db _ _); [repeat split |].
  destruct (negb (Student.is_enrolled student)); [repeat split |].
  destruct (verify_request env settings student request) as [vr tr].
  unfold bind, ret, _log_anomaly, add_anomaly, add_attendance.
  destruct (anomaly_detected vr), (success vr); cbn; repeat split.
Qed.

End QueryProperties.

(* ================================================================== *)
(** * Properties of the detectors *)

Section DetectorProperties.
Context (env : Collaborators) (settings : Config.Settings).
Import Verification Reference AttendanceSvc AnomalyQueries.

Lemma count_distinct_positive (rows : list AnomalyLog.t) :
  (0 < count_distinct_students rows)%Z
  <-> exists a s, In a rows /\ AnomalyLog.student_id a = Some s.
Proof.
  unfold count_distinct_students.
  set (ids := flat_map _ rows).
  assert (Hids : forall s, In s ids
                 <-> exists a, In a rows /\ AnomalyLog.student_id a = Some s).
  { intro s. unfold ids. rewrite in_flat_map. split.
    - intros (a & Ha & Hin). exists a. split; [exact Ha |].
      destruct (AnomalyLog.student_id a); [| destruct Hin].
      destruct Hin as [-> | []]. reflexivity.
    - intros (a & Ha & Hs). exists a. split; [exact Ha |].
      rewrite Hs. left. reflexivity. }
  split.
  - intro Hpos. destruct (nodup Z.eq_dec ids) as [| s rest] eqn:E;
      [cbn in Hpos; lia |].
    assert (Hin : In s (nodup Z.eq_dec ids)) by (rewrite E; left; reflexivity).
    apply nodup_In in Hin. apply Hids in Hin.
    destruct Hin as (a & Ha & Hs). exists a, s. auto.
  - intros (a & s & Ha & Hs).
    assert (Hin : In s (nodup Z.eq_dec ids)).
    { apply nodup_In. apply Hids. exists a. auto. }
    destruct (nodup Z.eq_dec ids); [destruct Hin |].
    cbn [List.length]. lia.
Qed.

Lemma same_address_other_student_spec (ip : string) (ssid sid : Z)
    (a : AnomalyLog.t) :
  same_address_other_student ip ssid sid a = true
  <-> AnomalyLog.ip_address a = Some ip
      /\ AnomalyLog.session_id a = Some ssid
      /\ exists other, AnomalyLog.student_id a = Some other /\ other <> sid.
Proof.
  unfold same_address_other_student, is_text, is_id, is_other_id.
  rewrite !andb_true_iff.
  destruct (AnomalyLog.ip_address a) as [x |],
           (AnomalyLog.session_id a) as [y |],
           (AnomalyLog.student_id a) as [z |];
    rewrite ?String.eqb_eq, ?Z.eqb_eq, ?negb_true_iff, ?Z.eqb_neq;
    split; try (intros ((? & ?) & ?); discriminate);
    try (intros (? & ? & ?); discriminate);
    try (intros (? & ? & (? & ? & ?)); discriminate).
  - intros ((-> & ->) & Hne). repeat split. exists z. auto.
  - intros (Hx & Hy & (other & Hz & Hne)).
    injection Hx as ->. injection Hy as ->. injection Hz as ->. auto.
Qed.

(** X4.  What the shared-address check detects.  [check_ip_anomaly]
    answers true exactly when the anomaly table holds a row recorded
    from the address, for the session, against a student other than the
    one asking; rows of the student asking, rows without a student and
    rows without an address never count. *)
Theorem ip_anomaly_iff_other_student_row
    (db : Db) (ip : string) (ssid sid : Z) :
  check_ip_anomaly db ip ssid sid = true
  <-> exists row other,
        In row (anomaly_logs db)
        /\ AnomalyLog.ip_address row = Some ip
        /\ AnomalyLog.session_id row = Some ssid
        /\ AnomalyLog.student_id row = Some other
        /\ other <> sid.
Proof.
  unfold check_ip_anomaly. rewrite Z.ltb_lt, count_distinct_positive.
  split.
  - intros (a & s & Hin & Hs). apply filter_In in Hin.
    destruct Hin as [Hin Hp]. apply same_address_other_student_spec in Hp.
    destruct Hp as (Hip & Hse & (other & Ho & Hne)).
    exists a, other. auto.
  - intros (row & other & Hin & Hip & Hse & Ho & Hne).
    exists row, other. split; [| exact Ho].
    apply filter_In. split; [exact Hin |].
    apply same_address_other_student_spec. eauto.
Qed.

Lemma ip_anomaly_kept (ops : list Op) (db : Db) (ip : string) (ssid sid : Z) :
  check_ip_anomaly db ip ssid sid = true ->
  check_ip_anomaly (run env settings db ops) ip ssid sid = true.
Proof.
  rewrite !ip_anomaly_iff_other_student_row.
  intros (row & other & Hin & Hip & Hse & Ho & Hne).
  apply In_nth_error in Hin. destruct Hin as [i Hi].
  destruct (run_anomaly_row env settings ops db i row Hi)
    as (row' & Hn & Hsame & _).
  exists row', other. split; [eapply nth_error_In; exact Hn |].
  unfold AnomalyLog.same_incident in Hsame. decompose [and] Hsame.
  repeat split; congruence.
Qed.

(** X5.  A failed attempt marks its address.  After an attempt that
    passes the guards of [mark_attendance] - student and session found,
    session active, no attendance row for the pair, student enrolled -
    and for which [verify_student] answers no success, made from a known
    address, the shared-address check answers true for every other
    student who presents that address for the session, and goes on doing
    so whatever the services do next.  The attempt does not change the
    answer for the student who made it, and the same attempt carrying no
    address changes no answer at all. *)
Theorem failed_attempt_marks_address
    (db : Db) (student : Student.t) (session : Session.t)
    (request : AttendanceMarkRequest.t) (address : string)
    (now : Z) (ops : list Op) (other : Z) :
  let db' :=
    fst (fst (fst (mark_attendance env settings db request (Some address) now))) in
  let unaddressed :=
    fst (fst (fst (mark_attendance env settings db request None now))) in
  get_student db (AttendanceMarkRequest.student_id request) = Some student ->
  get_session db (AttendanceMarkRequest.session_id request) = Some session ->
  Session.is_active session = true ->
  check_existing_attendance db
    (AttendanceMarkRequest.student_id request)
    (AttendanceMarkRequest.session_id request) = None ->
  Student.is_enrolled student = true ->
  success (verdict env settings student request) = false ->
  other <> AttendanceMarkRequest.student_id request ->
  check_ip_anomaly (run env settings db' ops) address
    (AttendanceMarkRequest.session_id request) other = true
  /\ (forall ip ssid,
        check_ip_anomaly db' ip ssid (AttendanceMarkRequest.student_id request)
        = check_ip_anomaly db ip ssid (AttendanceMarkRequest.student_id request))
  /\ (forall ip ssid sid,
        check_ip_anomaly unaddressed ip ssid sid
        = check_ip_anomaly db ip ssid sid).
Proof.
  intros db' unaddressed Est Ese Eact Eex Eenr Hfail Hother.
  pose proof (mark_attendance_past_guards env settings db request
                (Some address) now student session Est Ese Eact Eex Eenr)
    as Ha.
  pose proof (mark_attendance_past_guards env settings db request
                None now student session Est Ese Eact Eex Eenr)
    as Hn.
  cbv zeta in Ha, Hn.
  destruct Ha as (_ & _ & _ & _ & Ha & _).
  destruct Hn as (_ & _ & _ & _ & Hn & _).
  destruct (Ha Hfail) as (_ & _ & Hlogs).
  destruct (Hn Hfail) as (_ & _ & Hlogs').
  fold db' in Hlogs. fold unaddressed in Hlogs'.
  split; [| split].
  - apply ip_anomaly_kept. apply ip_anomaly_iff_other_student_row.
    eexists. exists (AttendanceMarkRequest.student_id request).
    rewrite Hlogs.
    split; [apply in_or_app; right; left; reflexivity |].
    cbn [AnomalyLog.ip_address AnomalyLog.session_id AnomalyLog.student_id].
    auto.
  - intros ip ssid.
    unfold check_ip_anomaly. rewrite Hlogs, filter_app. cbn [filter].
    unfold same_address_other_student at 2.
    cbn [AnomalyLog.student_id is_other_id].
    rewrite Z.eqb_refl. cbn [negb]. rewrite !andb_false_r, app_nil_r.
    reflexivity.
  - intros ip ssid sid.
    unfold check_ip_anomaly. rewrite Hlogs', filter_app. cbn [filter].
    unfold same_address_other_student at 2.
    cbn [AnomalyLog.ip_address is_text andb].
    rewrite app_nil_r. reflexivity.
Qed.

(** What [find_matching_face] returns was reported by the comparator as
    a match of positive confidence. *)
Lemma find_matching_face_sound (face_image : Image env)
    (embeddings : list (Z * bytes)) (sid : Z) (c : Q) :
  FaceRecognition.find_matching_face env settings face_image embeddings
  = Some (sid, c) ->
  0 < c /\ In (sid, (true, c)) (scan_reports env settings face_image embeddings).
Proof.
  unfold FaceRecognition.find_matching_face.
  destruct (FaceRecognition.generate_embedding env face_image);
    [| discriminate].
  rewrite fold_scan_is_fold_pick.
  pose proof (fold_pick_invariant
                (scan_reports env settings face_image embeddings)
                [] (None, 0)) as Hinv.
  cbn [app] in Hinv.
  destruct (fold_left pick _ (None, 0)) as [bm bc].
  unfold scan_invariant in Hinv. cbn [fst snd] in Hinv.
  assert (H0 : (0 : Q) = 0 /\
               (forall (s : Z) (q : Q), In (s, (true, q)) [] -> q <= 0))
    by (split; [reflexivity | intros ? ? []]).
  specialize (Hinv H0). clear H0.
  destruct bm as [s |]; [| discriminate].
  intro H. injection H as -> ->.
  destruct Hinv as [Hpos (i & Hi & _)].
  split; [exact Hpos |]. eapply nth_error_In. exact Hi.
Qed.

(** X6.  What a duplicate-face answer means.  Whatever the tolerance,
    an identity returned by [check_duplicate_face] is never the claiming
    student: it is a student of the same college who holds a face
    embedding that deserializes, and the sample decodes to an image.
    With the face library present, a face is found in the image and its
    distance to that embedding is within the tolerance and below one.
    Without the library no face is looked for: the answer rests on a
    random draw above 0.8 made for that student. *)
Theorem duplicate_face_answer_sound
    (db : Db) (face_image_base64 : string) (claiming : Z) (college : string)
    (matched : Z) :
  Anomaly.check_duplicate_face env settings db face_image_base64
    claiming college = Some matched ->
  matched <> claiming
  /\ exists s e stored face_image,
       In s (students db)
       /\ Student.id s = matched
       /\ Student.college_id s = college
       /\ Student.face_embedding s = Some e
       /\ FaceRecognition.deserialize_embedding env e = Some stored
       /\ FaceRecognition.decode_base64_image env face_image_base64
          = Some face_image
       /\ (face_recognition_available env = true ->
           exists probe d,
             face_encodings env face_image = Some probe
             /\ FaceRecognition.generate_embedding env face_image = Some probe
             /\ face_distance env stored probe = Some d
             /\ d <= FaceRecognition.tolerance settings
             /\ d < 1)
       /\ (face_recognition_available env = false ->
           0.8 < random_uniform env stored face_image).
Proof.
  unfold Anomaly.check_duplicate_face.
  destruct (Anomaly.other_faces db claiming college) as [| x rest] eqn:Eo;
    [discriminate |].
  rewrite <- Eo. clear x rest Eo.
  destruct (FaceRecognition.decode_base64_image env face_image_base64)
    as [face_image |] eqn:Edec; [| discriminate].
  destruct (FaceRecognition.find_matching_face env settings face_image _)
    as [[sid c] |] eqn:Efind; [| discriminate].
  intro H. injection H as ->.
  apply find_matching_face_sound in Efind. destruct Efind as [Hpos Hin].
  unfold scan_reports in Hin. apply in_map_iff in Hin.
  destruct Hin as ([sid e] & Heq & Hin). cbn [fst snd] in Heq.
  apply other_faces_spec in Hin.
  destruct Hin as (s & Hs & Hid & Hemb & Hcol & Hne).
  destruct (FaceRecognition.deserialize_embedding env e) as [stored |] eqn:Ede;
    [| discriminate].
  injection Heq as Hsid Heq. subst sid.
  split; [exact Hne |].
  exists s, e, stored, face_image.
  repeat (split; [assumption || reflexivity |]).
  unfold FaceRecognition.compare_faces, FaceRecognition.generate_embedding
    in Heq |- *.
  split; intro Hav; rewrite Hav in Heq; rewrite ?Hav; cbn [negb] in Heq |- *.
  - destruct (face_encodings env face_image) as [probe |] eqn:Egen;
      [| discriminate].
    destruct (face_distance env stored probe) as [d |] eqn:Edist;
      [| discriminate].
    injection Heq as Hm Hc. subst c. apply Qle_bool_iff in Hm.
    exists probe, d. repeat split; try assumption; try reflexivity. lra.
  - injection Heq as Hm _. apply Qgt_bool_true in Hm. exact Hm.
Qed.

End DetectorProperties.

(* ================================================================== *)
(** * Thresholds and scores of the verification engine *)

Section ThresholdProperties.
Context (env : Collaborators) (settings : Config.Settings).
Import Verification Reference Measures.

Lemma face_report_by_distance (student : Student.t)
    (request : AttendanceMarkRequest.t) :
  face_recognition_available env = true ->
  comparator_report env settings Face student request
  = match sample_distance env student request with
    | Some d => (Qle_bool d (FaceRecognition.tolerance settings), 1 - d)
    | None => (false, 0)
    end.
Proof.
  intro Hav.
  unfold comparator_report, sample_distance,
    FaceRecognition.compare_faces_from_base64, FaceRecognition.compare_faces.
  rewrite Hav. cbn [negb].
  destruct (pickle_loads env _) as [stored |]; [| reflexivity].
  destruct (FaceRecognition.decode_base64_image env _) as [img |];
    [| reflexivity].
  destruct (FaceRecognition.generate_embedding env img) as [probe |];
    [| reflexivity].
  destruct (face_distance env stored probe); reflexivity.
Qed.

(** Without the face library the report on the face is the draw, once
    the stored embedding is deserialized and the sample decoded. *)
Lemma face_report_simulated (student : Student.t)
    (request : AttendanceMarkRequest.t)
    (stored : Embedding env) (face_image : Image env) :
  face_recognition_available env = false ->
  pickle_loads env (value (Student.face_embedding student)) = Some stored ->
  FaceRecognition.decode_base64_image env
    (value (AttendanceMarkRequest.face_image request)) = Some face_image ->
  comparator_report env settings Face student request
  = (Qgt_bool (random_uniform env stored face_image) 0.8,
     random_uniform env stored face_image).
Proof.
  intros Hav Hst Himg.
  unfold comparator_report, FaceRecognition.compare_faces_from_base64,
    FaceRecognition.compare_faces.
  rewrite Hst, Himg, Hav. reflexivity.
Qed.

(** The verdicts, confidences and score of a result are those recorded
    for the three factors. *)
Lemma verdict_records (student : Student.t)
    (request : AttendanceMarkRequest.t) :
  let r := verdict env settings student request in
  face_verified r = fst (recorded env settings Face student request)
  /\ face_confidence r = snd (recorded env settings Face student request)
  /\ id_card_verified r = fst (recorded env settings IdCard student request)
  /\ id_card_confidence r = snd (recorded env settings IdCard student request)
  /\ fingerprint_verified r
     = fst (recorded env settings Fingerprint student request)
  /\ overall_confidence r
     = calculate_overall_confidence
         (snd (recorded env settings Face student request))
         (snd (recorded env settings IdCard student request))
         (fst (recorded env settings Fingerprint student request)).
Proof.
  unfold verdict. rewrite verify_request_unfold. cbn [fst].
  unfold gathered.
  generalize (descriptor (applicable_modalities student request)).
  generalize (recorded env settings Face student request).
  generalize (recorded env settings IdCard student request).
  generalize (recorded env settings Fingerprint student request).
  intros [pv pc] [iv ic] [fv fc] name. cbn [fst snd].
  generalize (calculate_overall_confidence fc ic pv). intro score.
  unfold determine_success.
  destruct (map method_name (applicable_modalities student request))
    as [| m1 [| m2 [| m3 rest]]]; cbn [List.length];
    split_ifs; repeat split.
Qed.

Lemma comparator_report_tolerance (tol a b : Q) (m : Modality)
    (student : Student.t) (request : AttendanceMarkRequest.t) :
  comparator_report env (Config.mkSettings tol a) m student request
  = comparator_report env (Config.mkSettings tol b) m student request.
Proof. destruct m; reflexivity. Qed.

(** X8.  The minimum face confidence binds the face alone.  Two
    configurations with the same face tolerance give the same result,
    field by field, and invoke the same comparators for every attempt in
    which the face is not the only applicable factor: next to another
    factor a face passes on the tolerance alone. *)
Theorem min_face_confidence_binds_face_alone
    (settings' : Config.Settings)
    (student : Student.t) (request : AttendanceMarkRequest.t) :
  Config.face_recognition_tolerance settings
  = Config.face_recognition_tolerance settings' ->
  evaluated env settings student request <> [Face] ->
  AttendanceSvc.verify_request env settings student request
  = AttendanceSvc.verify_request env settings' student request.
Proof.
  destruct settings as [tol a], settings' as [tol' b].
  cbn [Config.face_recognition_tolerance]. intros <- Hne.
  rewrite evaluated_is_applicable in Hne.
  rewrite !verify_request_unfold.
  unfold gathered, recorded, applicable_modalities in *.
  rewrite !(comparator_report_tolerance tol a b).
  cbn [filter] in *.
  destruct (applicable Face student request);
  destruct (applicable IdCard student request);
  destruct (applicable Fingerprint student request);
  try (exfalso; apply Hne; reflexivity);
  reflexivity.
Qed.

(** X9.  An unreadable face fails the attempt when the face library is
    present.  With the library, when the face factor is applicable but
    no distance can be measured - the stored embedding does not
    deserialize, the sample does not decode, no face is found in it, or
    the distance computation fails - the factor counts as evaluated and
    failed, not as skipped: the attempt fails and raises the anomaly
    flag whatever the other factors report.  Without the library no
    face is looked for: once the stored embedding deserializes and the
    sample decodes, the face is verified exactly when a random draw
    exceeds 0.8, and the draw is the confidence recorded. *)
Theorem unreadable_face_fails_attempt
    (student : Student.t) (request : AttendanceMarkRequest.t) :
  applicable Face student request = true ->
  let r := verdict env settings student request in
  (face_recognition_available env = true ->
   sample_distance env student request = None ->
   In Face (evaluated env settings student request)
   /\ face_verified r = false
   /\ face_confidence r = 0
   /\ success r = false
   /\ anomaly_detected r = true)
  /\ (face_recognition_available env = false ->
      forall stored face_image,
        FaceRecognition.deserialize_embedding env
          (value (Student.face_embedding student)) = Some stored ->
        FaceRecognition.decode_base64_image env
          (value (AttendanceMarkRequest.face_image request))
        = Some face_image ->
        In Face (evaluated env settings student request)
        /\ face_verified r
           = Qgt_bool (random_uniform env stored face_image) 0.8
        /\ face_confidence r = random_uniform env stored face_image).
Proof.
  intros Happ r.
  pose proof (verdict_records student request) as (Hfv & Hfc & _).
  assert (Hin : In Face (evaluated env settings student request))
    by (rewrite evaluated_is_applicable; apply In_filter_modalities;
        exact Happ).
  split.
  - intros Hav Hnone.
    pose proof (face_report_by_distance student request Hav) as Hrep.
    rewrite Hnone in Hrep.
    assert (Hs : success r = false).
    { subst r. rewrite success_over_applicable. cbn [filter]. rewrite Happ.
      cbn [map]. rewrite Hrep.
      destruct (applicable IdCard student request),
               (applicable Fingerprint student request); reflexivity. }
    split; [| split; [| split; [| split]]].
    + exact Hin.
    + subst r. rewrite Hfv. unfold recorded. rewrite Happ, Hrep. reflexivity.
    + subst r. rewrite Hfc. unfold recorded. rewrite Happ, Hrep. reflexivity.
    + exact Hs.
    + apply (verify_student_failure_iff_anomaly env settings student request).
      exact Hs.
  - intros Hav stored face_image Hst Himg.
    pose proof (face_report_simulated student request stored face_image
                  Hav Hst Himg) as Hrep.
    split; [exact Hin |].
    subst r. rewrite Hfv, Hfc. unfold recorded. rewrite Happ, Hrep.
    split; reflexivity.
Qed.

Lemma calculate_overall_confidence_le (f i : Q) (fp : bool) :
  calculate_overall_confidence f i fp
  <= f * 0.5 + i * 0.3 + (if fp then 0.95 else 0) * 0.2.
Proof.
  rewrite calculate_overall_confidence_eq. apply Q.le_min_l.
Qed.

(** X10.  The score is capped by the factors evaluated.  When the face
    and id-card comparators report confidences of at most one, the
    overall confidence of a result is at most the sum of the caps of the
    factors evaluated (0.5 for the face, 0.3 for the id card, 0.19 for
    the fingerprint), the weights not being renormalized.  A result with
    one factor evaluated therefore stays below the minimum overall
    confidence the service declares, whether it succeeds or not: success
    does not depend on that minimum. *)
Theorem score_capped_by_evaluated_factors
    (student : Student.t) (request : AttendanceMarkRequest.t) :
  snd (comparator_report env settings Face student request) <= 1 ->
  snd (comparator_report env settings IdCard student request) <= 1 ->
  let r := verdict env settings student request in
  overall_confidence r <= cap_sum (evaluated env settings student request)
  /\ (List.length (evaluated env settings student request) = 1%nat ->
      overall_confidence r < min_overall_confidence).
Proof.
  intros Hf Hi r.
  pose proof (verdict_records student request) as (_ & _ & _ & _ & _ & Hov).
  fold r in Hov.
  assert (Hcap : overall_confidence r
                 <= cap_sum (evaluated env settings student request)).
  { rewrite Hov, evaluated_is_applicable.
    eapply Qle_trans; [apply calculate_overall_confidence_le |].
    unfold recorded, cap_sum, cap, face_weight, id_weight, fingerprint_weight.
    cbn [filter].
    destruct (applicable Face student request);
    destruct (applicable IdCard student request);
    destruct (applicable Fingerprint student request);
    cbn [fst snd fold_right];
    try destruct (fst (comparator_report env settings Fingerprint student request));
    lra. }
  split; [exact Hcap |].
  intro Hlen. eapply Qle_lt_trans; [exact Hcap |].
  destruct (evaluated env settings student request) as [| m [| m' rest]];
    try discriminate.
  unfold cap_sum, cap, face_weight, id_weight, fingerprint_weight,
    min_overall_confidence.
  destruct m; cbn [fold_right]; lra.
Qed.

End ThresholdProperties.

(* ================================================================== *)
(** * Rows written by the attendance service *)

Section RowProperties.
Context (env : Collaborators) (settings : Config.Settings).
Import Verification Reference AttendanceSvc.

(** On success every applicable factor is verified, some factor is
    applicable and no anomaly is flagged. *)
Lemma success_all_applicable_verified (student : Student.t)
    (request : AttendanceMarkRequest.t) :
  success (verdict env settings student request) = true ->
  face_verified (verdict env settings student request)
  = applicable Face student request
  /\ id_card_verified (verdict env settings student request)
     = applicable IdCard student request
  /\ fingerprint_verified (verdict env settings student request)
     = applicable Fingerprint student request
  /\ evaluated env settings student request <> []
  /\ anomaly_detected (verdict env settings student request) = false.
Proof.
  verify_cases student request; cbn; split_ifs; intro Hs;
    try discriminate Hs; repeat split; discriminate.
Qed.

Lemma In_evaluated (student : Student.t) (request : AttendanceMarkRequest.t)
    (m : Modality) :
  In m (evaluated env settings student request)
  <-> applicable m student request = true.
Proof.
  rewrite evaluated_is_applicable. apply In_filter_modalities.
Qed.

(** X11.  What a presence row records.  A row created by
    [mark_attendance] takes the next key of the attendance table and
    carries the clock reading and the caller's address; the attempt
    writes no anomaly row; at least one comparator ran, and the row
    names the comparators that ran in its method descriptor.  It stores
    the face confidence and the id-card confidence exactly for the
    factors that were evaluated, and its fingerprint flag is never
    empty: true when the fingerprint factor was evaluated, false when it
    was skipped. *)
Theorem presence_row_records_evaluated_factors
    (db : Db) (request : AttendanceMarkRequest.t) (ip : option string)
    (now : Z) (db' : Db) (a : Attendance.t) (r : VerificationResult)
    (calls : list Modality) :
  mark_attendance env settings db request ip now = (db', Some a, r, calls) ->
  Attendance.id a = (attendance_seq db + 1)%Z
  /\ attendance_seq db' = (attendance_seq db + 1)%Z
  /\ Attendance.marked_at a = now
  /\ Attendance.ip_address a = ip
  /\ anomaly_logs db' = anomaly_logs db
  /\ calls <> []
  /\ Attendance.verification_method a = descriptor calls
  /\ Attendance.overall_confidence a = overall_confidence r
  /\ (In Face calls -> Attendance.face_confidence a = Some (face_confidence r))
  /\ (~ In Face calls -> Attendance.face_confidence a = None)
  /\ (In IdCard calls
      -> Attendance.id_card_confidence a = Some (id_card_confidence r))
  /\ (~ In IdCard calls -> Attendance.id_card_confidence a = None)
  /\ (In Fingerprint calls -> Attendance.fingerprint_match a = Some true)
  /\ (~ In Fingerprint calls -> Attendance.fingerprint_match a = Some false).
Proof.
  unfold mark_attendance, ret.
  destruct (get_student db _) as [student |]; [| intro H; inversion H].
  destruct (get_session db _) as [session |]; [| intro H; inversion H].
  destruct (negb (Session.is_active session)); [intro H; inversion H |].
  destruct (check_existing_attendance db _ _); [intro H; inversion H |].
  destruct (negb (Student.is_enrolled student)); [intro H; inversion H |].
  pose proof (success_all_applicable_verified student request) as Hall.
  pose proof (method_is_descriptor env settings student request) as Hm.
  pose proof (In_evaluated student request) as Hin.
  unfold verdict, evaluated in Hall, Hm, Hin.
  destruct (verify_request env settings student request) as [vr tr].
  cbn [fst snd] in Hall, Hm, Hin.
  unfold bind, _log_anomaly, add_anomaly, add_attendance.
  destruct (success vr) eqn:Esu; cbn;
    [| destruct (anomaly_detected vr); cbn; intro H; inversion H].
  destruct (Hall eq_refl) as (Hf & Hi & Hp & Hne & Han).
  rewrite Han. cbn. intro H. inversion H; subst; clear H. cbn.
  rewrite app_nil_r in *.
  rewrite !Hin, Hf, Hi, Hp.
  repeat split; try assumption; try reflexivity.
  - intros ->. reflexivity.
  - intro Hn. destruct (applicable Face student request);
      [exfalso; apply Hn; reflexivity | reflexivity].
  - intros ->. reflexivity.
  - intro Hn. destruct (applicable IdCard student request);
      [exfalso; apply Hn; reflexivity | reflexivity].
  - intros ->. reflexivity.
  - intro Hn. destruct (applicable Fingerprint student request);
      [exfalso; apply Hn; reflexivity | reflexivity].
Qed.





Lemma step_pairs_open_session (db : Db) (op : Op) :
  pairs (step env settings db op) = pairs db
  \/ exists k session,
       pairs (step env settings db op) = pairs db ++ [k]
       /\ get_session db (snd k) = Some session
       /\ Session.is_active session = true.
Proof.
  destruct op as [request ip now | aid status by_user
                 | ty reason sid ssid sev det ip dev now
                 | aid by_user notes now]; cbn [step].
  - destruct (mark_attendance env settings db request ip now)
      as [[[db' att] r] calls] eqn:E.
    pose proof (mark_attendance_effect env settings _ _ _ _ _ _ _ _ E)
      as (_ & _ & _ & [(_ & _ & Hsame) | (a & -> & _ & Happ & Hs & Ht & _)]);
      cbn [fst]; unfold pairs.
    + left. rewrite Hsame. reflexivity.
    + right.
      destruct (mark_attendance_success_inv env settings _ _ _ _ _ _ _ _ E)
        as (student & session & _ & Hse & Hact).
      exists (Attendance.student_id a, Attendance.session_id a), session.
      rewrite Happ, map_app. cbn [snd map]. rewrite Ht. auto.
  - left. unfold update_attendance_status, pairs.
    destruct (find _ (attendances db)); [| reflexivity].
    cbn [fst set_attendances attendances].
    apply update_first_map. reflexivity.
  - left. reflexivity.
  - left. unfold Anomaly.resolve_anomaly, pairs.
    destruct (find _ (anomaly_logs db)); reflexivity.
Qed.

Lemma closed_session_no_new_pair (ops : list Op) (db : Db) (ssid : Z) :
  (forall session, get_session db ssid = Some session ->
                   Session.is_active session = false) ->
  filter (fun k => Z.eqb (snd k) ssid) (pairs (run env settings db ops))
  = filter (fun k => Z.eqb (snd k) ssid) (pairs db).
Proof.
  revert db. induction ops as [| op ops IH]; intros db Hclosed;
    [reflexivity |].
  cbn [run fold_left]. fold (run env settings (step env settings db op) ops).
  rewrite IH.
  - destruct (step_pairs_open_session db op)
      as [E | (k & session & E & Hse & Hact)]; rewrite E; [reflexivity |].
    rewrite filter_app. cbn [filter].
    destruct (Z.eqb_spec (snd k) ssid) as [Hk | Hk];
      [| rewrite app_nil_r; reflexivity].
    rewrite Hk in Hse. apply Hclosed in Hse. congruence.
  - intros session Hse. apply Hclosed.
    unfold get_session in *.
    destruct (step_tables env settings db op) as [_ Hs].
    rewrite Hs in Hse. exact Hse.
Qed.

(** X13.  A closed session takes no attendance.  After a session has
    been closed through [activate_session], no sequence of service
    operations adds an attendance row for it: the (student, session)
    pairs of the session stay those present at closing.  The same holds
    for a session key that names no session. *)
Theorem closed_session_takes_no_attendance
    (db : Db) (ssid : Z) (ops : list Op) :
  let closed := fst (SessionsRouter.activate_session db ssid false) in
  filter (fun k => Z.eqb (snd k) ssid) (pairs (run env settings closed ops))
  = filter (fun k => Z.eqb (snd k) ssid) (pairs db).
Proof.
  intro closed.
  rewrite closed_session_no_new_pair.
  - subst closed. unfold SessionsRouter.activate_session.
    destruct (find _ (sessions db)); reflexivity.
  - subst closed. unfold SessionsRouter.activate_session, get_session.
    destruct (find (fun s => Z.eqb (Session.id s) ssid) (sessions db))
      as [s |] eqn:Efind; cbn [fst sessions].
    + intros session Hse.
      rewrite (find_update_first _ _ _ s) in Hse;
        [injection Hse as <-; reflexivity | reflexivity | exact Efind].
    + intros session Hse. congruence.
Qed.

End RowProperties.

(* ================================================================== *)
(** * Properties of the anomaly statistics *)

Section StatsProperties.
Import AnomalyQueries.

Lemma count_where_all {A : Type} (rows : list A) :
  count_where (fun _ => true) rows = Z.of_nat (List.length rows).
Proof.
  unfold count_where. f_equal. f_equal.
  induction rows as [| r rest IH]; [reflexivity |].
  cbn [filter]. rewrite IH. reflexivity.
Qed.

Lemma sum_counts_zero (ks : list string) :
  sum_counts (map (fun k => (k, 0%Z)) ks) = 0%Z.
Proof.
  induction ks as [| k ks IH]; [reflexivity |].
  cbn [map sum_counts fold_right snd] in *. unfold sum_counts in IH.
  rewrite IH. reflexivity.
Qed.

Lemma sum_counts_add (f g : string -> Z) (ks : list string) :
  sum_counts (map (fun k => (k, (f k + g k)%Z)) ks)
  = (sum_counts (map (fun k => (k, f k)) ks)
     + sum_counts (map (fun k => (k, g k)) ks))%Z.
Proof.
  induction ks as [| k ks IH]; [reflexivity |].
  unfold sum_counts in *. cbn [map fold_right snd]. rewrite IH. lia.
Qed.

Lemma sum_counts_ext (f g : string -> Z) (ks : list string) :
  (forall k, f k = g k) ->
  sum_counts (map (fun k => (k, f k)) ks)
  = sum_counts (map (fun k => (k, g k)) ks).
Proof.
  intro H. induction ks as [| k ks IH]; [reflexivity |].
  unfold sum_counts in *. cbn [map fold_right snd]. rewrite IH, H.
  reflexivity.
Qed.

Lemma sum_indicator_absent (x : string) (ks : list string) :
  ~ In x ks ->
  sum_counts (map (fun k => (k, if String.eqb x k then 1%Z else 0%Z)) ks)
  = 0%Z.
Proof.
  induction ks as [| k ks IH]; [reflexivity |].
  intro Hn. unfold sum_counts in *. cbn [map fold_right snd].
  rewrite IH by (intro; apply Hn; right; assumption).
  destruct (String.eqb_spec x k) as [-> | _];
    [exfalso; apply Hn; left; reflexivity | reflexivity].
Qed.

Lemma sum_indicator_present (x : string) (ks : list string) :
  NoDup ks -> In x ks ->
  sum_counts (map (fun k => (k, if String.eqb x k then 1%Z else 0%Z)) ks)
  = 1%Z.
Proof.
  induction ks as [| k ks IH]; [intros _ [] |].
  intros Hnd Hin. inversion Hnd as [| ? ? Hk Hnd']; subst.
  change (sum_counts (map (fun k0 => (k0, if String.eqb x k0 then 1%Z else 0%Z))
                        (k :: ks)))
    with ((if String.eqb x k then 1 else 0)
          + sum_counts (map (fun k0 => (k0, if String.eqb x k0 then 1%Z else 0%Z))
                          ks))%Z.
  destruct (String.eqb_spec x k) as [-> | Hne].
  - rewrite sum_indicator_absent by exact Hk. reflexivity.
  - destruct Hin as [-> | Hin]; [congruence |].
    rewrite IH by assumption. reflexivity.
Qed.

(** The counts of a grouping over keys that cover the rows add up to
    the number of rows. *)
Lemma grouped_counts_total (key : AnomalyLog.t -> string)
    (rows : list AnomalyLog.t) (ks : list string) :
  NoDup ks ->
  (forall a, In a rows -> In (key a) ks) ->
  sum_counts
    (map (fun k => (k, count_where (fun a => String.eqb (key a) k) rows)) ks)
  = count_where (fun _ => true) rows.
Proof.
  intros Hnd. induction rows as [| r rest IH]; intro Hcover.
  - apply sum_counts_zero.
  - rewrite count_where_cons.
    rewrite (sum_counts_ext
               (fun k => count_where (fun a => String.eqb (key a) k) (r :: rest))
               (fun k => ((if String.eqb (key r) k then 1 else 0)
                          + count_where (fun a => String.eqb (key a) k) rest)%Z))
      by (intro k;
          exact (count_where_cons (fun a => String.eqb (key a) k) r rest)).
    rewrite (sum_counts_add
               (fun k => if String.eqb (key r) k then 1%Z else 0%Z)
               (fun k => count_where (fun a => String.eqb (key a) k) rest)).
    rewrite sum_indicator_present;
      [| exact Hnd | apply Hcover; left; reflexivity].
    rewrite IH by (intros a Ha; apply Hcover; right; exact Ha).
    reflexivity.
Qed.

Lemma group_count_total (key : AnomalyLog.t -> string)
    (rows : list AnomalyLog.t) :
  sum_counts (group_count key rows) = count_where (fun _ => true) rows.
Proof.
  unfold group_count. apply grouped_counts_total.
  - apply NoDup_nodup.
  - intros a Ha. apply nodup_In. apply in_map. exact Ha.
Qed.

Lemma group_count_keys (key : AnomalyLog.t -> string)
    (rows : list AnomalyLog.t) :
  map fst (group_count key rows) = nodup string_dec (map key rows).
Proof.
  unfold group_count. rewrite map_map. cbn [fst]. apply map_id.
Qed.

Lemma group_count_positive (key : AnomalyLog.t -> string)
    (rows : list AnomalyLog.t) (k : string) (c : Z) :
  In (k, c) (group_count key rows) ->
  (0 < c)%Z /\ exists a, In a rows /\ key a = k.
Proof.
  unfold group_count. intro Hin. apply in_map_iff in Hin.
  destruct Hin as (k' & Heq & Hk). injection Heq as -> <-.
  apply nodup_In in Hk. apply in_map_iff in Hk.
  destruct Hk as (a & Hka & Ha).
  split; [| exists a; auto].
  unfold count_where.
  assert (Hf : In a (filter (fun b => String.eqb (key b) k) rows)).
  { apply filter_In. split; [exact Ha |]. apply String.eqb_eq. exact Hka. }
  destruct (filter _ rows); [destruct Hf | cbn [List.length]; lia].
Qed.

(** X14.  The statistics are consistent.  In the answer of [get_stats]
    the total is the number of anomaly rows, resolved and unresolved add
    up to the total and neither is negative, the counts by type and the
    counts by severity each add up to the total, every type and
    severity listed occurs once and with a positive count, and the rows
    of the last twenty-four hours are at most the total. *)
Theorem stats_are_consistent (db : Db) (now : Z) :
  let s := get_stats db now in
  total_anomalies s = Z.of_nat (List.length (anomaly_logs db))
  /\ (resolved s + unresolved s = total_anomalies s)%Z
  /\ (0 <= unresolved s <= total_anomalies s)%Z
  /\ (0 <= resolved s <= total_anomalies s)%Z
  /\ sum_counts (by_type s) = total_anomalies s
  /\ sum_counts (by_severity s) = total_anomalies s
  /\ NoDup (map fst (by_type s))
  /\ NoDup (map fst (by_severity s))
  /\ (forall k c, In (k, c) (by_type s) \/ In (k, c) (by_severity s) ->
        (0 < c)%Z)
  /\ (0 <= recent_24h s <= total_anomalies s)%Z.
Proof.
  intro s. subst s. unfold get_stats.
  cbn [total_anomalies unresolved resolved by_type by_severity recent_24h].
  pose proof (count_where_le_all (fun a => negb (AnomalyLog.is_resolved a))
                (anomaly_logs db)) as Hu.
  pose proof (count_where_nonneg (fun a => negb (AnomalyLog.is_resolved a))
                (anomaly_logs db)) as Hu0.
  pose proof (count_where_le_all
                (fun a => Z.leb (now - hours 24) (AnomalyLog.attempt_time a))
                (anomaly_logs db)) as Hr.
  pose proof (count_where_nonneg
                (fun a => Z.leb (now - hours 24) (AnomalyLog.attempt_time a))
                (anomaly_logs db)) as Hr0.
  split; [| split; [| split; [| split; [| split; [| split; [| split;
    [| split; [| split]]]]]]]].
  - apply count_where_all.
  - lia.
  - lia.
  - lia.
  - apply group_count_total.
  - apply group_count_total.
  - rewrite group_count_keys. apply NoDup_nodup.
  - rewrite group_count_keys. apply NoDup_nodup.
  - intros k c [H | H]; apply group_count_positive in H; tauto.
  - lia.
Qed.

Lemma count_where_update_first {A : Type} (p q : A -> bool) (f : A -> A)
    (rows : list A) (x : A) :
  find q rows = Some x ->
  count_where p (update_first q f rows)
  = (count_where p rows - (if p x then 1 else 0)
     + (if p (f x) then 1 else 0))%Z.
Proof.
  induction rows as [| r rest IH]; [discriminate |].
  cbn [find update_first]. destruct (q r).
  - intro H. injection H as <-. rewrite !count_where_cons. lia.
  - intro H. rewrite !count_where_cons, IH by exact H. lia.
Qed.

Lemma group_count_update_first (key : AnomalyLog.t -> string)
    (q : AnomalyLog.t -> bool) (f : AnomalyLog.t -> AnomalyLog.t)
    (rows : list AnomalyLog.t) :
  (forall a, key (f a) = key a) ->
  group_count key (update_first q f rows) = group_count key rows.
Proof.
  intro Hkey. unfold group_count.
  rewrite (update_first_map key q f rows Hkey).
  apply map_ext. intro k. f_equal.
  apply filter_update_first_length. intro x. rewrite Hkey. reflexivity.
Qed.

(** X15.  What a resolution does to the statistics.  Resolving an
    anomaly row that was unresolved moves one unit from unresolved to
    resolved; resolving a row that was resolved already, or naming a key
    that finds no row, leaves every figure as it was.  In each case the
    total, the counts by type and by severity and the figure for the
    last twenty-four hours are unchanged. *)
Theorem resolution_moves_one_unit
    (db : Db) (aid by_user : Z) (notes : string) (t now : Z) :
  let s := get_stats db now in
  let s' := get_stats (fst (Anomaly.resolve_anomaly db aid by_user notes t)) now in
  let moved :=
    match find (fun a => Z.eqb (AnomalyLog.id a) aid) (anomaly_logs db) with
    | Some row => if AnomalyLog.is_resolved row then 0%Z else 1%Z
    | None => 0%Z
    end in
  total_anomalies s' = total_anomalies s
  /\ unresolved s' = (unresolved s - moved)%Z
  /\ resolved s' = (resolved s + moved)%Z
  /\ by_type s' = by_type s
  /\ by_severity s' = by_severity s
  /\ recent_24h s' = recent_24h s.
Proof.
  intros s s' moved. subst s s' moved.
  unfold Anomaly.resolve_anomaly, get_stats.
  destruct (find (fun a => Z.eqb (AnomalyLog.id a) aid) (anomaly_logs db))
    as [row |] eqn:Efind;
    cbn [fst set_anomaly_logs anomaly_logs total_anomalies unresolved
         resolved by_type by_severity recent_24h].
  - assert (Htotal :
      count_where (fun _ => true)
        (update_first (fun a => Z.eqb (AnomalyLog.id a) aid)
           (fun a => AnomalyLog.resolved a by_user notes t) (anomaly_logs db))
      = count_where (fun _ => true) (anomaly_logs db))
      by (apply filter_update_first_length; reflexivity).
    assert (Hun :
      count_where (fun a => negb (AnomalyLog.is_resolved a))
        (update_first (fun a => Z.eqb (AnomalyLog.id a) aid)
           (fun a => AnomalyLog.resolved a by_user notes t) (anomaly_logs db))
      = (count_where (fun a => negb (AnomalyLog.is_resolved a)) (anomaly_logs db)
         - (if AnomalyLog.is_resolved row then 0 else 1))%Z).
    { rewrite (count_where_update_first _ _ _ _ row Efind).
      cbn [AnomalyLog.resolved AnomalyLog.is_resolved negb].
      destruct (AnomalyLog.is_resolved row); cbn [negb]; lia. }
    rewrite Htotal, Hun.
    repeat split; try lia.
    + apply group_count_update_first. reflexivity.
    + apply group_count_update_first. reflexivity.
    + apply filter_update_first_length. reflexivity.
  - repeat split; lia.
Qed.

End StatsProperties.

(* ================================================================== *)
(** * Properties of the id-card validation *)

Section IdCardProperties.
Context (ocr : IdValidation.Ocr).
Import IdValidation CardChecks.

Lemma ratio_bounds (m n : nat) :
  (m <= n)%nat -> (0 < n)%nat -> 0 <= ratio m n /\ ratio m n <= 1.
Proof.
  intros Hmn Hn. unfold ratio.
  assert (Hpos : 0 < inject_Z (Z.of_nat n)).
  { replace 0 with (inject_Z 0) by reflexivity. rewrite <- Zlt_Qlt. lia. }
  split.
  - apply Qle_shift_div_l; [exact Hpos |].
    rewrite Qmult_0_l. replace 0 with (inject_Z 0) by reflexivity.
    rewrite <- Zle_Qle. lia.
  - apply Qle_shift_div_r; [exact Hpos |].
    rewrite Qmult_1_l. rewrite <- Zle_Qle. lia.
Qed.

Lemma matched_parts_le (extracted : IdFields) (expected_name : string) :
  (matched_parts ocr extracted expected_name
   <= List.length (split ocr (upper ocr expected_name)))%nat.
Proof. unfold matched_parts. apply filter_length_le. Qed.

Lemma roll_score_values (extracted : IdFields) (expected_roll_no : string) :
  (roll_score ocr extracted expected_roll_no = 0
   /\ roll_matches ocr expected_roll_no extracted = false)
  \/ ((roll_score ocr extracted expected_roll_no = 0.25
       \/ roll_score ocr extracted expected_roll_no = 0.5)
      /\ roll_matches ocr expected_roll_no extracted = true).
Proof.
  unfold roll_score, roll_matches.
  destruct (truthy (roll_no extracted)); cbn [andb]; [| auto].
  destruct (String.eqb _ _); cbn [orb]; [auto |].
  destruct (contains _ _ || contains _ _); auto.
Qed.

Lemma name_score_bounds (extracted : IdFields) (expected_name : string) :
  0 <= name_score ocr extracted expected_name
  /\ name_score ocr extracted expected_name <= 0.5.
Proof.
  unfold name_score. destruct (truthy (name extracted)); [| split; lra].
  destruct (Nat.eqb_spec (matched_parts ocr extracted expected_name)
              (List.length (split ocr (upper ocr expected_name))));
    [split; lra |].
  destruct (Nat.ltb_spec 0 (matched_parts ocr extracted expected_name));
    [| split; lra].
  pose proof (matched_parts_le extracted expected_name) as Hle.
  destruct (ratio_bounds (matched_parts ocr extracted expected_name)
              (List.length (split ocr (upper ocr expected_name))))
    as [H0 H1]; [exact Hle | lia |].
  split; lra.
Qed.

Lemma name_score_positive (extracted : IdFields) (expected_name : string) :
  0 < name_score ocr extracted expected_name ->
  name_matches ocr expected_name extracted = true.
Proof.
  unfold name_score, name_matches.
  destruct (truthy (name extracted)); [| lra]. cbn [andb].
  destruct (Nat.ltb 0 (matched_parts ocr extracted expected_name)) eqn:Elt;
    [reflexivity |]. cbn [orb].
  apply Nat.ltb_ge in Elt.
  destruct (Nat.eqb_spec (matched_parts ocr extracted expected_name)
              (List.length (split ocr (upper ocr expected_name))))
    as [Heq | Hneq]; [| lra].
  intros _. apply Nat.eqb_eq. lia.
Qed.

Lemma name_score_full (extracted : IdFields) (expected_name : string) :
  name_matches_fully ocr expected_name extracted = true ->
  name_score ocr extracted expected_name = 0.5.
Proof.
  unfold name_score, name_matches_fully. intro H.
  apply andb_prop in H. destruct H as [-> ->]. reflexivity.
Qed.

(** [validate_id_card] on what was read from the image. *)
Lemma validate_id_card_by_reading
    (base64_image expected_roll_no expected_name : string) :
  fst (validate_id_card ocr base64_image expected_roll_no expected_name)
  = match reading ocr base64_image with
    | None => (false, 0)
    | Some extracted =>
        let confidence :=
          0 + roll_score ocr extracted expected_roll_no
          + name_score ocr extracted expected_name in
        (Qle_bool min_confidence confidence, confidence)
    end.
Proof.
  unfold validate_id_card, reading.
  destruct (open_image ocr base64_image) as [image |]; [| reflexivity].
  destruct (nonempty (extract_text ocr image)); reflexivity.
Qed.

(** A valid card passed both checks. *)
Lemma valid_card_evidence
    (base64_image expected_roll_no expected_name : string) :
  fst (fst (validate_id_card ocr base64_image expected_roll_no expected_name))
  = true ->
  exists extracted,
    reading ocr base64_image = Some extracted
    /\ roll_matches ocr expected_roll_no extracted = true
    /\ name_matches ocr expected_name extracted = true.
Proof.
  rewrite validate_id_card_by_reading.
  destruct (reading ocr base64_image) as [extracted |]; [| discriminate].
  cbn [fst]. intro Hvalid. apply Qle_bool_iff in Hvalid.
  unfold min_confidence in Hvalid.
  exists extracted. split; [reflexivity |].
  pose proof (name_score_bounds extracted expected_name) as [Hn0 Hn1].
  destruct (roll_score_values extracted expected_roll_no)
    as [[E Hm] | [[E | E] Hm]]; rewrite E in Hvalid.
  - lra.
  - split; [exact Hm |]. apply name_score_positive. lra.
  - split; [exact Hm |]. apply name_score_positive. lra.
Qed.

Lemma card_confidence_in_unit
    (base64_image expected_roll_no expected_name : string) :
  0 <= snd (fst (validate_id_card ocr base64_image expected_roll_no
                   expected_name))
  /\ snd (fst (validate_id_card ocr base64_image expected_roll_no
                 expected_name)) <= 1.
Proof.
  rewrite validate_id_card_by_reading.
  destruct (reading ocr base64_image) as [extracted |];
    cbn [snd]; [| split; lra].
  pose proof (name_score_bounds extracted expected_name) as [Hn0 Hn1].
  destruct (roll_score_values extracted expected_roll_no)
    as [[E _] | [[E | E] _]]; rewrite E; split; lra.
Qed.

(** X16.  What a valid id card means.  The confidence of
    [validate_id_card] lies between zero and one, and an image that does
    not open or yields no text is invalid, scores zero and returns no
    data.  A card is valid only when a roll number was extracted that
    equals, contains or is contained in the expected one, and a name was
    extracted in which a part of the expected name occurs or the
    expected name has no parts: neither check passes a card alone.
    Conversely a card whose roll number passes that test and in which
    every part of the expected name occurs is valid, with a confidence
    of at least 0.75. *)
Theorem id_card_valid_needs_roll_and_name
    (base64_image expected_roll_no expected_name : string) :
  let out := validate_id_card ocr base64_image expected_roll_no expected_name in
  let is_valid := fst (fst out) in
  let confidence := snd (fst out) in
  0 <= confidence /\ confidence <= 1
  /\ (reading ocr base64_image = None -> out = (false, 0, []))
  /\ (is_valid = true ->
      exists extracted,
        reading ocr base64_image = Some extracted
        /\ roll_matches ocr expected_roll_no extracted = true
        /\ name_matches ocr expected_name extracted = true)
  /\ (forall extracted,
        reading ocr base64_image = Some extracted ->
        roll_matches ocr expected_roll_no extracted = true ->
        name_matches_fully ocr expected_name extracted = true ->
        is_valid = true /\ 0.75 <= confidence).
Proof.
  intros out is_valid confidence. subst out is_valid confidence.
  pose proof (card_confidence_in_unit base64_image expected_roll_no
                expected_name) as [H0 H1].
  split; [exact H0 |]. split; [exact H1 |]. split; [| split].
  - unfold reading, validate_id_card.
    destruct (open_image ocr base64_image) as [image |]; [| reflexivity].
    destruct (nonempty (extract_text ocr image)); [discriminate | reflexivity].
  - apply valid_card_evidence.
  - intros extracted Hread Hroll Hname.
    rewrite validate_id_card_by_reading, Hread. cbn [fst snd].
    rewrite (name_score_full _ _ Hname).
    destruct (roll_score_values extracted expected_roll_no)
      as [[_ Hm] | [[E | E] _]]; [congruence | |]; rewrite E;
      (split; [apply Qle_bool_iff; unfold min_confidence; lra | lra]).
Qed.

End IdCardProperties.

Section IdCardAloneProperties.
Context (env : Collaborators) (ocr : IdValidation.Ocr)
        (settings : Config.Settings).
Import Verification Reference IdValidation CardChecks.

(** X17.  An id card alone marks attendance on roll number and name.
    With the id-card comparator given by [validate_id_card], an attempt
    in which the id card is the only factor evaluated succeeds only when
    a roll number matching the student's was read from the image
    together with a name matching the student's; the overall confidence
    it records is at most 0.3. *)
Theorem id_card_alone_needs_roll_and_name
    (student : Student.t) (request : AttendanceMarkRequest.t) :
  let env' := with_ocr env ocr in
  evaluated env' settings student request = [IdCard] ->
  success (verdict env' settings student request) = true ->
  (exists extracted,
     reading ocr (value (AttendanceMarkRequest.id_card_image request))
     = Some extracted
     /\ roll_matches ocr (Student.roll_no student) extracted = true
     /\ name_matches ocr (Student.name student) extracted = true)
  /\ overall_confidence (verdict env' settings student request) <= 0.3.
Proof.
  intros env' Hev Hs.
  pose proof (verdict_records env' settings student request)
    as (_ & _ & _ & _ & _ & Hov).
  rewrite success_over_applicable in Hs.
  rewrite evaluated_is_applicable in Hev.
  rewrite Hev in Hs. cbn [map tiered_policy outcome modality verified] in Hs.
  rewrite andb_true_r in Hs.
  split.
  - apply valid_card_evidence with (base64_image :=
      value (AttendanceMarkRequest.id_card_image request)).
    exact Hs.
  - rewrite Hov.
    eapply Qle_trans; [apply calculate_overall_confidence_le |].
    assert (Hf : applicable Face student request = false
                 /\ applicable IdCard student request = true
                 /\ applicable Fingerprint student request = false).
    { cbn [filter] in Hev.
      destruct (applicable Face student request),
               (applicable IdCard student request),
               (applicable Fingerprint student request);
        try discriminate Hev; auto. }
    destruct Hf as (Ef & Ei & Ep).
    unfold recorded. rewrite Ef, Ei, Ep. cbn [fst snd].
    pose proof (card_confidence_in_unit ocr
                  (value (AttendanceMarkRequest.id_card_image request))
                  (Student.roll_no student) (Student.name student))
      as [_ H1].
    change (snd (comparator_report env' settings IdCard student request))
      with (snd (fst (IdValidation.validate_id_card ocr
                        (value (AttendanceMarkRequest.id_card_image request))
                        (Student.roll_no student) (Student.name student)))).
    lra.
Qed.

End IdCardAloneProperties.

(* ================================================================== *)
(** * Properties of the attendance routes *)

Section RouteProperties.
Context (env : Collaborators) (settings : Config.Settings).
Import Verification Reference Auth AnomalyQueries.

(** The route is the service, behind its two guards. *)
Lemma mark_route_unfold (db : Db) (client : option string)
    (q : AttendanceMarkRequest.t) (user : User) (now : Z) :
  AttendanceRouter.mark_attendance env settings db client q user now
  = if negb (is_active user)
    then (db, inl (mkHTTPException HTTP_403_FORBIDDEN "Inactive user"), [])
    else if role_eqb (role user) STUDENT
            && AttendanceRouter.other_student (student_id user)
                 (AttendanceMarkRequest.student_id q)
    then (db, inl (mkHTTPException HTTP_403_FORBIDDEN
                     "You can only mark your own attendance"), [])
    else
      let out := AttendanceSvc.mark_attendance env settings db q client now in
      (fst (fst (fst out)), inr (snd (fst out)), snd out).
Proof.
  unfold AttendanceRouter.mark_attendance, get_current_active_user.
  destruct (negb (is_active user)); [reflexivity |].
  destruct (role_eqb (role user) STUDENT && _); [reflexivity |].
  unfold bind, ret.
  destruct (AttendanceSvc.mark_attendance env settings db q client now)
    as [[[db' att] r] calls].
  cbn [fst snd]. rewrite app_nil_r. reflexivity.
Qed.

(** X18.  A student user writes rows for nobody else.  Whatever a user
    with the student role submits to the mark route, every attendance
    row and every anomaly row present afterwards was present before or
    names the student the user is linked to; a request that names
    another student, or any request of a student user linked to no
    student, is answered with 403, invokes no comparator and leaves the
    database as it was.  The status route answers a student user with
    403 and changes nothing. *)
Theorem student_user_writes_own_rows_only
    (db : Db) (client : option string) (q : AttendanceMarkRequest.t)
    (user : User) (now : Z) :
  role user = STUDENT ->
  let out := AttendanceRouter.mark_attendance env settings db client q user now in
  let db' := fst (fst out) in
  (forall a, In a (attendances db') ->
     In a (attendances db) \/ student_id user = Some (Attendance.student_id a))
  /\ (forall row, In row (anomaly_logs db') ->
        In row (anomaly_logs db)
        \/ student_id user = AnomalyLog.student_id row)
  /\ (student_id user <> Some (AttendanceMarkRequest.student_id q) ->
      db' = db /\ snd out = []
      /\ exists e, snd (fst out) = inl e /\ status_code e = HTTP_403_FORBIDDEN)
  /\ (forall aid status,
        fst (AttendanceRouter.update_attendance_status db aid status user) = db
        /\ exists e,
             snd (AttendanceRouter.update_attendance_status db aid status user)
             = inl e
             /\ status_code e = HTTP_403_FORBIDDEN).
Proof.
  intros Hrole out db'. subst out db'.
  rewrite mark_route_unfold, Hrole. cbn [role_eqb andb].
  split; [| split; [| split]].
  - destruct (negb (is_active user)); [cbn [fst]; auto |].
    destruct (student_id user) as [linked |]; cbn [AttendanceRouter.other_student];
      [| cbn [fst]; auto].
    destruct (Z.eqb_spec linked (AttendanceMarkRequest.student_id q))
      as [-> | Hne]; cbn [negb fst snd]; [| auto].
    destruct (AttendanceSvc.mark_attendance env settings db q client now)
      as [[[d att] r] calls] eqn:E. cbn [fst snd].
    apply mark_attendance_effect in E.
    destruct E as (_ & _ & _ & [(_ & _ & Hsame) | (a & _ & _ & Happ & Hs & _)]).
    + rewrite Hsame. auto.
    + rewrite Happ. intros x Hx. apply in_app_or in Hx.
      destruct Hx as [Hx | [<- | []]]; [auto |]. right. congruence.
  - destruct (negb (is_active user)); [cbn [fst]; auto |].
    destruct (student_id user) as [linked |]; cbn [AttendanceRouter.other_student];
      [| cbn [fst]; auto].
    destruct (Z.eqb_spec linked (AttendanceMarkRequest.student_id q))
      as [-> | Hne]; cbn [negb fst snd]; [| auto].
    destruct (AttendanceSvc.mark_attendance env settings db q client now)
      as [[[d att] r] calls] eqn:E. cbn [fst snd].
    apply mark_attendance_effect in E.
    destruct E as (_ & _ & [(_ & Hsame) | (_ & row & Happ & _ & Hs & _)] & _).
    + rewrite Hsame. auto.
    + rewrite Happ. intros x Hx. apply in_app_or in Hx.
      destruct Hx as [Hx | [<- | []]]; [auto |]. right. congruence.
  - intro Hother.
    destruct (negb (is_active user));
      [cbn [fst snd]; repeat split; eexists; split; reflexivity |].
    assert (Ho : AttendanceRouter.other_student (student_id user)
                   (AttendanceMarkRequest.student_id q) = true).
    { destruct (student_id user) as [linked |]; [| reflexivity].
      cbn [AttendanceRouter.other_student].
      apply negb_true_iff. apply Z.eqb_neq. congruence. }
    rewrite Ho. cbn [fst snd]. repeat split. eexists; split; reflexivity.
  - intros aid status.
    unfold AttendanceRouter.update_attendance_status, require_role,
      get_current_active_user.
    destruct (negb (is_active user));
      [cbn [fst snd]; split; [reflexivity | eexists; split; reflexivity] |].
    rewrite Hrole. cbn [existsb role_eqb orb negb fst snd].
    split; [reflexivity | eexists; split; reflexivity].
Qed.

(** A success adds nothing to the anomaly table. *)
Lemma success_logs_nothing (db : Db) (request : AttendanceMarkRequest.t)
    (ip : option string) (now : Z) :
  success (snd (fst (AttendanceSvc.mark_attendance env settings db request
                       ip now))) = true ->
  anomaly_logs
    (fst (fst (fst (AttendanceSvc.mark_attendance env settings db request
                      ip now))))
  = anomaly_logs db.
Proof.
  unfold AttendanceSvc.mark_attendance, ret.
  destruct (AttendanceSvc.get_student db _) as [student |];
    [| intro H; cbn in H; discriminate H].
  destruct (AttendanceSvc.get_session db _) as [session |];
    [| intro H; cbn in H; discriminate H].
  destruct (negb (Session.is_active session)); [intro H; cbn in H; discriminate H |].
  destruct (AttendanceSvc.check_existing_attendance db _ _);
    [intro H; cbn in H; discriminate H |].
  destruct (negb (Student.is_enrolled student)); [intro H; cbn in H; discriminate H |].
  pose proof (success_all_applicable_verified env settings student request)
    as Hall.
  unfold verdict in Hall.
  destruct (AttendanceSvc.verify_request env settings student request)
    as [vr tr].
  cbn [fst] in Hall.
  unfold bind, AttendanceSvc._log_anomaly, add_anomaly, add_attendance.
  destruct (success vr) eqn:Esu; cbn;
    [| destruct (anomaly_detected vr); cbn; intro H; congruence].
  destruct (Hall eq_refl) as (_ & _ & _ & _ & Han).
  rewrite Han. cbn. reflexivity.
Qed.

(** X19.  The detectors see failures only.  A mark attempt that
    succeeds leaves the repeated-failure throttle and the shared-address
    check as they were, for every student, session, address and clock
    reading: both read the anomaly table, to which a success adds
    nothing, so students marked present from one address are not
    detected. *)
Theorem successful_mark_is_invisible_to_detectors
    (db : Db) (request : AttendanceMarkRequest.t) (ip : option string)
    (now : Z) (sid ssid t : Z) (address : string) :
  let out := AttendanceSvc.mark_attendance env settings db request ip now in
  let db' := fst (fst (fst out)) in
  success (snd (fst out)) = true ->
  check_repeated_failures db' sid ssid t = check_repeated_failures db sid ssid t
  /\ check_ip_anomaly db' address ssid sid = check_ip_anomaly db address ssid sid.
Proof.
  intros out db' Hs. subst out db'.
  unfold check_repeated_failures, check_ip_anomaly.
  rewrite (success_logs_nothing db request ip now Hs).
  split; reflexivity.
Qed.

End RouteProperties.

(* ================================================================== *)
(** * Properties of the anomaly listing *)

Section ListingProperties.
Import AnomalyQueries AnomalyListing.
Context (order : list AnomalyLog.t -> list AnomalyLog.t).




End ListingProperties.

(* ================================================================== *)
(** * The further properties on the demonstration deployment *)

Section Scenarios.
Import Verification Reference AttendanceSvc AnomalyQueries Measures Auth.

(** Three attempts of Alice with a wrong token, at times 100, 200 and
    300: the throttle answers true at time 1900, when the first attempt
    is 1800 seconds old, and false one second later; after two attempts
    it answers false. *)
Lemma three_failures_trip_throttle_witness :
  check_repeated_failures
    (run Demo.env Demo.settings Demo.db0
       [MarkAttendance Demo.alice_bad_fp None 100;
        MarkAttendance Demo.alice_bad_fp None 200;
        MarkAttendance Demo.alice_bad_fp None 300])
    1 10 1900 = true
  /\ check_repeated_failures
       (run Demo.env Demo.settings Demo.db0
          [MarkAttendance Demo.alice_bad_fp None 100;
           MarkAttendance Demo.alice_bad_fp None 200;
           MarkAttendance Demo.alice_bad_fp None 300])
       1 10 1901 = false
  /\ check_repeated_failures
       (run Demo.env Demo.settings Demo.db0
          [MarkAttendance Demo.alice_bad_fp None 100;
           MarkAttendance Demo.alice_bad_fp None 200])
       1 10 1900 = false.
Proof.
  split; [| split; reflexivity].
  apply (proj1 (three_failures_trip_throttle Demo.env Demo.settings Demo.db0
                  Demo.alice Demo.open_session
                  Demo.alice_bad_fp Demo.alice_bad_fp Demo.alice_bad_fp
                  None None None 100 200 300 1900 [] [] []
                  eq_refl eq_refl eq_refl eq_refl
                  eq_refl eq_refl eq_refl eq_refl eq_refl eq_refl
                  eq_refl eq_refl eq_refl eq_refl
                  ltac:(vm_compute; discriminate)
                  ltac:(vm_compute; discriminate)
                  ltac:(vm_compute; discriminate))).
Defined.

(** Alice fails from address 10.0.0.7; Bob then presents that address. *)
Lemma failed_attempt_marks_address_witness :
  success (verdict Demo.env Demo.settings Demo.alice Demo.alice_bad_fp)
  = false
  /\ check_ip_anomaly Demo.db0 "10.0.0.7" 10 2 = false
  /\ check_ip_anomaly
       (fst (fst (fst (mark_attendance Demo.env Demo.settings Demo.db0
                         Demo.alice_bad_fp (Some "10.0.0.7") 100))))
       "10.0.0.7" 10 2 = true.
Proof.
  split; [reflexivity |]. split; [reflexivity |].
  apply (proj1 (failed_attempt_marks_address Demo.env Demo.settings Demo.db0
                  Demo.alice Demo.open_session
                  Demo.alice_bad_fp "10.0.0.7" 100 [] 2
                  eq_refl eq_refl eq_refl eq_refl eq_refl eq_refl
                  ltac:(vm_compute; discriminate))).
Defined.

(** Alice claims with Carol's face: with the library the distance to
    Carol's embedding is zero; without it the draw 0.9 names the first
    other student of the college. *)
Lemma duplicate_face_answer_sound_witness :
  Anomaly.check_duplicate_face Demo.env Demo.settings Demo.db0 "cccc" 1 "C1"
  = Some 3%Z
  /\ 3%Z <> 1%Z
  /\ (exists m,
        Anomaly.check_duplicate_face Scenario.simulated_env Demo.settings
          Demo.db0 "blank" 1 "C1" = Some m
        /\ m <> 1%Z).
Proof.
  split; [reflexivity |].
  split.
  - apply (proj1 (duplicate_face_answer_sound Demo.env Demo.settings Demo.db0
                    "cccc" 1 "C1" 3 eq_refl)).
  - eexists. split; [vm_compute; reflexivity |].
    apply (proj1 (duplicate_face_answer_sound Scenario.simulated_env
                    Demo.settings Demo.db0 "blank" 1 "C1" _ eq_refl)).
Defined.

(** Alice with face and fingerprint under two minimum face confidences. *)
Lemma min_face_confidence_binds_face_alone_witness :
  evaluated Demo.env Demo.settings Demo.alice Scenario.alice_face_fp
  = [Face; Fingerprint]
  /\ verify_request Demo.env Demo.settings Demo.alice Scenario.alice_face_fp
     = verify_request Demo.env Scenario.strict_settings Demo.alice
         Scenario.alice_face_fp.
Proof.
  split; [reflexivity |].
  apply (min_face_confidence_binds_face_alone Demo.env Demo.settings
           Scenario.strict_settings Demo.alice Scenario.alice_face_fp
           eq_refl ltac:(vm_compute; discriminate)).
Defined.

(** Bob with an image in which no face is found: with the library the
    attempt fails; without it the draw 0.9 verifies the face. *)
Lemma unreadable_face_fails_attempt_witness :
  applicable Face Demo.bob Scenario.bob_blank = true
  /\ sample_distance Scenario.blind_env Demo.bob Scenario.bob_blank = None
  /\ success
       (verdict Scenario.blind_env Demo.settings Demo.bob Scenario.bob_blank)
     = false
  /\ anomaly_detected
       (verdict Scenario.blind_env Demo.settings Demo.bob Scenario.bob_blank)
     = true
  /\ face_verified
       (verdict Scenario.simulated_env Demo.settings Demo.bob
          Scenario.bob_blank)
     = Qgt_bool 0.9 0.8
  /\ success
       (verdict Scenario.simulated_env Demo.settings Demo.bob
          Scenario.bob_blank)
     = true.
Proof.
  split; [reflexivity |]. split; [reflexivity |].
  destruct (proj1 (unreadable_face_fails_attempt Scenario.blind_env
                     Demo.settings Demo.bob Scenario.bob_blank eq_refl)
              eq_refl eq_refl)
    as (_ & _ & _ & Hs & Ha).
  destruct (proj2 (unreadable_face_fails_attempt Scenario.simulated_env
                     Demo.settings Demo.bob Scenario.bob_blank eq_refl)
              eq_refl "bbbbb" "blank" eq_refl eq_refl)
    as (_ & Hv & _).
  split; [exact Hs |]. split; [exact Ha |].
  split; [exact Hv | reflexivity].
Defined.

(** Alice with her fingerprint alone: a success that scores 0.19. *)
Lemma score_capped_by_evaluated_factors_witness :
  success (verdict Demo.env Demo.settings Demo.alice Demo.alice_fp) = true
  /\ overall_confidence (verdict Demo.env Demo.settings Demo.alice Demo.alice_fp)
     < min_overall_confidence.
Proof.
  split; [reflexivity |].
  apply (proj2 (score_capped_by_evaluated_factors Demo.env Demo.settings
                  Demo.alice Demo.alice_fp
                  ltac:(vm_compute; discriminate)
                  ltac:(vm_compute; discriminate))).
  reflexivity.
Defined.

(** The row of Alice's successful mark. *)
Lemma presence_row_records_evaluated_factors_witness :
  mark_attendance Demo.env Demo.settings Demo.db0 Demo.alice_fp None 100
  = (Demo.db1, Some Demo.alice_row, snd (fst Demo.alice_out), [Fingerprint])
  /\ Attendance.fingerprint_match Demo.alice_row = Some true
  /\ Attendance.face_confidence Demo.alice_row = None.
Proof.
  assert (E : mark_attendance Demo.env Demo.settings Demo.db0 Demo.alice_fp
                None 100
              = (Demo.db1, Some Demo.alice_row, snd (fst Demo.alice_out),
                 [Fingerprint])) by reflexivity.
  split; [exact E |].
  destruct (presence_row_records_evaluated_factors Demo.env Demo.settings
              Demo.db0 Demo.alice_fp None 100 Demo.db1 Demo.alice_row
              (snd (fst Demo.alice_out)) [Fingerprint] E)
    as (_ & _ & _ & _ & _ & _ & _ & _ & _ & Hface & _ & _ & Hfp & _).
  split.
  - apply Hfp. left. reflexivity.
  - apply Hface. intros [H | []]. discriminate H.
Defined.

(** Alice with a card that reads as her roll number and name. *)
Lemma id_card_alone_needs_roll_and_name_witness :
  evaluated (IdValidation.with_ocr Demo.env Scenario.ocr) Demo.settings
    Demo.alice Scenario.alice_card = [IdCard]
  /\ success (verdict (IdValidation.with_ocr Demo.env Scenario.ocr)
                Demo.settings Demo.alice Scenario.alice_card) = true
  /\ overall_confidence
       (verdict (IdValidation.with_ocr Demo.env Scenario.ocr)
          Demo.settings Demo.alice Scenario.alice_card) <= 0.3.
Proof.
  split; [reflexivity |]. split; [reflexivity |].
  apply (proj2 (id_card_alone_needs_roll_and_name Demo.env Scenario.ocr
                  Demo.settings Demo.alice Scenario.alice_card
                  eq_refl eq_refl)).
Defined.

(** Alice's account asks to mark Bob present. *)
Lemma student_user_writes_own_rows_only_witness :
  role Scenario.alice_user = STUDENT
  /\ fst (fst (AttendanceRouter.mark_attendance Demo.env Demo.settings
                 Demo.db0 None Scenario.bob_face Scenario.alice_user 100))
     = Demo.db0.
Proof.
  split; [reflexivity |].
  destruct (student_user_writes_own_rows_only Demo.env Demo.settings Demo.db0
              None Scenario.bob_face Scenario.alice_user 100 eq_refl)
    as (_ & _ & Hother & _).
  apply Hother. vm_compute. discriminate.
Defined.

(** Alice's successful mark seen by the detectors. *)
Lemma successful_mark_is_invisible_to_detectors_witness :
  success (snd (fst (mark_attendance Demo.env Demo.settings Demo.db0
                       Demo.alice_fp (Some "10.0.0.7") 100))) = true
  /\ check_ip_anomaly
       (fst (fst (fst (mark_attendance Demo.env Demo.settings Demo.db0
                         Demo.alice_fp (Some "10.0.0.7") 100))))
       "10.0.0.7" 10 2
     = check_ip_anomaly Demo.db0 "10.0.0.7" 10 2.
Proof.
  split; [reflexivity |].
  apply (proj2 (successful_mark_is_invisible_to_detectors Demo.env
                  Demo.settings Demo.db0 Demo.alice_fp (Some "10.0.0.7")
                  100 2 10 0 "10.0.0.7" eq_refl)).
Defined.


End Scenarios.
